(** * Goal engine of the Greep Market front-end

    A shallow embedding of [src/context/GoalContext.tsx]: the goal
    reconciler ([loadGoals]), the progress calculator
    ([updateGoalProgress]), the period-rollover guard
    ([resetDailyGoalsForNewDay]) and the achievement evaluator
    ([checkGoalAchievements]), together with the part of the ECMAScript
    [Date] object these functions rely on.

    Conventions of the embedding:
    - a [Date] is its time value, an integer number of milliseconds since
      the epoch (invalid dates are outside the model);
    - local time is that of a zone whose offset may change with the
      instant ([Zone]);
    - a JavaScript [number] holding an amount is a rational [Q].  The
      quotient whose ceiling is the daily target proposed from the
      monthly one is rounded to the nearest double, as the code rounds
      it ([roundTiesToEven]): its ceiling depends on it.  The percentage
      of a Progress is kept exact; what the theorems say of it holds of
      the double the code stores as well, being said up to rounding
      ([uptoRounding]) or being a comparison that rounding preserves;
    - an ISO-8601 string naming an instant is that instant, so that
      [new Date(s)] and [d.toISOString()] are the identity;
    - [localStorage] is a finite map from keys to stored values, which
      are the texts the engine has written or any other text, read back
      by [JSON.parse] ([parseJSON]);
    - an [async] function is a state transformer over the reducer state,
      the local cache and a log of the calls made to the collaborators;
      a rejected promise or a thrown exception is the outcome [Threw];
    - [checkGoalAchievements], which its callers do not await, is also
      given by the segments between its [await]s, run in any order
      ([schedule]). *)

From Stdlib Require Import ZArith QArith Qround Qminmax Qabs Qpower Lia Lqa.
From Stdlib Require Import List Bool.
From Stdlib Require Import Ascii String DecimalString DecimalZ DecimalN.
From stdpp Require Import gmap strings.

Open Scope Z_scope.

Ltac Zify.zify_post_hook ::= Z.to_euclidean_division_equations.

(** ** ECMAScript time values (ECMA-262, section "Date objects") *)

Definition msPerSecond : Z := 1000.
Definition msPerMinute : Z := 60000.
Definition msPerHour : Z := 3600000.
Definition msPerDay : Z := 86400000.

Definition Day (t : Z) : Z := t / msPerDay.
Definition TimeWithinDay (t : Z) : Z := t mod msPerDay.

Definition isLeapYear (y : Z) : bool :=
  (y mod 4 =? 0) && (negb (y mod 100 =? 0) || (y mod 400 =? 0)).

Definition DaysInYear (y : Z) : Z := if isLeapYear y then 366 else 365.

Definition DayFromYear (y : Z) : Z :=
  365 * (y - 1970) + (y - 1969) / 4 - (y - 1901) / 100 + (y - 1601) / 400.

Definition TimeFromYear (y : Z) : Z := msPerDay * DayFromYear y.

(** The standard defines [YearFromTime t] as the largest [y] with
    [TimeFromYear y <= t].  It is computed here from the mean length of
    a Gregorian year, which is off by at most one, and then adjusted;
    [YearFromTime_spec] and [YearFromTime_unique] show that the result
    is the year of the standard. *)
Definition YearFromDay (d : Z) : Z :=
  let y0 := 1970 + (400 * d) / 146097 in
  if DayFromYear (y0 + 1) <=? d then y0 + 1
  else if DayFromYear y0 <=? d then y0
  else y0 - 1.

Definition YearFromTime (t : Z) : Z := YearFromDay (Day t).

Definition InLeapYear (t : Z) : Z :=
  if isLeapYear (YearFromTime t) then 1 else 0.

Definition DayWithinYear (t : Z) : Z := Day t - DayFromYear (YearFromTime t).

(** Number of days of the year that precede month [m] (0 = January);
    [leap] is 1 in a leap year and 0 otherwise. *)
Definition daysBeforeMonth (leap m : Z) : Z :=
  if m =? 0 then 0
  else if m =? 1 then 31
  else if m =? 2 then 59 + leap
  else if m =? 3 then 90 + leap
  else if m =? 4 then 120 + leap
  else if m =? 5 then 151 + leap
  else if m =? 6 then 181 + leap
  else if m =? 7 then 212 + leap
  else if m =? 8 then 243 + leap
  else if m =? 9 then 273 + leap
  else if m =? 10 then 304 + leap
  else 334 + leap.

Definition MonthFromTime (t : Z) : Z :=
  let d := DayWithinYear t in
  let leap := InLeapYear t in
  if d <? 31 then 0
  else if d <? 59 + leap then 1
  else if d <? 90 + leap then 2
  else if d <? 120 + leap then 3
  else if d <? 151 + leap then 4
  else if d <? 181 + leap then 5
  else if d <? 212 + leap then 6
  else if d <? 243 + leap then 7
  else if d <? 273 + leap then 8
  else if d <? 304 + leap then 9
  else if d <? 334 + leap then 10
  else 11.

Definition DateFromTime (t : Z) : Z :=
  DayWithinYear t - daysBeforeMonth (InLeapYear t) (MonthFromTime t) + 1.

Definition WeekDay (t : Z) : Z := (Day t + 4) mod 7.

Definition HourFromTime (t : Z) : Z := (t / msPerHour) mod 24.
Definition MinFromTime (t : Z) : Z := (t / msPerMinute) mod 60.
Definition SecFromTime (t : Z) : Z := (t / msPerSecond) mod 60.
Definition msFromTime (t : Z) : Z := t mod msPerSecond.

Definition MakeTime (hour min sec ms : Z) : Z :=
  hour * msPerHour + min * msPerMinute + sec * msPerSecond + ms.

(** [MakeDay] carries months outside 0..11 into the year, and accepts any
    day of the month: day 0 is the last day of the previous month. *)
Definition MakeDay (year month date : Z) : Z :=
  let ym := year + month / 12 in
  let mn := month mod 12 in
  DayFromYear ym + daysBeforeMonth (if isLeapYear ym then 1 else 0) mn
  + date - 1.

Definition MakeDate (day time : Z) : Z := day * msPerDay + time.

(** The length of month [m] (0 = January) of year [y], as a calendar
    prints it; the code never uses it, the theorems compare the [Date]
    arithmetic of the code with it. *)
Definition DaysInMonth (y m : Z) : Z :=
  let leap := if isLeapYear y then 1 else 0 in
  if m =? 1 then 28 + leap
  else if (m =? 3) || (m =? 5) || (m =? 8) || (m =? 10) then 30
  else 31.

(** ** Time zones

    The offset of local time from UTC depends on the instant: a zone
    gives the offset in force at each instant ([LocalTZA(t, true)] of
    the standard) and the instant that a local time value names
    ([UTC(t)] of the standard, which settles the local times that a
    change of offset skips or repeats).

    The zones considered are those in which the instants of every local
    calendar day form a non-empty interval, from [UTC] of its
    00:00:00.000 to [UTC] of its 23:59:59.999, the days following each
    other.  This holds in a zone without changes of offset
    ([fixedOffset]) and in a zone whose changes of offset leave the
    calendar date of the instants around them alone ([newYork2024]).
    It also holds when the clocks are set forward at midnight: the day
    then starts at the instant of the change, which [UTC] gives for its
    00:00:00.000.  It excludes a zone whose clocks are set back across a
    midnight, where the last hour of a day comes twice and [UTC] of its
    23:59:59.999 is in the first, and a zone that skips a whole day. *)
Record Zone := {
  offsetAt : Z -> Z;
  utcOfLocal : Z -> Z;
  zone_days :
    forall D t,
      Day (t + offsetAt t) = D
      <-> utcOfLocal (D * msPerDay) <= t <= utcOfLocal (D * msPerDay + (msPerDay - 1));
  zone_order :
    forall D,
      utcOfLocal (D * msPerDay) <= utcOfLocal (D * msPerDay + (msPerDay - 1))
      /\ utcOfLocal (D * msPerDay + (msPerDay - 1)) < utcOfLocal ((D + 1) * msPerDay)
}.

(** A zone whose offset from UTC is always [offset] milliseconds. *)
Program Definition fixedOffset (offset : Z) : Zone :=
  {| offsetAt := fun _ => offset;
     utcOfLocal := fun t => t - offset |}.
Next Obligation. unfold Day, msPerDay. lia. Qed.
Next Obligation. unfold msPerDay. lia. Qed.

(** New York in 2024: five hours behind UTC, four from 10 March
    07:00 UTC to 3 November 06:00 UTC.  A local time that the change of
    March skips, or that the change of November repeats, is read with
    the offset in force before the change. *)
Definition edtStart : Z := 1710054000000.
Definition edtEnd : Z := 1730613600000.

Program Definition newYork2024 : Zone :=
  {| offsetAt := fun t =>
       if (edtStart <=? t) && (t <? edtEnd) then -14400000 else -18000000;
     utcOfLocal := fun t =>
       if t + 18000000 <? edtStart + 3600000 then t + 18000000
       else if t + 14400000 <? edtEnd then t + 14400000
       else t + 18000000 |}.
Next Obligation.
  intros D t. unfold Day, msPerDay, edtStart, edtEnd.
  repeat match goal with
         | |- context [?a <=? ?b] => destruct (Z.leb_spec a b)
         | |- context [?a <? ?b] => destruct (Z.ltb_spec a b)
         end; cbn [andb]; try lia.
Qed.
Next Obligation.
  intros D. unfold msPerDay, edtStart, edtEnd.
  repeat match goal with
         | |- context [?a <? ?b] => destruct (Z.ltb_spec a b)
         end; lia.
Qed.

(** ** The [Date] object in local time *)
Section LocalDate.
Variable LocalTZA : Zone.

Definition LocalTime (t : Z) : Z := t + offsetAt LocalTZA t.
Definition UTC (t : Z) : Z := utcOfLocal LocalTZA t.

Definition getFullYear (d : Z) : Z := YearFromTime (LocalTime d).
Definition getMonth (d : Z) : Z := MonthFromTime (LocalTime d).
Definition getDate (d : Z) : Z := DateFromTime (LocalTime d).
Definition getDay (d : Z) : Z := WeekDay (LocalTime d).
Definition getHours (d : Z) : Z := HourFromTime (LocalTime d).
Definition getMinutes (d : Z) : Z := MinFromTime (LocalTime d).
Definition getSeconds (d : Z) : Z := SecFromTime (LocalTime d).
Definition getMilliseconds (d : Z) : Z := msFromTime (LocalTime d).

(** [new Date(year, month, date, hours, minutes, seconds, ms)]; a year
    from 0 to 99 stands for 1900 + year. *)
Definition newDate (year month date hours minutes seconds ms : Z) : Z :=
  let yr := if (0 <=? year) && (year <=? 99) then 1900 + year else year in
  UTC (MakeDate (MakeDay yr month date) (MakeTime hours minutes seconds ms)).

(** [new Date(year, month, date)] *)
Definition newDate3 (year month date : Z) : Z :=
  newDate year month date 0 0 0 0.

(** The first and the last instant of the local day of number [D]:
    what the [Date] constructor returns for its 00:00:00.000 and for
    its 23:59:59.999. *)
Definition dayStart (D : Z) : Z := UTC (MakeDate D (MakeTime 0 0 0 0)).
Definition dayEnd (D : Z) : Z := UTC (MakeDate D (MakeTime 23 59 59 999)).
End LocalDate.

(** ** Strings and the conversion of numbers to strings *)

Open Scope string_scope.
Open Scope list_scope.
Open Scope Z_scope.

(** [String(n)] and the template literal [`${n}`] for an integer [n]. *)
Definition Number_toString (n : Z) : string :=
  NilZero.string_of_int (Z.to_int n).

Fixpoint repeatChar (n : nat) (c : ascii) : string :=
  match n with
  | O => ""
  | S k => String c (repeatChar k c)
  end.

(** [s.padStart(targetLength, c)] for a one-character filler. *)
Definition padStart (s : string) (targetLength : nat) (c : ascii) : string :=
  repeatChar (targetLength - String.length s) c +:+ s.

Definition ToZeroPaddedDecimalString (n : Z) (minLength : nat) : string :=
  padStart (Number_toString n) minLength "0".

Definition weekdayName (d : Z) : string :=
  if d =? 0 then "Sun" else if d =? 1 then "Mon" else if d =? 2 then "Tue"
  else if d =? 3 then "Wed" else if d =? 4 then "Thu" else if d =? 5 then "Fri"
  else "Sat".

Definition monthName (m : Z) : string :=
  if m =? 0 then "Jan" else if m =? 1 then "Feb" else if m =? 2 then "Mar"
  else if m =? 3 then "Apr" else if m =? 4 then "May" else if m =? 5 then "Jun"
  else if m =? 6 then "Jul" else if m =? 7 then "Aug" else if m =? 8 then "Sep"
  else if m =? 9 then "Oct" else if m =? 10 then "Nov" else "Dec".

(** The abstract operation [DateString] of the standard, on a local
    time value: weekday, month, two-digit day and the year padded to
    four digits, with its sign when negative. *)
Definition DateString (tv : Z) : string :=
  let yv := YearFromTime tv in
  weekdayName (WeekDay tv) +:+ " " +:+ monthName (MonthFromTime tv) +:+ " "
  +:+ ToZeroPaddedDecimalString (DateFromTime tv) 2 +:+ " "
  +:+ (if 0 <=? yv then "" else "-")
  +:+ ToZeroPaddedDecimalString (Z.abs yv) 4.

(** [d.toDateString()] *)
Definition toDateString (LocalTZA : Zone) (d : Z) : string :=
  DateString (LocalTime LocalTZA d).

(** ** Data model (src/types/goals, as used by the context) *)

Inductive GoalType := daily | monthly.

(** [period_start] and [period_end] are ISO strings in the source; [None]
    is a missing or empty bound, which JavaScript treats as false. *)
Record SalesGoal := {
  _id : string;
  goal_type : GoalType;
  goal_name : string;
  target_amount : Q;
  period_start : option Z;
  period_end : option Z
}.

(** [progress_percentage] is the only number of the engine that comes
    out of a division; it is [None] when the divisor was zero, where
    JavaScript has [Infinity] or [NaN] and [Q] has nothing. *)
Record GoalProgress := {
  goal : SalesGoal;
  current_amount : Q;
  progress_percentage : option Q;
  is_achieved : bool;
  hours_remaining : option Z;
  days_remaining : option Z
}.

Record GoalCelebration := {
  goalType : GoalType;
  goalAmount : Q;
  actualAmount : Q;
  goalName : string;
  achieved_at : Z
}.

Record GoalState := {
  dailyGoal : option SalesGoal;
  monthlyGoal : option SalesGoal;
  dailyProgress : option GoalProgress;
  monthlyProgress : option GoalProgress;
  loading : bool;
  error : option string;
  lastCelebration : option GoalCelebration;
  celebratedToday : bool;
  celebratedThisMonth : bool
}.

Inductive GoalAction :=
| SET_LOADING (payload : bool)
| SET_ERROR (payload : option string)
| SET_DAILY_GOAL (payload : option SalesGoal)
| SET_MONTHLY_GOAL (payload : option SalesGoal)
| SET_DAILY_PROGRESS (payload : option GoalProgress)
| SET_MONTHLY_PROGRESS (payload : option GoalProgress)
| SET_LAST_CELEBRATION (payload : option GoalCelebration)
| CLEAR_LAST_CELEBRATION
| SET_CELEBRATED_TODAY (payload : bool)
| SET_CELEBRATED_THIS_MONTH (payload : bool).

Definition initialState : GoalState := {|
  dailyGoal := None;
  monthlyGoal := None;
  dailyProgress := None;
  monthlyProgress := None;
  loading := false;
  error := None;
  lastCelebration := None;
  celebratedToday := false;
  celebratedThisMonth := false
|}.

Definition goalReducer (state : GoalState) (action : GoalAction) : GoalState :=
  let '{| dailyGoal := dg; monthlyGoal := mg; dailyProgress := dp;
          monthlyProgress := mp; loading := l; error := e;
          lastCelebration := c; celebratedToday := ct;
          celebratedThisMonth := cm |} := state in
  match action with
  | SET_LOADING p => Build_GoalState dg mg dp mp p e c ct cm
  | SET_ERROR p => Build_GoalState dg mg dp mp l p c ct cm
  | SET_DAILY_GOAL p => Build_GoalState p mg dp mp l e c ct cm
  | SET_MONTHLY_GOAL p => Build_GoalState dg p dp mp l e c ct cm
  | SET_DAILY_PROGRESS p => Build_GoalState dg mg p mp l e c ct cm
  | SET_MONTHLY_PROGRESS p => Build_GoalState dg mg dp p l e c ct cm
  | SET_LAST_CELEBRATION p => Build_GoalState dg mg dp mp l e p ct cm
  | CLEAR_LAST_CELEBRATION => Build_GoalState dg mg dp mp l e None ct cm
  | SET_CELEBRATED_TODAY p => Build_GoalState dg mg dp mp l e c p cm
  | SET_CELEBRATED_THIS_MONTH p => Build_GoalState dg mg dp mp l e c ct p
  end.

(** The signed-in user of [useAuth]; [store_id] is optional. *)
Record User := {
  id : string;
  store_id : option string
}.

(** ** The collaborators

    [localStorage] holds strings.  The engine stores two kinds of them:
    period keys, kept as they are, and goals serialised by
    [JSON.stringify]; [Json g] stands for the serialisation of [g], and
    [Raw s] is any other string [s]. *)
Inductive StoredValue :=
| Raw (s : string)
| Json (g : SalesGoal).

Abbreviation Storage := (gmap string StoredValue).

(** Truth value of what [getItem] returns: [null] and the empty string
    are false. *)
Definition truthy (v : option StoredValue) : bool :=
  match v with
  | None => false
  | Some (Raw s) => negb (String.eqb s "")
  | Some (Json _) => true
  end.

(** [v === s] for a stored value and a period key; the serialisation of
    a goal is never a period key. *)
Definition strictEq (v : option StoredValue) (s : string) : bool :=
  match v with
  | Some (Raw r) => String.eqb r s
  | _ => false
  end.

(** What [JSON.parse] makes of a string, as far as the engine can tell
    the outcomes apart: a [SyntaxError]; [null]; an object whose
    [goal_type] names a track, read as the goal with its fields; or any
    other value, which is not null and which no [find] callback of the
    engine selects. *)
Inductive Parsed :=
| SyntaxError
| ParsedNull
| ParsedGoal (g : SalesGoal)
| ParsedOther.

(** An element of the array [existingGoals]. *)
Inductive Candidate :=
| IsGoal (g : SalesGoal)
| IsNull
| IsOther.

Definition goalOf (v : Candidate) : option SalesGoal :=
  match v with
  | IsGoal g => Some g
  | _ => None
  end.

(** The goals among the candidates, in their order: the [find]
    callbacks of the engine test [goal_type] first, so they select
    nothing else. *)
Definition goalsOf (l : list Candidate) : list SalesGoal :=
  omap goalOf l.

Definition isNull (v : Candidate) : bool :=
  match v with
  | IsNull => true
  | _ => false
  end.

(** The argument of [apiService.createGoal]. *)
Record CreateGoalRequest := {
  req_goal_type : GoalType;
  req_target_amount : Q;
  req_period_start : Z;
  req_period_end : Z;
  req_is_active : bool;
  req_store_id : string
}.

Inductive DateRange := today | this_month.

(** The result of [apiService.getDashboardAnalytics]; a missing
    [totalSales] is read as 0 by the engine. *)
Record DashboardMetrics := {
  totalSales : option Q
}.

(** The notifications differ by their tag; the text of the body, which
    depends on the locale, is left out. *)
Inductive NotificationTag :=
| daily_goal_achievement
| monthly_goal_achievement.

(** What the engine is given from outside: the time zone, the session of
    [useAuth], and the answers of the Goal Store, the Sales Metrics
    Source and the Notifier.  An answer [None] of a service is a rejected
    promise; [showNotification] answers [false] when it rejects.
    [parseJSON] is what [JSON.parse] makes of a string of the cache that
    is not the serialisation of a goal. *)
Record Collaborators := {
  LocalTZA : Zone;
  isAuthenticated : bool;
  user : option User;
  getGoals : string -> option (list SalesGoal);
  createGoal : CreateGoalRequest -> option SalesGoal;
  getDashboardAnalytics : option string -> DateRange -> option DashboardMetrics;
  showNotification : NotificationTag -> bool;
  parseJSON : string -> Parsed
}.

Definition JSON_parse (c : Collaborators) (v : StoredValue) : Parsed :=
  match v with
  | Json g => ParsedGoal g
  | Raw s => parseJSON c s
  end.

(** ** Effects *)

Inductive Event :=
| EvGetItem (key : string)
| EvSetItem (key : string) (value : StoredValue)
| EvRemoveItem (key : string)
| EvGetGoals (store : string)
| EvCreateGoal (req : CreateGoalRequest)
| EvGetDashboardAnalytics (store : option string) (range : DateRange)
| EvNotify (tag : NotificationTag)
| EvDispatch (action : GoalAction).

(** The reducer state, the local cache and the calls made so far, in the
    order they were made. *)
Record World := {
  state : GoalState;
  storage : Storage;
  log : list Event
}.

Inductive Outcome (A : Type) :=
| Returned (a : A)
| Threw.
Arguments Returned {A} a.
Arguments Threw {A}.

Definition M (A : Type) : Type := World -> World * Outcome A.

Definition ret {A} (a : A) : M A := fun w => (w, Returned a).

Definition bind {A B} (m : M A) (k : A -> M B) : M B :=
  fun w =>
    match m w with
    | (w', Returned a) => k a w'
    | (w', Threw) => (w', Threw)
    end.

Definition throw {A} : M A := fun w => (w, Threw).

(** [try { m } catch { handler }] *)
Definition tryCatch {A} (m : M A) (handler : M A) : M A :=
  fun w =>
    match m w with
    | (w', Returned a) => (w', Returned a)
    | (w', Threw) => handler w'
    end.

(** [try { m } finally { final }] *)
Definition tryFinally {A} (m : M A) (final : M unit) : M A :=
  fun w =>
    match m w with
    | (w', r) =>
        match final w' with
        | (w'', Returned _) => (w'', r)
        | (w'', Threw) => (w'', Threw)
        end
    end.

Declare Scope engine_scope.
Delimit Scope engine_scope with engine.
Notation "x <- c1 ;; c2" := (bind c1 (fun x => c2))
  (at level 100, c1 at next level, right associativity) : engine_scope.
Notation "c1 ;; c2" := (bind c1 (fun _ => c2))
  (at level 100, right associativity) : engine_scope.
Open Scope engine_scope.

Definition record (e : Event) (w : World) : World :=
  {| state := state w; storage := storage w; log := log w ++ [e] |}.

Definition dispatch (action : GoalAction) : M unit :=
  fun w =>
    ({| state := goalReducer (state w) action;
        storage := storage w;
        log := log w ++ [EvDispatch action] |}, Returned tt).

Definition localStorage_getItem (key : string) : M (option StoredValue) :=
  fun w => (record (EvGetItem key) w, Returned (storage w !! key)).

Definition localStorage_setItem (key : string) (value : StoredValue) : M unit :=
  fun w =>
    ({| state := state w;
        storage := <[key := value]> (storage w);
        log := log w ++ [EvSetItem key value] |}, Returned tt).

Definition localStorage_removeItem (key : string) : M unit :=
  fun w =>
    ({| state := state w;
        storage := delete key (storage w);
        log := log w ++ [EvRemoveItem key] |}, Returned tt).

Definition await {A} (e : Event) (answer : option A) : M A :=
  fun w =>
    (record e w, match answer with Some a => Returned a | None => Threw end).

Definition apiService_getGoals (c : Collaborators) (store : string)
  : M (list SalesGoal) :=
  await (EvGetGoals store) (getGoals c store).

Definition apiService_createGoal (c : Collaborators) (req : CreateGoalRequest)
  : M SalesGoal :=
  await (EvCreateGoal req) (createGoal c req).

Definition apiService_getDashboardAnalytics (c : Collaborators)
  (store : option string) (range : DateRange) : M DashboardMetrics :=
  await (EvGetDashboardAnalytics store range) (getDashboardAnalytics c store range).

Definition notificationManager_showNotification (c : Collaborators)
  (tag : NotificationTag) : M unit :=
  await (EvNotify tag) (if showNotification c tag then Some tt else None).

(** Running an operation of the engine from a state and a cache. *)
Definition run {A} (m : M A) (s : GoalState) (ls : Storage) : World * Outcome A :=
  m {| state := s; storage := ls; log := [] |}.

(** ** Numbers *)

(** [x || 0] on a number: 0 is the only rational that is false. *)
Definition orZero (x : Q) : Q := if Qeq_bool x 0 then 0%Q else x.

(** [a > b] and [a >= b] on numbers. *)
Definition Qgtb (a b : Q) : bool := negb (Qle_bool a b).
Definition Qgeb (a b : Q) : bool := Qle_bool b a.

(** The exponent of a positive number [q]: the [e] with
    [2^e <= q < 2^(e+1)] ([exponentOf_spec]). *)
Definition exponentOf (q : Q) : Z :=
  let e := Z.log2 (Qnum q) - Z.log2 (Z.pos (Qden q)) in
  if Qle_bool (2 ^ e) q then e else e - 1.

(** The integer nearest to [m], the even one of the two when [m] lies
    half-way. *)
Definition roundHalfEven (m : Q) : Z :=
  let f := Qfloor m in
  match (m - inject_Z f ?= 1 # 2)%Q with
  | Lt => f
  | Gt => f + 1
  | Eq => if Z.even f then f else f + 1
  end.

(** The Number value for [q] (ECMA-262, "The Number Type"; IEEE 754
    binary64, roundTiesToEven): the double nearest to [q], a multiple of
    2^(e-52) where [e] is the exponent of [q], and not less than -1022.
    The numbers beyond the largest double, which round to [Infinity],
    are left out: the quotient rounded below has a double for dividend
    and a divisor of at least 1. *)
Definition roundTiesToEven (q : Q) : Q :=
  if Qeq_bool q 0 then 0%Q
  else
    let e := Z.max (exponentOf (Qabs q)) (-1022) in
    let ulp := (2 ^ (e - 52))%Q in
    (inject_Z (roundHalfEven (q / ulp)) * ulp)%Q.

(** [a / b] in the computation of a percentage: the quotient in [Q], and
    nothing when the divisor is zero. *)
Definition divide (a b : Q) : option Q :=
  if Qeq_bool b 0 then None else Some (a / b)%Q.

(** [Math.min(x * 100, 999)] for the outcome [x] of a division; what
    [Math.min] makes of [Infinity] or [NaN] is left out: [progressPercentage]
    never divides by zero ([compute_progress_for]). *)
Definition percentOf (x : option Q) : option Q :=
  match x with
  | Some q => Some (Qmin (q * 100) 999)
  | None => None
  end.

(** The cache key of the marker of a track, and the tag of its
    notification. *)
Definition markerKey (track : GoalType) : string :=
  match track with
  | daily => "lastDailyCelebration"
  | monthly => "lastMonthlyCelebration"
  end.

Definition tagOf (track : GoalType) : NotificationTag :=
  match track with
  | daily => daily_goal_achievement
  | monthly => monthly_goal_achievement
  end.

(** ** The reconciler: [loadGoals] *)

Section Engine.
Variable c : Collaborators.

Let tz := LocalTZA c.

(** The windows of the current day and of the current month, as the
    [find] callbacks build them. *)
Definition todayStart (now : Z) : Z :=
  newDate tz (getFullYear tz now) (getMonth tz now) (getDate tz now) 0 0 0 0.
Definition todayEnd (now : Z) : Z :=
  newDate tz (getFullYear tz now) (getMonth tz now) (getDate tz now) 23 59 59 999.
Definition monthStart (now : Z) : Z :=
  newDate tz (getFullYear tz now) (getMonth tz now) 1 0 0 0 0.
Definition monthEnd (now : Z) : Z :=
  newDate tz (getFullYear tz now) (getMonth tz now + 1) 0 23 59 59 999.

(** The callback of [existingGoals.find] for the daily goal. *)
Definition isValidDaily (now : Z) (g : SalesGoal) : bool :=
  match goal_type g with
  | monthly => false
  | daily =>
      match period_start g, period_end g with
      | Some startDate, Some endDate =>
          (startDate <=? todayEnd now) && (endDate >=? todayStart now)
      | _, _ => true
      end
  end.

(** The callback of [existingGoals.find] for the monthly goal. *)
Definition isValidMonthly (now : Z) (g : SalesGoal) : bool :=
  match goal_type g with
  | daily => false
  | monthly =>
      match period_start g, period_end g with
      | Some startDate, Some endDate =>
          (startDate <=? monthEnd now) && (endDate >=? monthStart now)
      | _, _ => true
      end
  end.

(** The callback that looks for last month's goal. *)
Definition isLastMonthly (now : Z) (g : SalesGoal) : bool :=
  match goal_type g, period_start g, period_end g with
  | monthly, Some start, Some _ =>
      let lastMonth := newDate3 tz (getFullYear tz now) (getMonth tz now - 1) 1 in
      (getFullYear tz start =? getFullYear tz lastMonth)
      && (getMonth tz start =? getMonth tz lastMonth)
  | _, _, _ => false
  end.

(** [if (backup) { existingGoals.push(JSON.parse(backup)) }]; nothing
    is returned when [JSON.parse] throws. *)
Definition pushParsed (existingGoals : list Candidate)
  (backup : option StoredValue) : option (list Candidate) :=
  match backup with
  | Some v =>
      if truthy backup then
        match JSON_parse c v with
        | SyntaxError => None
        | ParsedNull => Some (existingGoals ++ [IsNull])
        | ParsedGoal g => Some (existingGoals ++ [IsGoal g])
        | ParsedOther => Some (existingGoals ++ [IsOther])
        end
      else Some existingGoals
  | None => Some existingGoals
  end.

(** The [try] block that reads the backup; [existingGoals] is pushed to
    in place, so what was pushed before [JSON.parse] throws stays. *)
Definition pushBackups (existingGoals : list Candidate)
  (backupDaily backupMonthly : option StoredValue) : list Candidate :=
  if truthy backupDaily || truthy backupMonthly then
    match pushParsed existingGoals backupDaily with
    | None => existingGoals
    | Some goals =>
        match pushParsed goals backupMonthly with
        | None => goals
        | Some goals' => goals'
        end
    end
  else existingGoals.

Definition loadBackup (store : string) (existingGoals : list Candidate)
  : M (list Candidate) :=
  backupDaily <- localStorage_getItem ("goal_daily_" +:+ store) ;;
  backupMonthly <- localStorage_getItem ("goal_monthly_" +:+ store) ;;
  ret (pushBackups existingGoals backupDaily backupMonthly).

Definition monthlyRequest (store : string) (now : Z) (lastMonthly : SalesGoal)
  : CreateGoalRequest :=
  {| req_goal_type := monthly;
     req_target_amount := target_amount lastMonthly;
     req_period_start := monthStart now;
     req_period_end := monthEnd now;
     req_is_active := true;
     req_store_id := store |}.

(** Step 5 of [loadGoals]: the days left in the month, today included,
    and the daily target proposed from the monthly one. *)
Definition daysRemaining (now : Z) : Z :=
  let endOfMonth := newDate3 tz (getFullYear tz now) (getMonth tz now + 1) 0 in
  Z.max 1 (getDate tz endOfMonth - getDate tz now + 1).

Definition suggestedDaily (now : Z) (monthlyGoal : SalesGoal) : Z :=
  Qceiling (roundTiesToEven (orZero (target_amount monthlyGoal)
                             / inject_Z (daysRemaining now))).

Definition dailyRequest (store : string) (now : Z) (monthlyGoal : SalesGoal)
  : CreateGoalRequest :=
  let today := newDate3 tz (getFullYear tz now) (getMonth tz now) (getDate tz now) in
  {| req_goal_type := daily;
     req_target_amount := inject_Z (suggestedDaily now monthlyGoal);
     req_period_start :=
       newDate tz (getFullYear tz today) (getMonth tz today) (getDate tz today) 0 0 0 0;
     req_period_end :=
       newDate tz (getFullYear tz today) (getMonth tz today) (getDate tz today) 23 59 59 999;
     req_is_active := true;
     req_store_id := store |}.

(** Steps 1 and 2: the candidates, from the Goal Store or the backup. *)
Definition fetchCandidates (store : string) : M (list Candidate) :=
  r <- tryCatch (goals <- apiService_getGoals c store ;; ret (map IsGoal goals, true))
                (ret ([], false)) ;;
  let '(existingGoals, apiSuccess) := r in
  if negb apiSuccess || (length existingGoals =? 0)%nat
  then loadBackup store existingGoals
  else ret existingGoals.

(** The monthly goal: the valid candidate, or last month's goal carried
    over on the first day of the month. *)
Definition resolveMonthly (store : string) (now : Z)
  (existingGoals : list SalesGoal) : M (option SalesGoal) :=
  match find (isValidMonthly now) existingGoals with
  | Some g => ret (Some g)
  | None =>
      if getDate tz now =? 1 then
        match find (isLastMonthly now) existingGoals with
        | Some lastMonthly =>
            tryCatch
              (created <- apiService_createGoal c (monthlyRequest store now lastMonthly) ;;
               ret (Some created))
              (ret None)
        | None => ret None
        end
      else ret None
  end.

(** The "Goal validation debug" log maps every element of
    [existingGoals] to its [goal_type] and other properties: reading a
    property of [null] throws. *)
Definition debugLog (existingGoals : list Candidate) : M unit :=
  if existsb isNull existingGoals then throw else ret tt.

Definition saveBackup (key : string) (g : option SalesGoal) : M unit :=
  match g with
  | Some g => localStorage_setItem key (Json g)
  | None => ret tt
  end.

Definition loadGoals (now : Z) : M unit :=
  match isAuthenticated c, user c with
  | true, Some u =>
      match store_id u with
      | None => ret tt
      | Some store =>
          if String.eqb store "" then ret tt else
          tryFinally
            (tryCatch
               (dispatch (SET_LOADING true) ;;
                existingGoals <- fetchCandidates store ;;
                debugLog existingGoals ;;
                let goals := goalsOf existingGoals in
                let dailyGoal := find (isValidDaily now) goals in
                monthlyGoal <- resolveMonthly store now goals ;;
                saveBackup ("goal_daily_" +:+ store) dailyGoal ;;
                saveBackup ("goal_monthly_" +:+ store) monthlyGoal ;;
                dispatch (SET_DAILY_GOAL dailyGoal) ;;
                dispatch (SET_MONTHLY_GOAL monthlyGoal) ;;
                match dailyGoal, monthlyGoal with
                | None, Some m =>
                    tryCatch
                      (_ <- apiService_createGoal c (dailyRequest store now m) ;;
                       ret tt)
                      (ret tt)
                | _, _ => ret tt
                end)
               (dispatch (SET_ERROR (Some "Failed to load goals"))))
            (dispatch (SET_LOADING false))
      end
  | _, _ => ret tt
  end.

(** ** The period-rollover guard: [resetDailyGoalsForNewDay]

    The callbacks read the state of the render that created them: [s]
    is that state, while [dispatch] acts on the state of the reducer. *)
Definition resetDailyProgress (g : SalesGoal) : GoalProgress :=
  {| goal := g;
     current_amount := 0;
     progress_percentage := Some 0%Q;
     is_achieved := false;
     hours_remaining := Some 24;
     days_remaining := None |}.

Definition resetDailyGoalsForNewDay (now : Z) (s : GoalState) : M unit :=
  let today := toDateString tz now in
  lastDailyCelebration <- localStorage_getItem "lastDailyCelebration" ;;
  if truthy lastDailyCelebration && negb (strictEq lastDailyCelebration today)
  then
    dispatch CLEAR_LAST_CELEBRATION ;;
    match dailyGoal s with
    | Some g => dispatch (SET_DAILY_PROGRESS (Some (resetDailyProgress g)))
    | None => ret tt
    end ;;
    localStorage_removeItem "lastDailyCelebration"
  else ret tt.

(** ** The progress calculator: [updateGoalProgress] *)

Definition salesOf (m : DashboardMetrics) : Q :=
  match totalSales m with
  | Some x => orZero x
  | None => 0
  end.

Definition progressPercentage (amount targetAmount : Q) : option Q :=
  if Qgtb targetAmount 0
  then percentOf (divide amount targetAmount)
  else Some 0%Q.

Definition isAchieved (amount targetAmount : Q) : bool :=
  if Qgtb targetAmount 0 then Qgeb amount targetAmount else false.

Definition computeDailyProgress (now : Z) (g : SalesGoal) (dailyAmount : Q)
  : GoalProgress :=
  let dailyTargetAmount := orZero (target_amount g) in
  {| goal := g;
     current_amount := dailyAmount;
     progress_percentage := progressPercentage dailyAmount dailyTargetAmount;
     is_achieved := isAchieved dailyAmount dailyTargetAmount;
     hours_remaining := Some (Z.max 0 (24 - getHours tz now));
     days_remaining := None |}.

Definition computeMonthlyProgress (now : Z) (g : SalesGoal) (monthlyAmount : Q)
  : GoalProgress :=
  let monthlyTargetAmount := orZero (target_amount g) in
  {| goal := g;
     current_amount := monthlyAmount;
     progress_percentage := progressPercentage monthlyAmount monthlyTargetAmount;
     is_achieved := isAchieved monthlyAmount monthlyTargetAmount;
     hours_remaining := None;
     days_remaining :=
       Some (Z.max 0 (getDate tz (newDate3 tz (getFullYear tz now) (getMonth tz now + 1) 0)
                      - getDate tz now)) |}.

Definition updateGoalProgress (now : Z) (s : GoalState) : M unit :=
  match isAuthenticated c, user c, dailyGoal s, monthlyGoal s with
  | true, Some u, Some dg, Some mg =>
      tryCatch
        (resetDailyGoalsForNewDay now s ;;
         dailyMetrics <- apiService_getDashboardAnalytics c (store_id u) today ;;
         monthlyMetricsData <- apiService_getDashboardAnalytics c (store_id u) this_month ;;
         let dailyAmount := salesOf dailyMetrics in
         let monthlyAmount := salesOf monthlyMetricsData in
         dispatch (SET_DAILY_PROGRESS (Some (computeDailyProgress now dg dailyAmount))) ;;
         dispatch (SET_MONTHLY_PROGRESS (Some (computeMonthlyProgress now mg monthlyAmount))))
        (ret tt)
  | _, _, _, _ => ret tt
  end.

(** ** The achievement evaluator: [checkGoalAchievements] *)

(** [`${now.getFullYear()}-${now.getMonth()}`] *)
Definition thisMonthKey (now : Z) : string :=
  Number_toString (getFullYear tz now) +:+ "-" +:+ Number_toString (getMonth tz now).

(** [state.dailyGoal!.target_amount]: the assertion [!] is erased by the
    compiler, so reading a property of [null] throws. *)
Definition nonNull {A} (x : option A) : M A :=
  match x with
  | Some a => ret a
  | None => throw
  end.

Definition celebrationOf (kind : GoalType) (g : SalesGoal) (p : GoalProgress)
  (now : Z) : GoalCelebration :=
  {| goalType := kind;
     goalAmount := target_amount g;
     actualAmount := current_amount p;
     goalName := goal_name g;
     achieved_at := now |}.

Definition checkGoalAchievements (now : Z) (s : GoalState) : M unit :=
  match dailyProgress s, monthlyProgress s with
  | Some dailyP, Some monthlyP =>
      let today := toDateString tz now in
      let thisMonth := thisMonthKey now in
      lastDailyCelebration <- localStorage_getItem "lastDailyCelebration" ;;
      lastMonthlyCelebration <- localStorage_getItem "lastMonthlyCelebration" ;;
      (if truthy lastDailyCelebration && negb (strictEq lastDailyCelebration today)
       then dispatch CLEAR_LAST_CELEBRATION
       else ret tt) ;;
      (if is_achieved dailyP && negb (strictEq lastDailyCelebration today)
       then
         g <- nonNull (dailyGoal s) ;;
         localStorage_setItem "lastDailyCelebration" (Raw today) ;;
         dispatch (SET_LAST_CELEBRATION (Some (celebrationOf daily g dailyP now))) ;;
         notificationManager_showNotification c daily_goal_achievement
       else ret tt) ;;
      (if is_achieved monthlyP && negb (strictEq lastMonthlyCelebration thisMonth)
       then
         g <- nonNull (monthlyGoal s) ;;
         localStorage_setItem "lastMonthlyCelebration" (Raw thisMonth) ;;
         dispatch (SET_LAST_CELEBRATION (Some (celebrationOf monthly g monthlyP now))) ;;
         notificationManager_showNotification c monthly_goal_achievement
       else ret tt)
  | _, _ => ret tt
  end.

(** ** The commands of the context *)

Definition clearLastCelebration : M unit := dispatch CLEAR_LAST_CELEBRATION.
Definition setDailyGoal (g : SalesGoal) : M unit := dispatch (SET_DAILY_GOAL (Some g)).
Definition setMonthlyGoal (g : SalesGoal) : M unit := dispatch (SET_MONTHLY_GOAL (Some g)).

(** ** One reconciliation, read off the code

    The candidates, the goals resolved for the two tracks and the calls
    made by one run of [loadGoals], as functions of the answers of the
    collaborators; [loadGoals_run] proves that [loadGoals] does exactly
    this. *)

Definition readsBackup (store : string) : bool :=
  match getGoals c store with
  | Some (_ :: _) => false
  | _ => true
  end.

Definition existing (store : string) (ls : Storage) : list Candidate :=
  match getGoals c store with
  | Some (g :: l) => map IsGoal (g :: l)
  | _ => pushBackups [] (ls !! ("goal_daily_" +:+ store))
                        (ls !! ("goal_monthly_" +:+ store))
  end.

Definition candidates (store : string) (ls : Storage) : list SalesGoal :=
  goalsOf (existing store ls).

(** The run stops at the debug log when a backup read as [null] was
    pushed. *)
Definition aborts (store : string) (ls : Storage) : bool :=
  existsb isNull (existing store ls).

Definition backupReads (store : string) : list Event :=
  if readsBackup store
  then [EvGetItem ("goal_daily_" +:+ store); EvGetItem ("goal_monthly_" +:+ store)]
  else [].

Definition carryOverRequest (store : string) (now : Z) (cands : list SalesGoal)
  : option CreateGoalRequest :=
  match find (isValidMonthly now) cands with
  | Some _ => None
  | None =>
      if getDate tz now =? 1
      then option_map (monthlyRequest store now) (find (isLastMonthly now) cands)
      else None
  end.

Definition resolvedMonthly (store : string) (now : Z) (cands : list SalesGoal)
  : option SalesGoal :=
  match find (isValidMonthly now) cands with
  | Some g => Some g
  | None =>
      match carryOverRequest store now cands with
      | Some req => createGoal c req
      | None => None
      end
  end.

Definition resolvedDaily (now : Z) (cands : list SalesGoal) : option SalesGoal :=
  find (isValidDaily now) cands.

Definition derivedDailyRequest (store : string) (now : Z) (cands : list SalesGoal)
  : option CreateGoalRequest :=
  match resolvedDaily now cands, resolvedMonthly store now cands with
  | None, Some m => Some (dailyRequest store now m)
  | _, _ => None
  end.

Definition eventsOf {A} (f : A -> Event) (x : option A) : list Event :=
  match x with
  | Some a => [f a]
  | None => []
  end.

Definition saved (key : string) (g : option SalesGoal) (ls : Storage) : Storage :=
  match g with
  | Some g => <[key := Json g]> ls
  | None => ls
  end.

Definition loadGoalsLog (store : string) (now : Z) (ls : Storage) : list Event :=
  let cands := candidates store ls in
  let d := resolvedDaily now cands in
  let m := resolvedMonthly store now cands in
  [EvDispatch (SET_LOADING true); EvGetGoals store]
  ++ backupReads store
  ++ eventsOf EvCreateGoal (carryOverRequest store now cands)
  ++ eventsOf (fun g => EvSetItem ("goal_daily_" +:+ store) (Json g)) d
  ++ eventsOf (fun g => EvSetItem ("goal_monthly_" +:+ store) (Json g)) m
  ++ [EvDispatch (SET_DAILY_GOAL d); EvDispatch (SET_MONTHLY_GOAL m)]
  ++ eventsOf EvCreateGoal (derivedDailyRequest store now cands)
  ++ [EvDispatch (SET_LOADING false)].

Definition loadGoalsState (store : string) (now : Z) (s : GoalState) (ls : Storage)
  : GoalState :=
  let cands := candidates store ls in
  {| dailyGoal := resolvedDaily now cands;
     monthlyGoal := resolvedMonthly store now cands;
     dailyProgress := dailyProgress s;
     monthlyProgress := monthlyProgress s;
     loading := false;
     error := error s;
     lastCelebration := lastCelebration s;
     celebratedToday := celebratedToday s;
     celebratedThisMonth := celebratedThisMonth s |}.

Definition loadGoalsStorage (store : string) (now : Z) (ls : Storage) : Storage :=
  let cands := candidates store ls in
  saved ("goal_monthly_" +:+ store) (resolvedMonthly store now cands)
    (saved ("goal_daily_" +:+ store) (resolvedDaily now cands) ls).

(** The calls and the state of a run that stops at the debug log: the
    outer [catch] sets [error] and the [finally] resets [loading]. *)
Definition abortedLog (store : string) : list Event :=
  [EvDispatch (SET_LOADING true); EvGetGoals store]
  ++ backupReads store
  ++ [EvDispatch (SET_ERROR (Some "Failed to load goals"));
      EvDispatch (SET_LOADING false)].

Definition abortedState (s : GoalState) : GoalState :=
  {| dailyGoal := dailyGoal s;
     monthlyGoal := monthlyGoal s;
     dailyProgress := dailyProgress s;
     monthlyProgress := monthlyProgress s;
     loading := false;
     error := Some "Failed to load goals";
     lastCelebration := lastCelebration s;
     celebratedToday := celebratedToday s;
     celebratedThisMonth := celebratedThisMonth s |}.

(** ** One invocation of the evaluator, read off the code

    The two blocks of [checkGoalAchievements] have the same shape.  A
    block is skipped when its Progress is not achieved or its marker
    already is the period key; it fails at once when its goal is null;
    otherwise it writes the marker, sets [lastCelebration] and invokes
    the Notifier, which accepts or rejects.  [checkGoalAchievements_run]
    proves that the evaluator does exactly this. *)

Inductive BlockResult :=
| Skipped
| Failed
| Celebrated (g : SalesGoal) (accepted : bool).

Definition due (key : string) (p : GoalProgress) (last : option StoredValue)
  : bool :=
  is_achieved p && negb (strictEq last key).

Definition blockResult (track : GoalType) (key : string) (p : GoalProgress)
  (g : option SalesGoal) (last : option StoredValue) : BlockResult :=
  if due key p last then
    match g with
    | Some g => Celebrated g (showNotification c (tagOf track))
    | None => Failed
    end
  else Skipped.

Definition blockThrows (r : BlockResult) : bool :=
  match r with
  | Skipped => false
  | Failed => true
  | Celebrated _ accepted => negb accepted
  end.

Definition blockEvents (track : GoalType) (key : string) (p : GoalProgress)
  (now : Z) (r : BlockResult) : list Event :=
  match r with
  | Celebrated g _ =>
      [EvSetItem (markerKey track) (Raw key);
       EvDispatch (SET_LAST_CELEBRATION (Some (celebrationOf track g p now)));
       EvNotify (tagOf track)]
  | _ => []
  end.

Definition blockStorage (track : GoalType) (key : string) (r : BlockResult)
  (ls : Storage) : Storage :=
  match r with
  | Celebrated _ _ => <[markerKey track := Raw key]> ls
  | _ => ls
  end.

Definition blockState (track : GoalType) (p : GoalProgress) (now : Z)
  (r : BlockResult) (st : GoalState) : GoalState :=
  match r with
  | Celebrated g _ =>
      goalReducer st (SET_LAST_CELEBRATION (Some (celebrationOf track g p now)))
  | _ => st
  end.

Definition staleDaily (now : Z) (ls : Storage) : bool :=
  truthy (ls !! "lastDailyCelebration")
  && negb (strictEq (ls !! "lastDailyCelebration") (toDateString tz now)).

Definition dailyBlock (now : Z) (s : GoalState) (ls : Storage) (dp : GoalProgress)
  : BlockResult :=
  blockResult daily (toDateString tz now) dp (dailyGoal s)
    (ls !! "lastDailyCelebration").

Definition monthlyBlock (now : Z) (s : GoalState) (ls : Storage)
  (dp mp : GoalProgress) : BlockResult :=
  if blockThrows (dailyBlock now s ls dp) then Skipped
  else blockResult monthly (thisMonthKey now) mp (monthlyGoal s)
         (ls !! "lastMonthlyCelebration").

Definition checkLog (now : Z) (s : GoalState) (ls : Storage)
  (dp mp : GoalProgress) : list Event :=
  [EvGetItem "lastDailyCelebration"; EvGetItem "lastMonthlyCelebration"]
  ++ (if staleDaily now ls then [EvDispatch CLEAR_LAST_CELEBRATION] else [])
  ++ blockEvents daily (toDateString tz now) dp now (dailyBlock now s ls dp)
  ++ blockEvents monthly (thisMonthKey now) mp now (monthlyBlock now s ls dp mp).

Definition checkStorage (now : Z) (s : GoalState) (ls : Storage)
  (dp mp : GoalProgress) : Storage :=
  blockStorage monthly (thisMonthKey now) (monthlyBlock now s ls dp mp)
    (blockStorage daily (toDateString tz now) (dailyBlock now s ls dp) ls).

Definition checkState (now : Z) (s : GoalState) (ls : Storage)
  (dp mp : GoalProgress) : GoalState :=
  blockState monthly mp now (monthlyBlock now s ls dp mp)
    (blockState daily dp now (dailyBlock now s ls dp)
       (if staleDaily now ls then goalReducer s CLEAR_LAST_CELEBRATION else s)).

Definition checkOutcome (now : Z) (s : GoalState) (ls : Storage)
  (dp mp : GoalProgress) : Outcome unit :=
  if blockThrows (dailyBlock now s ls dp)
     || blockThrows (monthlyBlock now s ls dp mp)
  then Threw else Returned tt.

Definition celebrated (r : BlockResult) : bool :=
  match r with
  | Celebrated _ _ => true
  | _ => false
  end.

(** The period key of a track at an instant. *)
Definition periodKey (track : GoalType) (now : Z) : string :=
  match track with
  | daily => toDateString tz now
  | monthly => thisMonthKey now
  end.

Definition blockOf (track : GoalType) (now : Z) (s : GoalState) (ls : Storage)
  (dp mp : GoalProgress) : BlockResult :=
  match track with
  | daily => dailyBlock now s ls dp
  | monthly => monthlyBlock now s ls dp mp
  end.

End Engine.

(** ** Words of the specification

    The definitions below are not code of the engine: they say, in the
    terms of the specification, what the theorems compare the code with. *)

(** "the same local calendar day" and "the same local calendar month" *)
Definition onSameDay (tz : Zone) (t now : Z) : Prop :=
  Day (LocalTime tz t) = Day (LocalTime tz now).

Definition inSameMonth (tz : Zone) (t now : Z) : Prop :=
  getFullYear tz t = getFullYear tz now /\ getMonth tz t = getMonth tz now.










(** Reading an unsigned decimal numeral back, leading zeros allowed; it
    is used to show that a period key determines its period. *)
Definition unsignedValue (s : string) : option Z :=
  option_map Z.of_uint (NilEmpty.uint_of_string s).

(** [x] may be the double nearest to [q]: it is [q] when [q] is an
    integer of at most 2^53, and is otherwise within the relative
    distance 2^-53 of [q], which holds of the nearest double as long as
    [q] is neither as small as to underflow nor as large as to
    overflow. *)
Definition roundedFrom (q x : Q) : Prop :=
  (Qabs (x - q) <= Qabs q * (1 # 2 ^ 53))%Q /\
  (forall k : Z, Z.abs k <= 2 ^ 53 -> (q == inject_Z k)%Q -> (x == q)%Q).




(** ** Sequences of invocations of the achievement evaluator *)

(** One invocation of [checkGoalAchievements]: the collaborators and the
    clock at that time, and the state of the render whose callback runs. *)
Record Invocation := {
  inv_collaborators : Collaborators;
  inv_now : Z;
  inv_state : GoalState
}.

(** [checkGoalAchievements] is an [async] function, and its callers (the
    effect that follows a change of the Progress records, lines 568-572)
    do not await it: an invocation runs up to its first [await], and
    other invocations may start, or go on, before it is resumed.  An
    invocation is therefore cut at its two [await]s (lines 486 and 512)
    into the segments that run without interruption.

    A suspended invocation holds what its continuation uses: its
    closure, and, when it awaits the daily notification, the monthly
    Progress and the monthly marker it has read at line 460, before the
    [await]; the monthly test of line 497 is made on that value. *)
Inductive Suspended :=
| AwaitsDaily (i : Invocation) (monthlyP : GoalProgress)
    (lastMonthlyCelebration : option StoredValue)
| AwaitsMonthly (i : Invocation).

(** [notificationManager.showNotification] is called; its promise is
    answered when the invocation is resumed. *)
Definition callNotifier (tag : NotificationTag) : M unit :=
  fun w => (record (EvNotify tag) w, Returned tt).

(** Lines 496-512: the monthly block, up to the [await]. *)
Definition monthlyPart (i : Invocation) (monthlyP : GoalProgress)
  (lastMonthlyCelebration : option StoredValue) : M (option Suspended) :=
  let c := inv_collaborators i in
  let now := inv_now i in
  let s := inv_state i in
  let thisMonth := thisMonthKey c now in
  if is_achieved monthlyP && negb (strictEq lastMonthlyCelebration thisMonth)
  then
    g <- nonNull (monthlyGoal s) ;;
    localStorage_setItem "lastMonthlyCelebration" (Raw thisMonth) ;;
    dispatch (SET_LAST_CELEBRATION (Some (celebrationOf monthly g monthlyP now))) ;;
    callNotifier monthly_goal_achievement ;;
    ret (Some (AwaitsMonthly i))
  else ret None.

(** Lines 451-486: from the call to the first [await], which is that of
    the daily block when it is entered and that of the monthly block
    otherwise; [None] when the invocation ends without awaiting. *)
Definition checkStart (i : Invocation) : M (option Suspended) :=
  let c := inv_collaborators i in
  let now := inv_now i in
  let s := inv_state i in
  match dailyProgress s, monthlyProgress s with
  | Some dailyP, Some monthlyP =>
      let today := toDateString (LocalTZA c) now in
      lastDailyCelebration <- localStorage_getItem "lastDailyCelebration" ;;
      lastMonthlyCelebration <- localStorage_getItem "lastMonthlyCelebration" ;;
      (if truthy lastDailyCelebration && negb (strictEq lastDailyCelebration today)
       then dispatch CLEAR_LAST_CELEBRATION
       else ret tt) ;;
      if is_achieved dailyP && negb (strictEq lastDailyCelebration today)
      then
        g <- nonNull (dailyGoal s) ;;
        localStorage_setItem "lastDailyCelebration" (Raw today) ;;
        dispatch (SET_LAST_CELEBRATION (Some (celebrationOf daily g dailyP now))) ;;
        callNotifier daily_goal_achievement ;;
        ret (Some (AwaitsDaily i monthlyP lastMonthlyCelebration))
      else monthlyPart i monthlyP lastMonthlyCelebration
  | _, _ => ret None
  end.

(** The promise of the Notifier is fulfilled or rejected; a rejection is
    thrown at the [await]. *)
Definition answered (c : Collaborators) (tag : NotificationTag) : M unit :=
  if showNotification c tag then ret tt else throw.

(** A suspended invocation goes on, up to its next [await] or its end. *)
Definition resume (p : Suspended) : M (option Suspended) :=
  match p with
  | AwaitsDaily i monthlyP lastMonthlyCelebration =>
      answered (inv_collaborators i) daily_goal_achievement ;;
      monthlyPart i monthlyP lastMonthlyCelebration
  | AwaitsMonthly i =>
      answered (inv_collaborators i) monthly_goal_achievement ;;
      ret None
  end.

(** An invocation run to its end with nothing in between: this is
    [checkGoalAchievements] ([uninterrupted_eq]). *)
Definition finish (r : option Suspended) : M unit :=
  match r with
  | None => ret tt
  | Some p =>
      r' <- resume p ;;
      match r' with
      | None => ret tt
      | Some p' => _ <- resume p' ;; ret tt
      end
  end.

Definition uninterrupted (i : Invocation) : M unit :=
  r <- checkStart i ;; finish r.

(** What happens next on the page: an invocation starts, or the [k]-th
    of the suspended invocations is resumed (nothing happens when there
    is no such invocation). *)
Inductive Action :=
| Start (i : Invocation)
| Resume (k : nat).

(** An invocation that awaits joins the suspended ones; one that returns
    or throws is over (its rejection is nobody's to handle). *)
Definition settle (r : World * Outcome (option Suspended))
  (others : list Suspended) : World * list Suspended :=
  match snd r with
  | Returned (Some p) => (fst r, others ++ [p])
  | _ => (fst r, others)
  end.

Definition act (a : Action) (st : World * list Suspended)
  : World * list Suspended :=
  match a with
  | Start i => settle (checkStart i (fst st)) (snd st)
  | Resume k =>
      match snd st !! k with
      | Some p => settle (resume p (fst st)) (delete k (snd st))
      | None => st
      end
  end.

(** The segments run in the given order on the same cache and the same
    log. *)
Definition schedule (acts : list Action) (st : World * list Suspended)
  : World * list Suspended :=
  fold_left (fun st a => act a st) acts st.

(** The page with nothing in flight. *)
Definition fresh (s : GoalState) (ls : Storage) : World * list Suspended :=
  ({| state := s; storage := ls; log := [] |}, []).

Definition awaitsDaily (p : Suspended) : bool :=
  match p with
  | AwaitsDaily _ _ _ => true
  | AwaitsMonthly _ => false
  end.

(** No invocation starts while another awaits the answer to its daily
    notification. *)
Fixpoint serialized (acts : list Action) (st : World * list Suspended) : Prop :=
  match acts with
  | [] => True
  | a :: rest =>
      match a with
      | Start _ => existsb awaitsDaily (snd st) = false
      | Resume _ => True
      end /\ serialized rest (act a st)
  end.

Definition GoalType_eqb (a b : GoalType) : bool :=
  match a, b with
  | daily, daily | monthly, monthly => true
  | _, _ => false
  end.

(** The events of a track: the Notifier invoked for it, [lastCelebration]
    set for it, its marker written or removed. *)
Definition isNotify (track : GoalType) (e : Event) : bool :=
  match e with
  | EvNotify tag =>
      match track, tag with
      | daily, daily_goal_achievement => true
      | monthly, monthly_goal_achievement => true
      | _, _ => false
      end
  | _ => false
  end.

Definition isCelebration (track : GoalType) (e : Event) : bool :=
  match e with
  | EvDispatch (SET_LAST_CELEBRATION (Some cel)) => GoalType_eqb (goalType cel) track
  | _ => false
  end.

Definition isMarkerWrite (track : GoalType) (e : Event) : bool :=
  match e with
  | EvSetItem key _ => String.eqb key (markerKey track)
  | EvRemoveItem key => String.eqb key (markerKey track)
  | _ => false
  end.

Definition countIn (f : Event -> bool) (w : World) : nat :=
  length (filter f (log w)).

Definition count (f : Event -> bool) (l : list Event) : nat :=
  length (filter f l).

(** The events of the two tracks in a stretch of the log: the calls of
    the Notifier for the day, and the events of the month. *)
Definition tally (l : list Event) : nat * (nat * nat * nat) :=
  (count (isNotify daily) l,
   (count (isNotify monthly) l, count (isCelebration monthly) l,
    count (isMarkerWrite monthly) l)).

(** An invocation finds both Progress records, as the guard of the
    evaluator requires. *)
Definition hasProgress (i : Invocation) : Prop :=
  exists dp mp, dailyProgress (inv_state i) = Some dp /\
                monthlyProgress (inv_state i) = Some mp.

(** The achievement of a track is there to be celebrated: its Progress is
    achieved and its goal is set. *)
Definition achievedIn (track : GoalType) (i : Invocation) : Prop :=
  match track with
  | daily =>
      exists dp, dailyProgress (inv_state i) = Some dp /\ is_achieved dp = true /\
                 dailyGoal (inv_state i) <> None
  | monthly =>
      exists mp, monthlyProgress (inv_state i) = Some mp /\ is_achieved mp = true /\
                 monthlyGoal (inv_state i) <> None
  end.

(** Nothing stops the invocation before the block of the track: nothing
    comes before the daily block; the monthly block is reached unless the
    daily block throws, which it cannot do when the daily Progress is not
    achieved, or when the daily goal is set and the Notifier accepts the
    daily notification. *)
Definition unhindered (track : GoalType) (i : Invocation) : Prop :=
  match track with
  | daily => True
  | monthly =>
      (exists dp, dailyProgress (inv_state i) = Some dp /\ is_achieved dp = false) \/
      (dailyGoal (inv_state i) <> None /\
       showNotification (inv_collaborators i) daily_goal_achievement = true)
  end.

(** "within the same calendar day", resp. "within the same month" *)
Definition samePeriod (track : GoalType) (tz : Zone) (t t0 : Z) : Prop :=
  match track with
  | daily => onSameDay tz t t0
  | monthly => inSameMonth tz t t0
  end.

(** The events of a track and the clearing of [lastCelebration] are the
    only ways the evaluator touches the marker of the track and
    [lastCelebration]; an invocation is quiet for a track when it has
    none of them. *)
Definition quietFor (track : GoalType) (w : World) : Prop :=
  countIn (isNotify track) w = 0%nat /\
  countIn (isCelebration track) w = 0%nat /\
  countIn (isMarkerWrite track) w = 0%nat.

(** The events of a track in a stretch of the log: [n] calls of the
    Notifier, [n] settings of [lastCelebration] and [n] writes of the
    marker. *)
Definition trackEvents (track : GoalType) (l : list Event) (n : nat) : Prop :=
  count (isNotify track) l = n /\ count (isCelebration track) l = n /\
  count (isMarkerWrite track) l = n.

Definition noClear (l : list Event) : Prop :=
  ~ In (EvDispatch CLEAR_LAST_CELEBRATION) l.

Definition readyFor (track : GoalType) (i : Invocation) : Prop :=
  hasProgress i /\ achievedIn track i /\ unhindered track i.

(** A suspended invocation that will celebrate the month when it is
    resumed, unless the month has been celebrated by then. *)
Definition readyPending (track : GoalType) (p : Suspended) : Prop :=
  track = monthly /\
  exists i mp lm,
    p = AwaitsDaily i mp lm /\ is_achieved mp = true /\
    monthlyGoal (inv_state i) <> None /\
    showNotification (inv_collaborators i) daily_goal_achievement = true.

(** The number of invocations that await their daily notification. *)
Fixpoint nDaily (l : list Suspended) : nat :=
  match l with
  | [] => 0
  | p :: rest => (if awaitsDaily p then 1 else 0) + nDaily rest
  end.

(** What a schedule without overlap keeps true for the monthly track: at
    most one invocation awaits its daily notification, and the monthly
    marker it has read is still the one in the cache. *)
Definition pendingOk (track : GoalType) (key : string)
  (st : World * list Suspended) : Prop :=
  track = monthly ->
  (nDaily (snd st) <= 1)%nat /\
  forall i mp lm,
    In (AwaitsDaily i mp lm) (snd st) ->
    periodKey (inv_collaborators i) monthly (inv_now i) = key /\
    lm = storage (fst st) !! "lastMonthlyCelebration".

(** ** Scenarios

    Concrete inputs for the examples: a shop in a zone three hours ahead
    of UTC, store scope "S1", around 1 June 2024. *)

Definition istanbul : Zone := fixedOffset 10800000.

(** 2024-06-01T00:05:00, 2024-06-01T09:00:00 and 2024-04-15T12:00:00, local time. *)
Definition june1 : Z := newDate istanbul 2024 5 1 0 5 0 0.
Definition june1_morning : Z := newDate istanbul 2024 5 1 9 0 0 0.

Definition owner : User := {| id := "u1"; store_id := Some "S1" |}.
Definition ownerWithoutStore : User := {| id := "u1"; store_id := None |}.

Definition monthlyGoalOf (name : string) (month lastDay : Z) (target : Q)
  : SalesGoal :=
  {| _id := name; goal_type := monthly; goal_name := name;
     target_amount := target;
     period_start := Some (newDate istanbul 2024 month 1 0 0 0 0);
     period_end := Some (newDate istanbul 2024 month lastDay 23 59 59 999) |}.

Definition mayGoal : SalesGoal := monthlyGoalOf "May" 4 31 100000.
Definition juneGoal : SalesGoal := monthlyGoalOf "June" 5 30 100000.

(** 2024-07-01T09:00:00, local time, and a goal for July whose target, a
    double, is so large that its 31st part is not a double. *)
Definition july1_morning : Z := newDate istanbul 2024 6 1 9 0 0 0.
Definition julyGoal : SalesGoal := monthlyGoalOf "July" 6 31 17451448556060704.

Definition june1Goal : SalesGoal :=
  {| _id := "d1"; goal_type := daily; goal_name := "1 June";
     target_amount := 3334;
     period_start := Some (newDate istanbul 2024 5 1 0 0 0 0);
     period_end := Some (newDate istanbul 2024 5 1 23 59 59 999) |}.

(** What [JSON.parse] makes of the texts that the examples store besides
    goals: [null], a few other literals, and text that is no JSON. *)
Definition parseLiteral (s : string) : Parsed :=
  if String.eqb s "null" then ParsedNull
  else if (String.eqb s "{}") || (String.eqb s "[]") || (String.eqb s "true")
          || (String.eqb s "false") || (String.eqb s "0")
       then ParsedOther
       else SyntaxError.

(** The collaborators of a signed-in session: what the Goal Store lists,
    what it answers to a creation, the totals of the Sales Metrics Source
    and the answers of the Notifier. *)
Definition session (u : User) (listed : option (list SalesGoal))
  (created : CreateGoalRequest -> option SalesGoal)
  (totals : DateRange -> option Q) (notifier : NotificationTag -> bool)
  : Collaborators :=
  {| LocalTZA := istanbul;
     isAuthenticated := true;
     user := Some u;
     getGoals := fun _ => listed;
     createGoal := created;
     getDashboardAnalytics :=
       fun _ range => Some {| totalSales := totals range |};
     showNotification := notifier;
     parseJSON := parseLiteral |}.

(** A Goal Store that creates what it is asked to create. *)
Definition creates (req : CreateGoalRequest) : option SalesGoal :=
  Some {| _id := "new"; goal_type := req_goal_type req; goal_name := "";
          target_amount := req_target_amount req;
          period_start := Some (req_period_start req);
          period_end := Some (req_period_end req) |}.

Definition noTotals (range : DateRange) : option Q := None.
Definition accepts (tag : NotificationTag) : bool := true.
Definition rejectsDaily (tag : NotificationTag) : bool :=
  match tag with
  | daily_goal_achievement => false
  | monthly_goal_achievement => true
  end.

(** The state once both goals of June are set, and once both are achieved. *)
Definition juneState : GoalState :=
  {| dailyGoal := Some june1Goal;
     monthlyGoal := Some juneGoal;
     dailyProgress := None;
     monthlyProgress := None;
     loading := false;
     error := None;
     lastCelebration := None;
     celebratedToday := false;
     celebratedThisMonth := false |}.

Definition achievedProgress (g : SalesGoal) (amount : Q) : GoalProgress :=
  {| goal := g;
     current_amount := amount;
     progress_percentage := Some 100%Q;
     is_achieved := true;
     hours_remaining := None;
     days_remaining := None |}.

Definition achievedState : GoalState :=
  {| dailyGoal := Some june1Goal;
     monthlyGoal := Some juneGoal;
     dailyProgress := Some (achievedProgress june1Goal 3334);
     monthlyProgress := Some (achievedProgress juneGoal 100000);
     loading := false;
     error := None;
     lastCelebration := None;
     celebratedToday := false;
     celebratedThisMonth := false |}.

(** ** Two days of the shop

    On 31 May the store lists the daily goal of the day (400) and May's
    monthly goal; the day's total is 500, so the daily goal is achieved and
    celebrated.  On the morning of 1 June the page is still open and the
    goals are loaded again: the store lists no daily goal for 1 June, so
    [loadGoals] sets the daily goal to null, while the Progress of 31 May
    and the marker of 31 May are still there. *)

Definition may31 : Z := newDate istanbul 2024 4 31 20 0 0 0.

Definition may31Goal : SalesGoal :=
  {| _id := "d31"; goal_type := daily; goal_name := "31 May";
     target_amount := 400;
     period_start := Some (newDate istanbul 2024 4 31 0 0 0 0);
     period_end := Some (newDate istanbul 2024 4 31 23 59 59 999) |}.

Definition mayTotals (range : DateRange) : option Q :=
  match range with
  | today => Some 500%Q
  | this_month => Some 90000%Q
  end.

Definition mayShop : Collaborators :=
  session owner (Some [may31Goal; mayGoal]) creates mayTotals accepts.

Definition juneShop : Collaborators :=
  session owner (Some [may31Goal; juneGoal]) creates mayTotals accepts.

(** The state and the cache after an operation. *)
Definition after (m : M unit) (p : GoalState * Storage) : GoalState * Storage :=
  let w := fst (run m (fst p) (snd p)) in
  (state w, storage w).

Definition eveningOfMay31 : GoalState * Storage :=
  let p1 := after (loadGoals mayShop may31) (initialState, ∅) in
  let p2 := after (updateGoalProgress mayShop may31 (fst p1)) p1 in
  after (checkGoalAchievements mayShop may31 (fst p2)) p2.

Definition morningOfJune1 : GoalState * Storage :=
  after (loadGoals juneShop june1_morning) eveningOfMay31.

(** A daily goal of 100 with no period bounds. *)
Definition plainDaily : SalesGoal :=
  {| _id := "d0"; goal_type := daily; goal_name := "plain";
     target_amount := 100; period_start := None; period_end := None |}.

Definition plainState : GoalState :=
  {| dailyGoal := Some plainDaily;
     monthlyGoal := Some juneGoal;
     dailyProgress := None;
     monthlyProgress := None;
     loading := false;
     error := None;
     lastCelebration := None;
     celebratedToday := false;
     celebratedThisMonth := false |}.


Definition goodTotals (range : DateRange) : option Q :=
  match range with
  | today => Some 150%Q
  | this_month => Some 20000%Q
  end.

Definition invocation (notifier : NotificationTag -> bool) (now : Z)
  (s : GoalState) : Invocation :=
  {| inv_collaborators := session owner None creates noTotals notifier;
     inv_now := now;
     inv_state := s |}.

(** ** Reading the log of a run *)

(** The run reported a failure: it dispatched [SET_ERROR]. *)
Definition failed (w : World) : Prop :=
  exists message, In (EvDispatch (SET_ERROR message)) (log w).

Definition isSetError (e : Event) : bool :=
  match e with
  | EvDispatch (SET_ERROR _) => true
  | _ => false
  end.

(** The calls of a run that ask the Goal Store for something. *)
Definition isCreateGoal (track : GoalType) (e : Event) : bool :=
  match e with
  | EvCreateGoal req => GoalType_eqb (req_goal_type req) track
  | _ => false
  end.

Definition isGetGoals (e : Event) : bool :=
  match e with
  | EvGetGoals _ => true
  | _ => false
  end.

(** The queries a run made to the Sales Metrics Source, in order. *)
Definition analyticsQueries (l : list Event) : list (option string * DateRange) :=
  flat_map (fun e => match e with
                     | EvGetDashboardAnalytics store range => [(store, range)]
                     | _ => []
                     end) l.

(** The actions a run dispatched, in order. *)
Definition dispatches (l : list Event) : list GoalAction :=
  flat_map (fun e => match e with
                     | EvDispatch a => [a]
                     | _ => []
                     end) l.

(** The notifications a run asked the Notifier to show, and the
    celebrations it dispatched, in order. *)
Definition notifications (l : list Event) : list NotificationTag :=
  flat_map (fun e => match e with
                     | EvNotify tag => [tag]
                     | _ => []
                     end) l.

Definition celebrations (l : list Event) : list GoalCelebration :=
  flat_map (fun e => match e with
                     | EvDispatch (SET_LAST_CELEBRATION (Some cel)) => [cel]
                     | _ => []
                     end) l.

(** ** The operations of the context, one after the other

    What the provider exposes (and the rollover guard it runs itself), as
    commands; each runs from the render that sees the current state. *)
Inductive Command :=
| LoadGoals
| UpdateGoalProgress
| CheckGoalAchievements
| ResetDailyGoalsForNewDay
| ClearLastCelebration
| SetDailyGoal (g : SalesGoal)
| SetMonthlyGoal (g : SalesGoal).

Definition perform (c : Collaborators) (now : Z) (cmd : Command) (s : GoalState)
  : M unit :=
  match cmd with
  | LoadGoals => loadGoals c now
  | UpdateGoalProgress => updateGoalProgress c now s
  | CheckGoalAchievements => checkGoalAchievements c now s
  | ResetDailyGoalsForNewDay => resetDailyGoalsForNewDay c now s
  | ClearLastCelebration => clearLastCelebration
  | SetDailyGoal g => setDailyGoal g
  | SetMonthlyGoal g => setMonthlyGoal g
  end.

(** A command with the collaborators and the clock of the moment. *)
Record Step := {
  step_collaborators : Collaborators;
  step_now : Z;
  step_command : Command
}.

Fixpoint performAll (steps : list Step) (p : GoalState * Storage)
  : GoalState * Storage :=
  match steps with
  | [] => p
  | st :: rest =>
      performAll rest
        (after (perform (step_collaborators st) (step_now st) (step_command st)
                  (fst p)) p)
  end.

(** A Progress whose fields agree: the percentage is a number, at most
    999, and the Progress is achieved exactly when it is at least 100. *)
Definition consistent (p : GoalProgress) : Prop :=
  exists q, progress_percentage p = Some q /\ (q <= 999)%Q /\
            (is_achieved p = true <-> (100 <= q)%Q).

(** The state between two operations. *)
Definition settled (s : GoalState) : Prop :=
  loading s = false /\
  (error s = None \/ error s = Some "Failed to load goals") /\
  celebratedToday s = false /\ celebratedThisMonth s = false /\
  (forall p, dailyProgress s = Some p -> consistent p) /\
  (forall p, monthlyProgress s = Some p -> consistent p).

(** ** The effects of the provider

    The bodies of the [useEffect] hooks that call the operations.  A call
    whose promise is not awaited runs [detached]: a rejection does not
    reach the effect. *)
Definition detached (m : M unit) : M unit :=
  fun w => (fst (m w), Returned tt).

(** "Load goals on mount": [loadGoals().catch(...)] for a signed-in user
    with a store scope. *)
Definition loadEffect (c : Collaborators) (now : Z) : M unit :=
  match isAuthenticated c, user c with
  | true, Some u =>
      match store_id u with
      | Some store =>
          if String.eqb store "" then ret tt
          else tryCatch (loadGoals c now) (ret tt)
      | None => ret tt
      end
  | _, _ => ret tt
  end.

(** "Recompute progress whenever goals are available/changed" *)
Definition progressEffect (c : Collaborators) (now : Z) (s : GoalState) : M unit :=
  match isAuthenticated c, user c with
  | true, Some _ =>
      match dailyGoal s, monthlyGoal s with
      | Some _, Some _ => detached (updateGoalProgress c now s)
      | _, _ => ret tt
      end
  | _, _ => ret tt
  end.

(** One tick of the 30-minute interval, which is set only for a signed-in
    user. *)
Definition intervalEffect (c : Collaborators) (now : Z) (s : GoalState) : M unit :=
  match isAuthenticated c, user c with
  | true, Some _ => detached (updateGoalProgress c now s)
  | _, _ => ret tt
  end.

(** "Check for goal achievements when progress changes" *)
Definition achievementEffect (c : Collaborators) (now : Z) (s : GoalState) : M unit :=
  match dailyProgress s, monthlyProgress s with
  | Some _, Some _ => detached (checkGoalAchievements c now s)
  | _, _ => ret tt
  end.

(** A session none of whose services can be reached. *)
Definition offline (u : User) : Collaborators :=
  {| LocalTZA := istanbul;
     isAuthenticated := true;
     user := Some u;
     getGoals := fun _ => None;
     createGoal := fun _ => None;
     getDashboardAnalytics := fun _ _ => None;
     showNotification := accepts;
     parseJSON := parseLiteral |}.

(** A shop whose Goal Store lists the goals of 1 June and of June. *)
Definition listedShop : Collaborators :=
  session owner (Some [june1Goal; juneGoal]) creates noTotals accepts.

(** A shop in New York, where the clocks are moved on 10 March and on
    3 November 2024, and its monthly goals, each from the first to the
    last instant of its month. *)
Definition newYorkShop (listed : list SalesGoal) : Collaborators :=
  {| LocalTZA := newYork2024;
     isAuthenticated := true;
     user := Some owner;
     getGoals := fun _ => Some listed;
     createGoal := creates;
     getDashboardAnalytics := fun _ _ => None;
     showNotification := accepts;
     parseJSON := parseLiteral |}.

Definition newYorkGoal (name : string) (month lastDay : Z) : SalesGoal :=
  {| _id := name; goal_type := monthly; goal_name := name;
     target_amount := 90000;
     period_start := Some (newDate newYork2024 2024 month 1 0 0 0 0);
     period_end := Some (newDate newYork2024 2024 month lastDay 23 59 59 999) |}.

(** * Theorems *)

(** * Properties of the time values *)

Lemma DayFromYear_step y :
  DayFromYear (y + 1) = DayFromYear y + DaysInYear y.
Proof.
  unfold DayFromYear, DaysInYear, isLeapYear.
  destruct (y mod 4 =? 0) eqn:E4; destruct (y mod 100 =? 0) eqn:E100;
    destruct (y mod 400 =? 0) eqn:E400; cbn [andb orb negb]; lia.
Qed.

Lemma DayFromYear_mono a b : a <= b -> DayFromYear a + 365 * (b - a) <= DayFromYear b.
Proof. unfold DayFromYear. lia. Qed.

Lemma YearFromDay_spec d :
  DayFromYear (YearFromDay d) <= d < DayFromYear (YearFromDay d + 1).
Proof.
  unfold YearFromDay. cbv zeta.
  assert (H : DayFromYear (1970 + 400 * d / 146097 - 1) <= d
              < DayFromYear (1970 + 400 * d / 146097 + 1 + 1)).
  { unfold DayFromYear. lia. }
  destruct (Z.leb_spec (DayFromYear (1970 + 400 * d / 146097 + 1)) d);
    [lia|].
  destruct (Z.leb_spec (DayFromYear (1970 + 400 * d / 146097)) d).
  - lia.
  - replace (1970 + 400 * d / 146097 - 1 + 1) with (1970 + 400 * d / 146097) by lia.
    lia.
Qed.

Lemma YearFromDay_unique d y :
  DayFromYear y <= d < DayFromYear (y + 1) -> YearFromDay d = y.
Proof.
  intros H. pose proof (YearFromDay_spec d) as S.
  destruct (Z.lt_trichotomy (YearFromDay d) y) as [L|[E|G]]; [|exact E|].
  - pose proof (DayFromYear_mono (YearFromDay d + 1) y). lia.
  - pose proof (DayFromYear_mono (y + 1) (YearFromDay d)). lia.
Qed.

Ltac eval_days :=
  repeat match goal with
         | |- context [daysBeforeMonth ?a ?b] =>
             let v := eval vm_compute in (daysBeforeMonth a b) in
             progress change (daysBeforeMonth a b) with v
         | H : context [daysBeforeMonth ?a ?b] |- _ =>
             let v := eval vm_compute in (daysBeforeMonth a b) in
             progress change (daysBeforeMonth a b) with v in H
         end.

Ltac month_cases m :=
  let H := fresh "Hm" in
  assert (H : m = 0 \/ m = 1 \/ m = 2 \/ m = 3 \/ m = 4 \/ m = 5 \/ m = 6 \/
              m = 7 \/ m = 8 \/ m = 9 \/ m = 10 \/ m = 11) by lia;
  repeat (destruct H as [H|H]; [subst m|]); [..|subst m].

Lemma YearFromTime_spec t :
  TimeFromYear (YearFromTime t) <= t < TimeFromYear (YearFromTime t + 1).
Proof.
  unfold TimeFromYear, YearFromTime.
  pose proof (YearFromDay_spec (Day t)) as H. unfold Day, msPerDay in *. lia.
Qed.

Lemma YearFromTime_unique t y :
  TimeFromYear y <= t < TimeFromYear (y + 1) -> YearFromTime t = y.
Proof.
  unfold TimeFromYear, YearFromTime. intros H.
  apply YearFromDay_unique. unfold Day, msPerDay in *. lia.
Qed.

Lemma DayWithinYear_range t :
  0 <= DayWithinYear t < DaysInYear (YearFromTime t).
Proof.
  unfold DayWithinYear, YearFromTime.
  pose proof (YearFromDay_spec (Day t)) as H.
  rewrite DayFromYear_step in H. lia.
Qed.

Lemma MonthFromTime_range t : 0 <= MonthFromTime t <= 11.
Proof.
  unfold MonthFromTime. cbv zeta.
  repeat (match goal with |- context [if ?b then _ else _] => destruct b end);
    lia.
Qed.

Lemma InLeapYear_eq t :
  InLeapYear t = if isLeapYear (YearFromTime t) then 1 else 0.
Proof. reflexivity. Qed.

Lemma DateFromTime_range t :
  1 <= DateFromTime t <= DaysInMonth (YearFromTime t) (MonthFromTime t).
Proof.
  pose proof (DayWithinYear_range t) as R.
  unfold DateFromTime, DaysInMonth, MonthFromTime, InLeapYear, DaysInYear in *.
  cbv zeta.
  destruct (isLeapYear (YearFromTime t));
  repeat (match goal with
          | |- context [if (?a <? ?b) then _ else _] =>
              destruct (Z.ltb_spec a b)
          end; cbn); lia.
Qed.

(** Decomposing a time value into year, month and day and composing
    them again gives the day number back. *)
Lemma MakeDay_fields t :
  MakeDay (YearFromTime t) (MonthFromTime t) (DateFromTime t) = Day t.
Proof.
  pose proof (MonthFromTime_range t) as R.
  unfold MakeDay. cbv zeta.
  replace (MonthFromTime t / 12) with 0 by lia.
  replace (MonthFromTime t mod 12) with (MonthFromTime t) by lia.
  rewrite Z.add_0_r. unfold DateFromTime, InLeapYear, DayWithinYear. lia.
Qed.

Lemma MakeDay_date y m d : MakeDay y m d = MakeDay y m 1 + (d - 1).
Proof. unfold MakeDay. lia. Qed.

Lemma MakeDay_first y m :
  0 <= m <= 11 ->
  MakeDay y m 1 = DayFromYear y + daysBeforeMonth (if isLeapYear y then 1 else 0) m.
Proof.
  intros Hm. unfold MakeDay. cbv zeta.
  replace (m / 12) with 0 by lia. replace (m mod 12) with m by lia.
  rewrite Z.add_0_r. lia.
Qed.

Lemma MakeDay_next_year y : MakeDay y 12 1 = DayFromYear (y + 1).
Proof.
  unfold MakeDay. cbv zeta.
  change (12 / 12) with 1. change (12 mod 12) with 0. cbn. lia.
Qed.

Lemma MakeDay_succ_month y m :
  0 <= m <= 11 -> MakeDay y (m + 1) 1 = MakeDay y m 1 + DaysInMonth y m.
Proof.
  intros Hm.
  destruct (Z.eq_dec m 11) as [->|Hne].
  - cbn [Z.add Pos.add Pos.succ]. rewrite MakeDay_next_year, MakeDay_first by lia.
    rewrite DayFromYear_step. unfold DaysInYear, DaysInMonth.
    destruct (isLeapYear y); cbn; lia.
  - rewrite !MakeDay_first by lia. unfold DaysInMonth.
    month_cases m; try lia; destruct (isLeapYear y); cbn; eval_days; lia.
Qed.

(** The days of month [m] of year [y] are exactly the day numbers from
    [MakeDay y m 1] up to, and excluding, [MakeDay y (m + 1) 1]. *)
Lemma month_of_Day t y m :
  0 <= m <= 11 ->
  (YearFromTime t = y /\ MonthFromTime t = m) <->
  (MakeDay y m 1 <= Day t < MakeDay y (m + 1) 1).
Proof.
  intros Hm. split.
  - intros [<- <-].
    pose proof (DateFromTime_range t) as D.
    rewrite MakeDay_succ_month by exact Hm.
    rewrite <- (MakeDay_fields t).
    rewrite (MakeDay_date _ _ (DateFromTime t)). lia.
  - intros H.
    rewrite MakeDay_succ_month, MakeDay_first in H by exact Hm.
    assert (Hy : YearFromTime t = y).
    { unfold YearFromTime. apply YearFromDay_unique.
      rewrite DayFromYear_step. unfold DaysInYear, DaysInMonth in *.
      month_cases m; destruct (isLeapYear y); cbn in *; eval_days; lia. }
    split; [exact Hy|].
    unfold MonthFromTime, InLeapYear, DayWithinYear. rewrite Hy. cbv zeta.
    unfold DaysInMonth in H.
    month_cases m; destruct (isLeapYear y); cbn in H; eval_days;
      repeat (match goal with
              | |- context [if (?a <? ?b) then _ else _] =>
                  destruct (Z.ltb_spec a b)
              end); lia.
Qed.

(** * The [Date] object in local time *)

Section LocalDateFacts.
Variable tz : Zone.

Lemma Day_MakeDate day time :
  0 <= time < msPerDay -> Day (MakeDate day time) = day.
Proof. unfold Day, MakeDate, msPerDay. lia. Qed.

(** The fields of a day number composed by [MakeDay]. *)
Lemma fields_of_Day t y m d :
  0 <= m <= 11 -> 1 <= d <= DaysInMonth y m ->
  Day t = MakeDay y m d ->
  YearFromTime t = y /\ MonthFromTime t = m /\ DateFromTime t = d.
Proof.
  intros Hm Hd Ht.
  assert (H : YearFromTime t = y /\ MonthFromTime t = m).
  { apply month_of_Day; [exact Hm|].
    rewrite Ht, MakeDay_succ_month, (MakeDay_date y m d) by exact Hm. lia. }
  destruct H as [Hy Hmo]. split; [exact Hy|]. split; [exact Hmo|].
  pose proof (MakeDay_fields t) as F. rewrite Hy, Hmo, Ht in F.
  rewrite (MakeDay_date y m d), (MakeDay_date y m (DateFromTime t)) in F. lia.
Qed.

Lemma newDate_eq y m d h mi s ms :
  ~ (0 <= y <= 99) ->
  newDate tz y m d h mi s ms
  = UTC tz (MakeDate (MakeDay y m d) (MakeTime h mi s ms)).
Proof.
  intros Hy. unfold newDate.
  destruct (Z.leb_spec 0 y); destruct (Z.leb_spec y 99); cbn [andb];
    try reflexivity; lia.
Qed.

Lemma DaysInMonth_pos y m : 28 <= DaysInMonth y m <= 31.
Proof.
  unfold DaysInMonth. cbv zeta. destruct (isLeapYear y);
    repeat match goal with |- context [?a =? ?b] => destruct (Z.eqb_spec a b) end;
    cbn; lia.
Qed.

Lemma dayStart_eq D : dayStart tz D = utcOfLocal tz (D * msPerDay).
Proof.
  unfold dayStart, UTC, MakeDate, MakeTime.
  f_equal; unfold msPerDay, msPerHour, msPerMinute, msPerSecond; lia.
Qed.

Lemma dayEnd_eq D : dayEnd tz D = utcOfLocal tz (D * msPerDay + (msPerDay - 1)).
Proof.
  unfold dayEnd, UTC, MakeDate, MakeTime.
  f_equal; unfold msPerDay, msPerHour, msPerMinute, msPerSecond; lia.
Qed.

(** The instants of a local calendar day. *)
Lemma local_day D t :
  Day (LocalTime tz t) = D <-> dayStart tz D <= t <= dayEnd tz D.
Proof. rewrite dayStart_eq, dayEnd_eq. apply (zone_days tz). Qed.

Lemma dayStart_le_dayEnd D : dayStart tz D <= dayEnd tz D.
Proof. rewrite dayStart_eq, dayEnd_eq. apply (zone_order tz). Qed.

Lemma dayEnd_lt_next D : dayEnd tz D < dayStart tz (D + 1).
Proof. rewrite dayStart_eq, dayEnd_eq. apply (zone_order tz). Qed.

Lemma Day_dayStart D : Day (LocalTime tz (dayStart tz D)) = D.
Proof. apply local_day. pose proof (dayStart_le_dayEnd D). lia. Qed.

Lemma dayStart_mono D D' : D <= D' -> dayStart tz D <= dayStart tz D'.
Proof.
  intros H. replace D' with (D + Z.of_nat (Z.to_nat (D' - D))) by lia.
  generalize (Z.to_nat (D' - D)). intros n.
  induction n as [|n IH]; [rewrite Z.add_0_r; lia|].
  pose proof (dayStart_le_dayEnd (D + Z.of_nat n)).
  pose proof (dayEnd_lt_next (D + Z.of_nat n)).
  replace (D + Z.of_nat (S n)) with (D + Z.of_nat n + 1) by lia. lia.
Qed.

Lemma dayEnd_lt D D' : D < D' -> dayEnd tz D < dayStart tz D'.
Proof.
  intros H. pose proof (dayEnd_lt_next D).
  pose proof (dayStart_mono (D + 1) D'). lia.
Qed.


(** The days follow each other without a gap. *)
Lemma dayStart_next D : dayStart tz (D + 1) = dayEnd tz D + 1.
Proof.
  pose proof (dayEnd_lt_next D) as L.
  pose proof (proj1 (local_day (Day (LocalTime tz (dayEnd tz D + 1)))
                       (dayEnd tz D + 1)) eq_refl) as [H1 H2].
  destruct (Z.le_gt_cases (D + 1) (Day (LocalTime tz (dayEnd tz D + 1))))
    as [G|G].
  - pose proof (dayStart_mono (D + 1) _ G). lia.
  - destruct (Z.eq_dec (Day (LocalTime tz (dayEnd tz D + 1))) D) as [E|E].
    + rewrite E in H2. lia.
    + pose proof (dayEnd_lt (Day (LocalTime tz (dayEnd tz D + 1))) D ltac:(lia)).
      pose proof (dayStart_le_dayEnd D). lia.
Qed.

(** Where the offset does not change at midnight, the first instant of
    a day reads 00:00:00.000 and the last reads 23:59:59.999. *)
Lemma dayStart_clock D :
  offsetAt tz (dayStart tz D - 1) = offsetAt tz (dayStart tz D) ->
  LocalTime tz (dayStart tz D) = MakeDate D (MakeTime 0 0 0 0).
Proof.
  intros Ho.
  pose proof (Day_dayStart D) as H1.
  pose proof (dayStart_next (D - 1)) as N.
  replace (D - 1 + 1) with D in N by lia.
  assert (H2 : Day (LocalTime tz (dayStart tz D - 1)) = D - 1).
  { apply local_day. pose proof (dayStart_le_dayEnd (D - 1)). lia. }
  unfold LocalTime, Day, MakeDate, MakeTime, msPerDay, msPerHour, msPerMinute,
    msPerSecond in *.
  rewrite Ho in H2. lia.
Qed.

Lemma dayEnd_clock D :
  offsetAt tz (dayEnd tz D) = offsetAt tz (dayEnd tz D + 1) ->
  LocalTime tz (dayEnd tz D) = MakeDate D (MakeTime 23 59 59 999).
Proof.
  intros Ho.
  assert (H1 : Day (LocalTime tz (dayEnd tz D)) = D).
  { apply local_day. pose proof (dayStart_le_dayEnd D). lia. }
  pose proof (dayStart_next D) as N.
  pose proof (Day_dayStart (D + 1)) as H2. rewrite N in H2.
  unfold LocalTime, Day, MakeDate, MakeTime, msPerDay, msPerHour, msPerMinute,
    msPerSecond in *.
  rewrite <- Ho in H2. lia.
Qed.

(** The time of day of a local time value. *)
Lemma clock_of_MakeDate D h mi s ms :
  0 <= h < 24 -> 0 <= mi < 60 -> 0 <= s < 60 -> 0 <= ms < 1000 ->
  (HourFromTime (MakeDate D (MakeTime h mi s ms)),
   MinFromTime (MakeDate D (MakeTime h mi s ms)),
   SecFromTime (MakeDate D (MakeTime h mi s ms)),
   msFromTime (MakeDate D (MakeTime h mi s ms))) = (h, mi, s, ms).
Proof.
  intros Hh Hmi Hs Hms.
  unfold HourFromTime, MinFromTime, SecFromTime, msFromTime, MakeDate, MakeTime,
    msPerDay, msPerHour, msPerMinute, msPerSecond.
  repeat f_equal; lia.
Qed.

(** [new Date(y, m, d)] with fields in range has these fields. *)
Lemma newDate_fields y m d :
  ~ (0 <= y <= 99) -> 0 <= m <= 11 -> 1 <= d <= DaysInMonth y m ->
  getFullYear tz (newDate tz y m d 0 0 0 0) = y /\
  getMonth tz (newDate tz y m d 0 0 0 0) = m /\
  getDate tz (newDate tz y m d 0 0 0 0) = d.
Proof.
  intros Hy Hm Hd. unfold getFullYear, getMonth, getDate.
  rewrite newDate_eq by exact Hy.
  apply fields_of_Day; [exact Hm|exact Hd|].
  apply Day_dayStart.
Qed.

Section Now.
Variable now : Z.
Hypothesis Hyear : 100 <= getFullYear tz now.

Lemma now_month_range : 0 <= getMonth tz now <= 11.
Proof. apply MonthFromTime_range. Qed.

Lemma now_date_range :
  1 <= getDate tz now <= DaysInMonth (getFullYear tz now) (getMonth tz now).
Proof. apply DateFromTime_range. Qed.

Lemma now_Day :
  MakeDay (getFullYear tz now) (getMonth tz now) (getDate tz now)
  = Day (LocalTime tz now).
Proof. apply MakeDay_fields. Qed.

(** The instants of today's local calendar day are those from
    [new Date(y, m, d, 0, 0, 0, 0)] to [new Date(y, m, d, 23, 59, 59, 999)]. *)
Lemma today_window t :
  newDate tz (getFullYear tz now) (getMonth tz now) (getDate tz now) 0 0 0 0 <= t
  <= newDate tz (getFullYear tz now) (getMonth tz now) (getDate tz now) 23 59 59 999
  <-> onSameDay tz t now.
Proof using Hyear.
  rewrite !newDate_eq by lia. rewrite now_Day.
  unfold onSameDay. symmetry. apply local_day.
Qed.



(** [new Date(y, m + 1, 0)] is the last day of the current month. *)
Lemma endOfMonth_date :
  getDate tz (newDate3 tz (getFullYear tz now) (getMonth tz now + 1) 0)
  = DaysInMonth (getFullYear tz now) (getMonth tz now).
Proof using Hyear.
  pose proof now_month_range as Hm.
  pose proof (DaysInMonth_pos (getFullYear tz now) (getMonth tz now)) as Hp.
  set (e := newDate3 tz (getFullYear tz now) (getMonth tz now + 1) 0).
  change (getDate tz e) with (DateFromTime (LocalTime tz e)).
  subst e. unfold newDate3.
  rewrite !newDate_eq by lia.
  apply (fields_of_Day _ (getFullYear tz now) (getMonth tz now)); [lia|lia|].
  fold (dayStart tz (MakeDay (getFullYear tz now) (getMonth tz now + 1) 0)).
  rewrite Day_dayStart.
  rewrite (MakeDay_date _ (getMonth tz now + 1) 0), MakeDay_succ_month by lia.
  rewrite (MakeDay_date _ (getMonth tz now) (DaysInMonth _ _)). lia.
Qed.

End Now.
End LocalDateFacts.

(** * Period keys *)

Lemma append_nil (b : string) : "" +:+ b = b.
Proof. reflexivity. Qed.

Lemma append_cons (x : ascii) (a b : string) :
  String x a +:+ b = String x (a +:+ b).
Proof. reflexivity. Qed.

Lemma length_append (a b : string) :
  String.length (a +:+ b) = (String.length a + String.length b)%nat.
Proof.
  induction a as [|x a IH]; rewrite ?append_nil, ?append_cons; cbn;
    [reflexivity|rewrite IH; reflexivity].
Qed.

Lemma append_assoc (a b d : string) : (a +:+ b) +:+ d = a +:+ (b +:+ d).
Proof.
  induction a as [|x a IH]; rewrite ?append_nil, ?append_cons;
    [reflexivity|rewrite IH; reflexivity].
Qed.

Lemma append_inj_l (a1 a2 b1 b2 : string) :
  String.length a1 = String.length a2 ->
  a1 +:+ b1 = a2 +:+ b2 -> a1 = a2 /\ b1 = b2.
Proof.
  revert a2. induction a1 as [|x a1 IH]; intros [|y a2] Hl H;
    try discriminate Hl.
  - split; [reflexivity|exact H].
  - rewrite !append_cons in H. cbn in Hl. injection H as -> H. injection Hl as Hl.
    destruct (IH a2 Hl H) as [-> ->]. split; reflexivity.
Qed.

Lemma append_inj_r (a1 a2 b1 b2 : string) :
  String.length b1 = String.length b2 ->
  a1 +:+ b1 = a2 +:+ b2 -> a1 = a2 /\ b1 = b2.
Proof.
  intros Hl H. apply append_inj_l; [|exact H].
  apply (f_equal String.length) in H. rewrite !length_append in H. lia.
Qed.

(** A property checked on 0, ..., n - 1 holds on that range. *)
Lemma range_check (f : Z -> bool) (n : nat) :
  forallb f (map Z.of_nat (seq 0 n)) = true ->
  forall d, 0 <= d < Z.of_nat n -> f d = true.
Proof.
  intros H d Hd. rewrite forallb_forall in H. apply H.
  apply in_map_iff. exists (Z.to_nat d). split; [lia|].
  apply in_seq. lia.
Qed.

Lemma unsignedValue_zero (s : string) :
  unsignedValue (String "0" s) = unsignedValue s.
Proof.
  unfold unsignedValue. cbn [NilEmpty.uint_of_string].
  destruct (NilEmpty.uint_of_string s); reflexivity.
Qed.

Lemma unsignedValue_dash (s : string) : unsignedValue (String "-" s) = None.
Proof.
  unfold unsignedValue. cbn [NilEmpty.uint_of_string].
  destruct (NilEmpty.uint_of_string s); reflexivity.
Qed.

Lemma unsignedValue_toString (n : Z) :
  0 <= n -> unsignedValue (Number_toString n) = Some n.
Proof.
  intros Hn. unfold unsignedValue, Number_toString.
  destruct n as [|p|p]; [reflexivity| |lia].
  cbn [Z.to_int NilZero.string_of_int]. unfold NilZero.string_of_uint.
  assert (Hp : NilEmpty.uint_of_string
                 (NilEmpty.string_of_uint (Pos.to_uint p))
               = Some (Pos.to_uint p)) by apply NilEmpty.usu.
  assert (Hv : Z.of_uint (Pos.to_uint p) = Z.pos p).
  { unfold Z.of_uint. rewrite DecimalPos.Unsigned.of_to. reflexivity. }
  destruct (Pos.to_uint p) eqn:E; rewrite ?Hp; cbn [option_map];
    rewrite ?Hv; try reflexivity.
  cbn in Hv. discriminate Hv.
Qed.

Lemma unsignedValue_repeat (k : nat) (s : string) :
  unsignedValue (repeatChar k "0" +:+ s) = unsignedValue s.
Proof.
  induction k as [|k IH]; cbn [repeatChar]; [reflexivity|].
  rewrite append_cons, unsignedValue_zero. exact IH.
Qed.

Lemma unsignedValue_padded (n : Z) (k : nat) :
  0 <= n -> unsignedValue (ToZeroPaddedDecimalString n k) = Some n.
Proof.
  intros Hn. unfold ToZeroPaddedDecimalString, padStart.
  rewrite unsignedValue_repeat. apply unsignedValue_toString. exact Hn.
Qed.

Lemma Number_toString_inj (a b : Z) :
  Number_toString a = Number_toString b -> a = b.
Proof.
  unfold Number_toString. intros H.
  assert (Hnil : forall z, Z.to_int z <> Decimal.Pos Decimal.Nil /\
                           Z.to_int z <> Decimal.Neg Decimal.Nil).
  { intros [|p|p]; cbn; split; try discriminate;
      intros [= E]; apply (DecimalPos.Unsigned.to_uint_nonnil p); exact E. }
  apply (f_equal NilZero.int_of_string) in H.
  rewrite !NilZero.isi in H by apply Hnil.
  injection H as H. apply DecimalZ.to_int_inj. exact H.
Qed.

Lemma weekdayName_length (d : Z) : String.length (weekdayName d) = 3%nat.
Proof.
  unfold weekdayName.
  repeat match goal with |- context [?a =? ?b] => destruct (a =? b) end;
    reflexivity.
Qed.

Lemma monthName_length (m : Z) : String.length (monthName m) = 3%nat.
Proof.
  unfold monthName.
  repeat match goal with |- context [?a =? ?b] => destruct (a =? b) end;
    reflexivity.
Qed.

Lemma monthName_inj (a b : Z) :
  0 <= a <= 11 -> 0 <= b <= 11 -> monthName a = monthName b -> a = b.
Proof.
  intros Ha Hb H.
  assert (C : forallb (fun x : Z =>
                forallb (fun y : Z =>
                  implb (String.eqb (monthName x) (monthName y)) (x =? y))
                  (map Z.of_nat (seq 0 12)))
                (map Z.of_nat (seq 0 12)) = true) by (vm_compute; reflexivity).
  pose proof (range_check _ _ C a ltac:(lia)) as Ca. cbv beta in Ca.
  pose proof (range_check _ _ Ca b ltac:(lia)) as Cb. cbv beta in Cb.
  apply String.eqb_eq in H. rewrite H in Cb. apply Z.eqb_eq. exact Cb.
Qed.

Lemma padded2_length (d : Z) :
  0 <= d <= 99 -> String.length (ToZeroPaddedDecimalString d 2) = 2%nat.
Proof.
  intros Hd.
  assert (C : forallb (fun x : Z =>
                Nat.eqb (String.length (ToZeroPaddedDecimalString x 2)) 2)
                (map Z.of_nat (seq 0 100)) = true) by (vm_compute; reflexivity).
  pose proof (range_check _ _ C d ltac:(lia)) as Cd. cbv beta in Cd.
  apply Nat.eqb_eq. exact Cd.
Qed.

Lemma yearPart_inj (y1 y2 : Z) :
  (if 0 <=? y1 then "" else "-") +:+ ToZeroPaddedDecimalString (Z.abs y1) 4
  = (if 0 <=? y2 then "" else "-") +:+ ToZeroPaddedDecimalString (Z.abs y2) 4 ->
  y1 = y2.
Proof.
  pose proof (unsignedValue_padded (Z.abs y1) 4 ltac:(lia)) as P1.
  pose proof (unsignedValue_padded (Z.abs y2) 4 ltac:(lia)) as P2.
  destruct (Z.leb_spec 0 y1) as [H1|H1]; destruct (Z.leb_spec 0 y2) as [H2|H2];
    rewrite ?append_cons, ?append_nil; intros H.
  - rewrite H in P1. rewrite P1 in P2. injection P2 as P2. lia.
  - rewrite H, unsignedValue_dash in P1. discriminate P1.
  - rewrite <- H, unsignedValue_dash in P2. discriminate P2.
  - injection H as H. rewrite H in P1. rewrite P1 in P2. injection P2 as P2. lia.
Qed.

Lemma DateString_Day (t1 t2 : Z) :
  Day t1 = Day t2 -> DateString t1 = DateString t2.
Proof.
  intros H.
  unfold DateString, DateFromTime, MonthFromTime, InLeapYear, DayWithinYear,
    WeekDay, YearFromTime.
  rewrite H. reflexivity.
Qed.

(** [toDateString] names the calendar day: two time values have the
    same text exactly when they have the same day number. *)
Lemma DateString_inj (t1 t2 : Z) :
  DateString t1 = DateString t2 <-> Day t1 = Day t2.
Proof.
  split; [|apply DateString_Day].
  intros H. unfold DateString in H. cbv zeta in H.
  apply append_inj_l in H; [|rewrite !weekdayName_length; reflexivity].
  destruct H as [_ H].
  apply append_inj_l in H; [|reflexivity]. destruct H as [_ H].
  apply append_inj_l in H; [|rewrite !monthName_length; reflexivity].
  destruct H as [Hm H].
  apply append_inj_l in H; [|reflexivity]. destruct H as [_ H].
  pose proof (DateFromTime_range t1) as R1.
  pose proof (DateFromTime_range t2) as R2.
  pose proof (DaysInMonth_pos (YearFromTime t1) (MonthFromTime t1)) as D1.
  pose proof (DaysInMonth_pos (YearFromTime t2) (MonthFromTime t2)) as D2.
  apply append_inj_l in H; [|rewrite !padded2_length by lia; reflexivity].
  destruct H as [Hd H].
  apply append_inj_l in H; [|reflexivity]. destruct H as [_ Hy].
  apply yearPart_inj in Hy.
  apply monthName_inj in Hm; try apply MonthFromTime_range.
  apply (f_equal unsignedValue) in Hd.
  rewrite !unsignedValue_padded in Hd by lia. injection Hd as Hd.
  rewrite <- (MakeDay_fields t1), <- (MakeDay_fields t2), Hy, Hm, Hd.
  reflexivity.
Qed.

Lemma month_numeral (m : Z) :
  0 <= m <= 11 ->
  exists ch, Number_toString m = String ch ""
             \/ Number_toString m = String "1" (String ch "").
Proof.
  intros H. month_cases m; vm_compute; eexists; (left; reflexivity) || (right; reflexivity).
Qed.

(** The monthly key names the calendar month. *)
Lemma monthKey_inj (y1 m1 y2 m2 : Z) :
  0 <= m1 <= 11 -> 0 <= m2 <= 11 ->
  Number_toString y1 +:+ "-" +:+ Number_toString m1
  = Number_toString y2 +:+ "-" +:+ Number_toString m2 ->
  y1 = y2 /\ m1 = m2.
Proof.
  intros H1 H2 H.
  assert (G : String.length (Number_toString m1) = String.length (Number_toString m2)
              -> y1 = y2 /\ m1 = m2).
  { intros L. apply append_inj_r in H; [|rewrite !length_append, L; reflexivity].
    destruct H as [Hy Hm]. rewrite !append_cons, !append_nil in Hm.
    injection Hm as Hm.
    split; apply Number_toString_inj; assumption. }
  destruct (month_numeral m1 H1) as (c1 & [E1|E1]);
    destruct (month_numeral m2 H2) as (c2 & [E2|E2]);
    try (apply G; rewrite E1, E2; reflexivity);
    exfalso; rewrite E1, E2 in H; clear G E1 E2.
  - rewrite <- (append_assoc (Number_toString y1) "-" (String c1 "")) in H.
    change ("-" +:+ String "1" (String c2 ""))
      with (("-" +:+ "1") +:+ String c2 "") in H.
    rewrite <- (append_assoc (Number_toString y2) ("-" +:+ "1") (String c2 "")) in H.
    apply append_inj_r in H; [|reflexivity]. destruct H as [H _].
    rewrite <- (append_assoc (Number_toString y2) "-" "1") in H.
    apply append_inj_r in H; [|reflexivity]. destruct H as [_ H]. discriminate H.
  - change ("-" +:+ String "1" (String c1 ""))
      with (("-" +:+ "1") +:+ String c1 "") in H.
    rewrite <- (append_assoc (Number_toString y1) ("-" +:+ "1") (String c1 "")) in H.
    rewrite <- (append_assoc (Number_toString y2) "-" (String c2 "")) in H.
    apply append_inj_r in H; [|reflexivity]. destruct H as [H _].
    rewrite <- (append_assoc (Number_toString y1) "-" "1") in H.
    apply append_inj_r in H; [|reflexivity]. destruct H as [_ H]. discriminate H.
Qed.

(** * Rounding to the nearest double *)

Lemma two_ne : ~ (2 == 0)%Q.
Proof. discriminate. Qed.

Lemma pow2_pos (k : Z) : (0 < 2 ^ k)%Q.
Proof. apply Qpower_0_lt. reflexivity. Qed.

Lemma pow2_Z (k : Z) : 0 <= k -> (2 ^ k == inject_Z (2 ^ k))%Q.
Proof. intros H. rewrite (Zpower_Qpower 2 k H). reflexivity. Qed.

Lemma scale_le (X Y A B : Q) :
  (0 < X)%Q -> (0 < Y)%Q -> (X <= A)%Q -> (B <= Y)%Q ->
  (X / Y * B <= A)%Q.
Proof.
  intros PX PY HA HB.
  assert (NY : ~ (Y == 0)%Q) by (intros H; rewrite H in PY; discriminate PY).
  assert (E : (X / Y * B == X * (B / Y))%Q) by (field; exact NY).
  rewrite E. apply Qle_trans with (X * 1)%Q; [|rewrite Qmult_1_r; exact HA].
  apply Qmult_le_l; [exact PX|].
  apply Qle_shift_div_r; [exact PY|]. rewrite Qmult_1_l. exact HB.
Qed.

Lemma scale_lt (X Y A B : Q) :
  (0 < X)%Q -> (0 < Y)%Q -> (A < X)%Q -> (Y <= B)%Q ->
  (A < X / Y * B)%Q.
Proof.
  intros PX PY HA HB.
  assert (NY : ~ (Y == 0)%Q) by (intros H; rewrite H in PY; discriminate PY).
  assert (E : (X / Y * B == X * (B / Y))%Q) by (field; exact NY).
  rewrite E. apply Qlt_le_trans with (X * 1)%Q; [rewrite Qmult_1_r; exact HA|].
  apply Qmult_le_l; [exact PX|].
  apply Qle_shift_div_l; [exact PY|]. rewrite Qmult_1_l. exact HB.
Qed.

(** [exponentOf] is the exponent. *)
Lemma exponentOf_spec (q : Q) :
  (0 < q)%Q -> (2 ^ exponentOf q <= q)%Q /\ (q < 2 ^ (exponentOf q + 1))%Q.
Proof.
  intros Hq. destruct q as [a b]. unfold exponentOf. cbn [Qnum Qden].
  assert (Ha : 0 < a) by (unfold Qlt in Hq; cbn in Hq; lia).
  pose proof (Z.log2_spec a Ha) as [La Ua].
  pose proof (Z.log2_spec (Z.pos b) (Pos2Z.is_pos b)) as [Lb Ub].
  pose proof (Z.log2_nonneg a) as Na.
  pose proof (Z.log2_nonneg (Z.pos b)) as Nb.
  set (la := Z.log2 a) in *. set (lb := Z.log2 (Z.pos b)) in *.
  assert (Eab : (a # b == inject_Z a / inject_Z (Z.pos b))%Q)
    by apply Qmake_Qdiv.
  assert (Pb : (0 < inject_Z (Z.pos b))%Q) by reflexivity.
  assert (QLa : (2 ^ la <= inject_Z a)%Q)
    by (rewrite (pow2_Z la Na), <- Zle_Qle; exact La).
  assert (QUa : (inject_Z a < 2 ^ (la + 1))%Q).
  { rewrite (pow2_Z (la + 1)) by lia. rewrite <- Zlt_Qlt.
    replace (la + 1) with (Z.succ la) by lia. exact Ua. }
  assert (QLb : (2 ^ lb <= inject_Z (Z.pos b))%Q)
    by (rewrite (pow2_Z lb Nb), <- Zle_Qle; exact Lb).
  assert (QUb : (inject_Z (Z.pos b) <= 2 ^ (lb + 1))%Q).
  { rewrite (pow2_Z (lb + 1)) by lia. rewrite <- Zle_Qle.
    replace (lb + 1) with (Z.succ lb) by lia. lia. }
  assert (Hlow : (2 ^ (la - lb - 1) <= a # b)%Q).
  { rewrite Eab. apply Qle_shift_div_l; [exact Pb|].
    replace (la - lb - 1) with (la - (lb + 1)) by lia.
    rewrite Qpower_minus by exact two_ne.
    apply (scale_le (2 ^ la) (2 ^ (lb + 1))); auto using pow2_pos. }
  assert (Hup : (a # b < 2 ^ (la - lb + 1))%Q).
  { rewrite Eab. apply Qlt_shift_div_r; [exact Pb|].
    replace (la - lb + 1) with (la + 1 - lb) by lia.
    rewrite Qpower_minus by exact two_ne.
    apply (scale_lt (2 ^ (la + 1)) (2 ^ lb)); auto using pow2_pos. }
  destruct (Qle_bool (2 ^ (la - lb)) (a # b)) eqn:E.
  - apply Qle_bool_iff in E. split; [exact E|exact Hup].
  - split; [exact Hlow|].
    replace (la - lb - 1 + 1) with (la - lb) by lia.
    apply Qnot_le_lt. intros H. apply Qle_bool_iff in H. congruence.
Qed.

Lemma exponentOf_unique (q : Q) (e : Z) :
  (2 ^ e <= q)%Q -> (q < 2 ^ (e + 1))%Q -> exponentOf q = e.
Proof.
  intros L U.
  assert (Hq : (0 < q)%Q) by (eapply Qlt_le_trans; [apply pow2_pos|exact L]).
  destruct (exponentOf_spec q Hq) as [L' U'].
  assert (A : (2 ^ e < 2 ^ (exponentOf q + 1))%Q)
    by (eapply Qle_lt_trans; eassumption).
  assert (B : (2 ^ exponentOf q < 2 ^ (e + 1))%Q)
    by (eapply Qle_lt_trans; eassumption).
  apply Qpower_lt_compat_l_inv in A; [|reflexivity].
  apply Qpower_lt_compat_l_inv in B; [|reflexivity].
  lia.
Qed.

Lemma roundHalfEven_near (m : Q) :
  (Qabs (inject_Z (roundHalfEven m) - m) <= 1 # 2)%Q.
Proof.
  unfold roundHalfEven. cbv zeta.
  pose proof (Qfloor_le m) as L. pose proof (Qlt_floor m) as U.
  rewrite inject_Z_plus in U. change (inject_Z 1) with 1%Q in U.
  apply Qabs_Qle_condition.
  destruct (m - inject_Z (Qfloor m) ?= 1 # 2)%Q eqn:E.
  - apply Qeq_alt in E. destruct (Z.even (Qfloor m));
      rewrite ?inject_Z_plus; change (inject_Z 1) with 1%Q; lra.
  - apply Qlt_alt in E. lra.
  - apply Qgt_alt in E. rewrite inject_Z_plus. change (inject_Z 1) with 1%Q. lra.
Qed.

Lemma roundHalfEven_int (m : Q) (z : Z) :
  (m == inject_Z z)%Q -> roundHalfEven m = z.
Proof.
  intros E. unfold roundHalfEven. cbv zeta.
  assert (F : Qfloor m = z) by (rewrite (Qfloor_comp _ _ E); apply Qfloor_Z).
  rewrite F.
  assert (C : (m - inject_Z z ?= 1 # 2)%Q = Lt).
  { apply Qlt_alt.
    assert (Z0 : (m - inject_Z z == 0)%Q) by (rewrite E; ring).
    rewrite Z0. reflexivity. }
  rewrite C. reflexivity.
Qed.

(** In the range of the normal doubles the nearest double is within the
    relative distance 2^-53. *)
Lemma roundTiesToEven_near (q : Q) :
  (2 ^ (-1022) <= Qabs q)%Q ->
  (Qabs (roundTiesToEven q - q) <= Qabs q * (1 # 2 ^ 53))%Q.
Proof.
  intros Hn. unfold roundTiesToEven.
  assert (Hpos : (0 < Qabs q)%Q)
    by (eapply Qlt_le_trans; [apply pow2_pos|exact Hn]).
  destruct (Qeq_bool q 0) eqn:E0.
  { apply Qeq_bool_iff in E0. rewrite E0 in Hpos. discriminate Hpos. }
  cbv zeta.
  destruct (exponentOf_spec (Qabs q) Hpos) as [L U].
  assert (He : -1022 <= exponentOf (Qabs q)).
  { assert (A : (2 ^ (-1022) < 2 ^ (exponentOf (Qabs q) + 1))%Q)
      by (eapply Qle_lt_trans; eassumption).
    apply Qpower_lt_compat_l_inv in A; [lia|reflexivity]. }
  rewrite Z.max_l by exact He.
  set (e := exponentOf (Qabs q)) in *.
  set (ulp := (2 ^ (e - 52))%Q).
  assert (Pu : (0 < ulp)%Q) by apply pow2_pos.
  assert (Nu : ~ (ulp == 0)%Q) by (intros H; rewrite H in Pu; discriminate Pu).
  pose proof (roundHalfEven_near (q / ulp)) as R.
  set (r := inject_Z (roundHalfEven (q / ulp))) in *.
  assert (Hd : (r * ulp - q == (r - q / ulp) * ulp)%Q) by (field; exact Nu).
  rewrite Hd, Qabs_Qmult, (Qabs_pos ulp) by (apply Qlt_le_weak; exact Pu).
  apply Qle_trans with ((1 # 2) * ulp)%Q.
  - apply Qmult_le_compat_r; [exact R|apply Qlt_le_weak; exact Pu].
  - apply Qle_trans with (2 ^ e * (1 # 2 ^ 53))%Q.
    + unfold ulp. rewrite Qpower_minus by exact two_ne.
      assert (P52 : (2 ^ 52 == inject_Z (2 ^ 52))%Q) by (apply pow2_Z; lia).
      rewrite P52.
      assert (X : ((1 # 2) * (2 ^ e / inject_Z (2 ^ 52)) == 2 ^ e * (1 # 2 ^ 53))%Q).
      { unfold Qdiv. rewrite Qmult_assoc, (Qmult_comm (1 # 2)), <- Qmult_assoc.
        apply Qmult_comp; [reflexivity|]. vm_compute. reflexivity. }
      rewrite X. apply Qle_refl.
    + apply Qmult_le_compat_r; [exact L|discriminate].
Qed.

(** An integer of at most 2^53 is a double. *)
Lemma roundTiesToEven_int (q : Q) (k : Z) :
  Z.abs k <= 2 ^ 53 -> (q == inject_Z k)%Q -> (roundTiesToEven q == q)%Q.
Proof.
  intros Hk Hq. unfold roundTiesToEven.
  destruct (Qeq_bool q 0) eqn:E0.
  { apply Qeq_bool_iff in E0. rewrite E0. reflexivity. }
  cbv zeta.
  assert (Hk0 : k <> 0).
  { intros ->. apply Qeq_bool_neq in E0. apply E0. exact Hq. }
  assert (Habs : (Qabs q == inject_Z (Z.abs k))%Q).
  { rewrite Hq. unfold Qabs, inject_Z. cbn. reflexivity. }
  assert (Hpos : (0 < Qabs q)%Q).
  { rewrite Habs. change 0%Q with (inject_Z 0). rewrite <- Zlt_Qlt. lia. }
  destruct (exponentOf_spec (Qabs q) Hpos) as [L U].
  set (e := exponentOf (Qabs q)) in *.
  assert (He0 : 0 <= e).
  { assert (A : (2 ^ 0 < 2 ^ (e + 1))%Q).
    { eapply Qle_lt_trans; [|exact U]. rewrite Habs.
      change (2 ^ 0)%Q with (inject_Z 1). rewrite <- Zle_Qle. lia. }
    apply (Qpower_lt_compat_l_inv 2 0 (e + 1)) in A; [lia|reflexivity]. }
  assert (He53 : e <= 53).
  { assert (A : (2 ^ e <= 2 ^ 53)%Q).
    { eapply Qle_trans; [exact L|]. rewrite Habs.
      rewrite (pow2_Z 53) by lia. rewrite <- Zle_Qle. exact Hk. }
    apply (Qpower_le_compat_l_inv 2 e 53) in A; [exact A|reflexivity]. }
  rewrite Z.max_l by lia.
  set (ulp := (2 ^ (e - 52))%Q).
  assert (Pu : (0 < ulp)%Q) by apply pow2_pos.
  assert (Nu : ~ (ulp == 0)%Q) by (intros H; rewrite H in Pu; discriminate Pu).
  assert (Hz : exists z, (q / ulp == inject_Z z)%Q).
  { destruct (Z.eq_dec e 53) as [E53|E53].
    - assert (A : Z.abs k = 2 ^ 53).
      { rewrite E53 in L. rewrite Habs in L.
        rewrite (pow2_Z 53) in L by lia. rewrite <- Zle_Qle in L. lia. }
      exists (k / 2). unfold ulp. rewrite E53. change (53 - 52) with 1.
      rewrite Qpower_1_r, Hq.
      assert (D : k = 2 * (k / 2)).
      { change (2 ^ 53) with 9007199254740992 in A. lia. }
      rewrite D at 1. rewrite inject_Z_mult. change (inject_Z 2) with 2%Q.
      field.
    - exists (k * 2 ^ (52 - e)). unfold ulp.
      replace (e - 52) with (- (52 - e)) by lia.
      rewrite Qpower_opp, Hq, inject_Z_mult.
      rewrite <- (pow2_Z (52 - e)) by lia.
      unfold Qdiv. rewrite Qinv_involutive. reflexivity. }
  destruct Hz as [z Hz].
  rewrite (roundHalfEven_int _ _ Hz), <- Hz. field. exact Nu.
Qed.

Lemma roundTiesToEven_rounded (q : Q) :
  (2 ^ (-1022) <= Qabs q)%Q \/ (q == 0)%Q -> roundedFrom q (roundTiesToEven q).
Proof.
  intros H. split.
  - destruct H as [H|H]; [apply roundTiesToEven_near; exact H|].
    rewrite (roundTiesToEven_int q 0); [|cbn; lia|exact H].
    assert (R : (q - q == 0)%Q) by ring. rewrite R.
    apply Qmult_le_0_compat; [apply Qabs_nonneg|discriminate].
  - intros k Hk E. apply (roundTiesToEven_int q k Hk E).
Qed.

Lemma roundHalfEven_comp (m m' : Q) :
  (m == m')%Q -> roundHalfEven m = roundHalfEven m'.
Proof.
  intros E. unfold roundHalfEven. cbv zeta.
  rewrite (Qfloor_comp m m' E).
  assert (C : (m - inject_Z (Qfloor m') ?= 1 # 2)%Q
              = (m' - inject_Z (Qfloor m') ?= 1 # 2)%Q).
  { apply Qcompare_comp; [rewrite E; reflexivity|reflexivity]. }
  rewrite C. reflexivity.
Qed.

(** The nearest double depends on the number only, not on the fraction
    that denotes it. *)
Lemma roundTiesToEven_comp (q q' : Q) :
  (q == q')%Q -> roundTiesToEven q = roundTiesToEven q'.
Proof.
  intros E. unfold roundTiesToEven.
  destruct (Qeq_bool q' 0) eqn:E0.
  - apply Qeq_bool_iff in E0. rewrite <- E in E0.
    apply Qeq_bool_iff in E0. rewrite E0. reflexivity.
  - assert (E1 : Qeq_bool q 0 = false).
    { destruct (Qeq_bool q 0) eqn:X; [|reflexivity].
      apply Qeq_bool_iff in X. rewrite E in X. apply Qeq_bool_iff in X.
      congruence. }
    rewrite E1. cbv zeta.
    assert (Hpos : (0 < Qabs q')%Q).
    { apply Qeq_bool_neq in E0.
      destruct (Qle_lt_or_eq _ _ (Qabs_nonneg q')) as [H|H]; [exact H|].
      exfalso. apply E0.
      assert (B : (Qabs q' <= 0)%Q) by (rewrite <- H; apply Qle_refl).
      apply Qabs_Qle_condition in B. lra. }
    assert (Ee : exponentOf (Qabs q) = exponentOf (Qabs q')).
    { destruct (exponentOf_spec _ Hpos) as [L U].
      apply exponentOf_unique; rewrite E; assumption. }
    rewrite Ee.
    rewrite (roundHalfEven_comp
               (q / 2 ^ (Z.max (exponentOf (Qabs q')) (-1022) - 52))
               (q' / 2 ^ (Z.max (exponentOf (Qabs q')) (-1022) - 52)));
      [reflexivity|rewrite E; reflexivity].
Qed.

(** * The engine *)

Ltac step_engine :=
  cbv [run bind ret throw tryCatch tryFinally await record dispatch
       localStorage_getItem localStorage_setItem localStorage_removeItem
       apiService_getGoals apiService_createGoal
       apiService_getDashboardAnalytics
       notificationManager_showNotification nonNull saveBackup];
  cbn [state storage log fst snd app].

Section EngineFacts.
Variable c : Collaborators.

(** ** The guard of the progress calculator *)

(** C10, as amended.  When there is no authenticated user, or the daily
    goal or the monthly goal is null, [updateGoalProgress] returns at
    once: it reads nothing from the cache, asks nothing of the Sales
    Metrics Source, dispatches nothing, and so leaves every field of the
    state as it was.  (The guard does not look at the store scope of the
    user.) *)
Theorem updateGoalProgress_guard (now : Z) (s : GoalState) (ls : Storage) :
  isAuthenticated c = false \/ user c = None \/
  dailyGoal s = None \/ monthlyGoal s = None ->
  run (updateGoalProgress c now s) s ls
  = ({| state := s; storage := ls; log := [] |}, Returned tt).
Proof.
  intros H. unfold updateGoalProgress, run.
  destruct (isAuthenticated c); [|reflexivity].
  destruct (user c) as [u|]; [|reflexivity].
  destruct (dailyGoal s) as [dg|]; [|reflexivity].
  destruct (monthlyGoal s) as [mg|]; [|reflexivity].
  destruct H as [H|[H|[H|H]]]; discriminate H.
Qed.

(** ** The progress calculator *)

Lemma Qgtb_true a b : Qgtb a b = true <-> (b < a)%Q.
Proof.
  unfold Qgtb. rewrite negb_true_iff. split.
  - intros H. apply Qnot_le_lt. intros L. apply Qle_bool_iff in L. congruence.
  - intros H. destruct (Qle_bool a b) eqn:E; [|reflexivity].
    apply Qle_bool_iff in E. exfalso. exact (Qlt_not_le _ _ H E).
Qed.

Lemma orZero_eq x : (orZero x == x)%Q.
Proof.
  unfold orZero. destruct (Qeq_bool x 0) eqn:E; [|reflexivity].
  apply Qeq_bool_iff in E. symmetry. exact E.
Qed.

Lemma Qgeb_true (a b : Q) : Qgeb a b = true <-> (b <= a)%Q.
Proof. unfold Qgeb. apply Qle_bool_iff. Qed.

(** The two fields of a Progress agree: it is achieved exactly when its
    percentage is at least 100. *)
Lemma achieved_iff_percentage (amount target : Q) :
  isAchieved amount target = true
  <-> exists q, progressPercentage amount target = Some q /\ (100 <= q)%Q.
Proof.
  unfold isAchieved, progressPercentage, divide, percentOf.
  destruct (Qgtb target 0) eqn:Egt.
  - apply Qgtb_true in Egt.
    assert (Hne : ~ (target == 0)%Q).
    { intros E. rewrite E in Egt. exact (Qlt_irrefl _ Egt). }
    assert (Hb : Qeq_bool target 0 = false).
    { destruct (Qeq_bool target 0) eqn:E; [|reflexivity].
      apply Qeq_bool_iff in E. destruct (Hne E). }
    rewrite Hb, Qgeb_true. split.
    + intros H. eexists. split; [reflexivity|].
      apply Q.min_glb; [|discriminate].
      apply Qle_trans with (1 * 100)%Q; [vm_compute; discriminate|].
      apply Qmult_le_compat_r; [|discriminate].
      apply Qle_shift_div_l; [exact Egt|]. rewrite Qmult_1_l. exact H.
    + intros (q & [= <-] & H).
      assert (H1 : (1 * 100 <= amount / target * 100)%Q).
      { apply Qle_trans with 100%Q; [vm_compute; discriminate|].
        eapply Qle_trans; [exact H|apply Q.le_min_l]. }
      apply Qmult_le_r in H1; [|reflexivity].
      apply (Qmult_le_compat_r _ _ target) in H1; [|apply Qlt_le_weak; exact Egt].
      rewrite Qmult_1_l in H1. unfold Qdiv in H1.
      rewrite <- Qmult_assoc, (Qmult_comm (/ target)), Qmult_inv_r, Qmult_1_r in H1
        by exact Hne.
      exact H1.
  - split; [discriminate|]. intros (q & [= <-] & H). exfalso.
    apply Qle_bool_iff in H. discriminate H.
Qed.



(** ** The period-rollover guard *)

(** C9, as amended.  When the cache holds a non-empty daily-celebration
    marker that differs from today's calendar-day string, the guard
    clears [lastCelebration], removes the marker and, when a daily goal
    is set, replaces the daily Progress by the zero-state (amount 0,
    percentage 0, not achieved); with no daily goal the daily Progress
    is left as it was.  Nothing else changes.  When the marker is absent
    or is today's string the guard changes neither the state nor the
    cache. *)
Theorem resetDailyGoalsForNewDay_effect (now : Z) (s : GoalState) (ls : Storage) :
  let w := fst (run (resetDailyGoalsForNewDay c now s) s ls) in
  (forall m,
      ls !! "lastDailyCelebration" = Some (Raw m) ->
      m <> "" -> m <> toDateString (LocalTZA c) now ->
      lastCelebration (state w) = None /\
      storage w = delete "lastDailyCelebration" ls /\
      (forall g, dailyGoal s = Some g ->
         exists p, dailyProgress (state w) = Some p /\ goal p = g /\
                   current_amount p = 0%Q /\
                   progress_percentage p = Some 0%Q /\
                   is_achieved p = false) /\
      (dailyGoal s = None -> dailyProgress (state w) = dailyProgress s) /\
      dailyGoal (state w) = dailyGoal s /\
      monthlyGoal (state w) = monthlyGoal s /\
      monthlyProgress (state w) = monthlyProgress s /\
      loading (state w) = loading s /\
      error (state w) = error s) /\
  (ls !! "lastDailyCelebration" = None \/
   ls !! "lastDailyCelebration" = Some (Raw (toDateString (LocalTZA c) now)) ->
   state w = s /\ storage w = ls).
Proof.
  unfold resetDailyGoalsForNewDay. step_engine. split.
  - intros m Hm Hne Hday. rewrite Hm. cbn [truthy strictEq].
    apply String.eqb_neq in Hne, Hday. rewrite Hne, Hday. cbn [negb andb].
    destruct s as [dg mg dp mp l e lc ct cm]; cbn.
    destruct dg as [g|]; cbn.
    + repeat split; try reflexivity.
      * intros g' [= <-]. eexists. repeat split.
      * discriminate.
    + repeat split; try reflexivity. discriminate.
  - intros [H|H]; rewrite H; cbn [truthy strictEq andb].
    + split; reflexivity.
    + rewrite String.eqb_refl, andb_false_r. split; reflexivity.
Qed.

(** ** The reconciler *)

Lemma fetchCandidates_run (store : string) (w : World) :
  fetchCandidates c store w
  = ({| state := state w; storage := storage w;
        log := log w ++ EvGetGoals store :: backupReads c store |},
     Returned (existing c store (storage w))).
Proof.
  unfold fetchCandidates, loadBackup, backupReads, readsBackup, existing.
  step_engine.
  destruct (getGoals c store) as [[|g l]|]; cbn; rewrite <- ?app_assoc;
    reflexivity.
Qed.

Lemma resolveMonthly_run (store : string) (now : Z) (cands : list SalesGoal)
  (w : World) :
  resolveMonthly c store now cands w
  = ({| state := state w; storage := storage w;
        log := log w ++ eventsOf EvCreateGoal (carryOverRequest c store now cands) |},
     Returned (resolvedMonthly c store now cands)).
Proof.
  unfold resolveMonthly, resolvedMonthly, carryOverRequest.
  destruct w as [st sto lg].
  destruct (find (isValidMonthly c now) cands) as [g|].
  - cbn. rewrite app_nil_r. reflexivity.
  - destruct (getDate (LocalTZA c) now =? 1).
    + destruct (find (isLastMonthly c now) cands) as [g|]; step_engine.
      * cbn. destruct (createGoal c (monthlyRequest c store now g)); reflexivity.
      * cbn. rewrite app_nil_r. reflexivity.
    + cbn. rewrite app_nil_r. reflexivity.
Qed.

(** One run of [loadGoals] for a signed-in user with a store, when no
    backup was read as [null]: it returns, and its calls, the state and
    the cache it leaves are those of [loadGoalsLog], [loadGoalsState]
    and [loadGoalsStorage]. *)
Lemma loadGoals_run (now : Z) (s : GoalState) (ls : Storage)
  (u : User) (store : string) :
  isAuthenticated c = true -> user c = Some u ->
  store_id u = Some store -> store <> "" ->
  aborts c store ls = false ->
  run (loadGoals c now) s ls
  = ({| state := loadGoalsState c store now s ls;
        storage := loadGoalsStorage c store now ls;
        log := loadGoalsLog c store now ls |}, Returned tt).
Proof.
  intros Ha Hu Hs Hne Hab. apply String.eqb_neq in Hne.
  unfold loadGoals, run. rewrite Ha, Hu, Hs, Hne.
  cbv [tryFinally tryCatch bind dispatch ret]. cbn [state storage log].
  rewrite fetchCandidates_run. cbn [state storage log].
  unfold debugLog. unfold aborts in Hab. rewrite Hab.
  cbv [ret]. cbv zeta. fold (candidates c store ls).
  rewrite resolveMonthly_run. cbn [state storage log].
  unfold loadGoalsState, loadGoalsStorage, loadGoalsLog, derivedDailyRequest,
    resolvedDaily.
  set (cands := candidates c store ls).
  destruct (find (isValidDaily c now) cands) as [d|];
    destruct (resolvedMonthly c store now cands) as [m|];
    step_engine; cbn;
    try destruct (createGoal c (dailyRequest c store now m));
    destruct s; cbn; rewrite <- ?app_assoc; reflexivity.
Qed.

(** The run that stops at the debug log: it returns as well, with the
    goals and the cache as they were. *)
Lemma loadGoals_aborted (now : Z) (s : GoalState) (ls : Storage)
  (u : User) (store : string) :
  isAuthenticated c = true -> user c = Some u ->
  store_id u = Some store -> store <> "" ->
  aborts c store ls = true ->
  run (loadGoals c now) s ls
  = ({| state := abortedState s; storage := ls; log := abortedLog c store |},
     Returned tt).
Proof.
  intros Ha Hu Hs Hne Hab. apply String.eqb_neq in Hne.
  unfold loadGoals, run. rewrite Ha, Hu, Hs, Hne.
  cbv [tryFinally tryCatch bind dispatch ret]. cbn [state storage log].
  rewrite fetchCandidates_run. cbn [state storage log].
  unfold debugLog. unfold aborts in Hab. rewrite Hab.
  cbv [throw]. cbn [state storage log]. unfold abortedState, abortedLog.
  destruct s; cbn; rewrite <- ?app_assoc; reflexivity.
Qed.

Lemma in_eventsOf {A} (f : A -> Event) (x : option A) (e : Event) :
  In e (eventsOf f x) <-> exists a, x = Some a /\ e = f a.
Proof.
  destruct x as [a|]; cbn.
  - split.
    + intros [H|[]]. exists a. auto.
    + intros (a' & [= <-] & ->). auto.
  - split; [intros []|intros (a & H & _); discriminate H].
Qed.

Lemma loadGoalsLog_getItem (store : string) (now : Z) (ls : Storage)
  (key : string) :
  In (EvGetItem key) (loadGoalsLog c store now ls)
  <-> In (EvGetItem key) (backupReads c store).
Proof.
  unfold loadGoalsLog. cbv zeta. cbn [app In].
  repeat progress (rewrite ?in_app_iff, ?in_eventsOf; cbn [In]).
  split; [|tauto].
  intros H.
  repeat match goal with
         | H : _ \/ _ |- _ => destruct H as [H|H]
         | H : exists _, _ /\ _ |- _ => destruct H as (? & _ & H)
         | H : False |- _ => destruct H
         end; try discriminate H; assumption.
Qed.

Lemma goalsOf_IsGoal (l : list SalesGoal) : goalsOf (map IsGoal l) = l.
Proof.
  unfold goalsOf. induction l as [|g l IH]; cbn; [reflexivity|].
  f_equal. exact IH.
Qed.

Lemma no_null_IsGoal (l : list SalesGoal) :
  existsb isNull (map IsGoal l) = false.
Proof. induction l as [|g l IH]; cbn; [reflexivity|exact IH]. Qed.

Lemma abortedLog_getItem (store key : string) :
  In (EvGetItem key) (abortedLog c store)
  <-> In (EvGetItem key) (backupReads c store).
Proof.
  unfold abortedLog. cbn [app In]. rewrite in_app_iff. cbn [In].
  split; [|tauto].
  intros H.
  repeat match goal with
         | H : _ \/ _ |- _ => destruct H as [H|H]
         | H : False |- _ => destruct H
         end; try discriminate H; assumption.
Qed.

Ltac scan_log H :=
  repeat match goal with
         | H : _ \/ _ |- _ => destruct H as [H|H]
         | H : exists _, _ /\ _ |- _ => destruct H as (? & ? & H)
         | H : False |- _ => destruct H
         end.

Lemma backupReads_dispatch (store : string) (a : GoalAction) :
  ~ In (EvDispatch a) (backupReads c store).
Proof.
  unfold backupReads. destruct (readsBackup c store); cbn; [|tauto].
  intros [H|[H|[]]]; discriminate H.
Qed.

Lemma loadGoalsLog_dispatch (store : string) (now : Z) (ls : Storage)
  (a : GoalAction) :
  In (EvDispatch a) (loadGoalsLog c store now ls)
  <-> a = SET_LOADING true
      \/ a = SET_DAILY_GOAL (resolvedDaily c now (candidates c store ls))
      \/ a = SET_MONTHLY_GOAL (resolvedMonthly c store now (candidates c store ls))
      \/ a = SET_LOADING false.
Proof.
  unfold loadGoalsLog. cbv zeta. cbn [app In].
  repeat progress (rewrite ?in_app_iff, ?in_eventsOf; cbn [In]).
  pose proof (backupReads_dispatch store a) as Hb.
  split.
  - intros H. scan_log H; try discriminate H; try (destruct (Hb H));
      injection H as <-; auto.
  - intros [->|[->|[->| ->]]]; tauto.
Qed.

Lemma abortedLog_dispatch (store : string) (a : GoalAction) :
  In (EvDispatch a) (abortedLog c store)
  <-> a = SET_LOADING true
      \/ a = SET_ERROR (Some "Failed to load goals")
      \/ a = SET_LOADING false.
Proof.
  unfold abortedLog. cbn [app In]. rewrite in_app_iff. cbn [In].
  pose proof (backupReads_dispatch store a) as Hb.
  split.
  - intros H. scan_log H; try discriminate H; try (destruct (Hb H));
      injection H as <-; auto.
  - intros [->|[->| ->]]; tauto.
Qed.

(** The log, the goals and the cache after a run of [loadGoals] past
    its guards, whether it stopped at the debug log or not. *)
Lemma loadGoals_cases (now : Z) (s : GoalState) (ls : Storage)
  (u : User) (store : string) :
  isAuthenticated c = true -> user c = Some u ->
  store_id u = Some store -> store <> "" ->
  (aborts c store ls = false /\
   run (loadGoals c now) s ls
   = ({| state := loadGoalsState c store now s ls;
         storage := loadGoalsStorage c store now ls;
         log := loadGoalsLog c store now ls |}, Returned tt))
  \/
  (aborts c store ls = true /\
   run (loadGoals c now) s ls
   = ({| state := abortedState s; storage := ls; log := abortedLog c store |},
      Returned tt)).
Proof.
  intros Ha Hu Hs Hne. destruct (aborts c store ls) eqn:Hab.
  - right. split; [reflexivity|]. eapply loadGoals_aborted; eassumption.
  - left. split; [reflexivity|]. eapply loadGoals_run; eassumption.
Qed.

Lemma aborts_reads (store : string) (ls : Storage) :
  aborts c store ls = true ->
  (getGoals c store = None \/ getGoals c store = Some [])
  /\ (truthy (ls !! ("goal_daily_" +:+ store)) = true
      \/ truthy (ls !! ("goal_monthly_" +:+ store)) = true).
Proof.
  unfold aborts, existing.
  destruct (getGoals c store) as [[|g l]|] eqn:Hg.
  - intros H. split; [right; reflexivity|].
    unfold pushBackups in H.
    destruct (truthy (ls !! ("goal_daily_" +:+ store))); [left; reflexivity|].
    destruct (truthy (ls !! ("goal_monthly_" +:+ store))); [right; reflexivity|].
    discriminate H.
  - rewrite no_null_IsGoal. discriminate.
  - intros H. split; [left; reflexivity|].
    unfold pushBackups in H.
    destruct (truthy (ls !! ("goal_daily_" +:+ store))); [left; reflexivity|].
    destruct (truthy (ls !! ("goal_monthly_" +:+ store))); [right; reflexivity|].
    discriminate H.
Qed.

(** A run of [loadGoals] reports a failure exactly when a backup was
    read as [null]: what the Goal Store answers to a creation has no
    part in it. *)
Lemma loadGoals_failed_iff (now : Z) (s : GoalState) (ls : Storage)
  (u : User) (store : string) :
  isAuthenticated c = true -> user c = Some u ->
  store_id u = Some store -> store <> "" ->
  (failed (fst (run (loadGoals c now) s ls)) <-> aborts c store ls = true).
Proof.
  intros Ha Hu Hs Hne. unfold failed.
  destruct (loadGoals_cases now s ls u store Ha Hu Hs Hne)
    as [[Hab ->]|[Hab ->]]; cbn [fst log]; rewrite Hab.
  - split; [|discriminate]. intros [msg H].
    apply loadGoalsLog_dispatch in H.
    destruct H as [H|[H|[H|H]]]; discriminate H.
  - split; [reflexivity|]. intros _. eexists.
    apply abortedLog_dispatch. right. left. reflexivity.
Qed.

Lemma loadGoals_not_failed (now : Z) (s : GoalState) (ls : Storage)
  (u : User) (store : string) :
  isAuthenticated c = true -> user c = Some u ->
  store_id u = Some store -> store <> "" ->
  ~ failed (fst (run (loadGoals c now) s ls)) ->
  run (loadGoals c now) s ls
  = ({| state := loadGoalsState c store now s ls;
        storage := loadGoalsStorage c store now ls;
        log := loadGoalsLog c store now ls |}, Returned tt).
Proof.
  intros Ha Hu Hs Hne Hf. apply (loadGoals_run now s ls u store Ha Hu Hs Hne).
  destruct (aborts c store ls) eqn:Hab; [|reflexivity].
  exfalso. apply Hf.
  apply (loadGoals_failed_iff now s ls u store Ha Hu Hs Hne). exact Hab.
Qed.

(** C1, as amended.  [loadGoals] reads the Local Cache when the Goal
    Store call threw or when it returned an empty list, and only then.
    When the call returns goals, the cache is not read and the
    candidates are the goals returned; when it returns the empty list
    and the cache holds no backup, both tracks resolve to no goal. *)
Theorem loadGoals_cache_fallback
  (now : Z) (s : GoalState) (ls : Storage) (u : User) (store : string) :
  isAuthenticated c = true -> user c = Some u ->
  store_id u = Some store -> store <> "" ->
  let w := fst (run (loadGoals c now) s ls) in
  ((exists key, In (EvGetItem key) (log w)) <->
   (getGoals c store = None \/ getGoals c store = Some [])) /\
  (forall g l, getGoals c store = Some (g :: l) ->
     dailyGoal (state w) = find (isValidDaily c now) (g :: l) /\
     (forall m, find (isValidMonthly c now) (g :: l) = Some m ->
                monthlyGoal (state w) = Some m)) /\
  (getGoals c store = Some [] ->
   ls !! ("goal_daily_" +:+ store) = None ->
   ls !! ("goal_monthly_" +:+ store) = None ->
   dailyGoal (state w) = None /\ monthlyGoal (state w) = None).
Proof.
  intros Ha Hu Hs Hne w. subst w.
  assert (Hreads : forall key,
             In (EvGetItem key) (backupReads c store) ->
             getGoals c store = None \/ getGoals c store = Some []).
  { intros key Hin. unfold backupReads, readsBackup in Hin.
    destruct (getGoals c store) as [[|g l]|] eqn:Hg;
      [right; reflexivity|destruct Hin|left; reflexivity]. }
  assert (Hread : getGoals c store = None \/ getGoals c store = Some [] ->
                  In (EvGetItem ("goal_daily_" +:+ store)) (backupReads c store)).
  { unfold backupReads, readsBackup. intros [H|H]; rewrite H; cbn; auto. }
  destruct (loadGoals_cases now s ls u store Ha Hu Hs Hne)
    as [[Hab ->]|[Hab ->]]; cbn [fst log state].
  - unfold loadGoalsState, candidates, existing. cbn [dailyGoal monthlyGoal].
    split; [|split].
    + split.
      * intros [key Hin]. apply loadGoalsLog_getItem in Hin.
        exact (Hreads key Hin).
      * intros H. exists ("goal_daily_" +:+ store).
        apply loadGoalsLog_getItem. exact (Hread H).
    + intros g l Hg. rewrite Hg, goalsOf_IsGoal.
      unfold resolvedDaily, resolvedMonthly.
      split; [reflexivity|]. intros m Hm. rewrite Hm. reflexivity.
    + intros Hg Hd Hm. rewrite Hg, Hd, Hm. cbn.
      unfold resolvedMonthly, carryOverRequest. cbn.
      destruct (getDate (LocalTZA c) now =? 1); cbn; split; reflexivity.
  - destruct (aborts_reads store ls Hab) as [Hg Ht].
    split; [|split].
    + split.
      * intros _. exact Hg.
      * intros H. exists ("goal_daily_" +:+ store).
        apply abortedLog_getItem. exact (Hread H).
    + intros g l Hgl. destruct Hg as [Hg|Hg]; rewrite Hg in Hgl; discriminate Hgl.
    + intros _ Hd Hm. rewrite Hd, Hm in Ht. destruct Ht as [Ht|Ht]; discriminate Ht.
Qed.

(** ** Selection of the current goals *)




Section Selection.
Variable now : Z.
Hypothesis Hyear : 100 <= getFullYear (LocalTZA c) now.

Lemma today_window_c t :
  todayStart c now <= t <= todayEnd c now <-> onSameDay (LocalTZA c) t now.
Proof using Hyear. exact (today_window _ _ Hyear t). Qed.










End Selection.


(** ** Monthly carry-over *)



Lemma loadGoalsLog_createGoal (store : string) (now : Z) (ls : Storage)
  (req : CreateGoalRequest) :
  In (EvCreateGoal req) (loadGoalsLog c store now ls)
  <-> carryOverRequest c store now (candidates c store ls) = Some req \/
      derivedDailyRequest c store now (candidates c store ls) = Some req.
Proof.
  unfold loadGoalsLog. cbv zeta. cbn [app In].
  repeat progress (rewrite ?in_app_iff, ?in_eventsOf; cbn [In]).
  assert (Hb : ~ In (EvCreateGoal req) (backupReads c store)).
  { unfold backupReads. destruct (readsBackup c store); cbn; [|tauto].
    intros [H|[H|[]]]; discriminate H. }
  split.
  - intros H.
    repeat match goal with
           | H : _ \/ _ |- _ => destruct H as [H|H]
           | H : exists _, _ /\ _ |- _ => destruct H as (? & ? & H)
           | H : False |- _ => destruct H
           end; try discriminate H; try (destruct (Hb H)).
    + left. congruence.
    + right. congruence.
  - intros [H|H]; [do 3 right; left|do 8 right; left]; exists req; auto.
Qed.


(** ** Daily goal derived from the monthly one *)

Lemma dailyRequest_window (store : string) (now : Z) (m : SalesGoal) :
  100 <= getFullYear (LocalTZA c) now ->
  req_period_start (dailyRequest c store now m) = todayStart c now /\
  req_period_end (dailyRequest c store now m) = todayEnd c now.
Proof.
  intros Hyear. unfold dailyRequest, todayStart, todayEnd, newDate3.
  cbn [req_period_start req_period_end].
  destruct (newDate_fields (LocalTZA c)
              (getFullYear (LocalTZA c) now) (getMonth (LocalTZA c) now)
              (getDate (LocalTZA c) now)) as (Hy & Hm & Hd).
  - lia.
  - apply MonthFromTime_range.
  - apply DateFromTime_range.
  - rewrite Hy, Hm, Hd. split; reflexivity.
Qed.

(** The window of today is made of the first and the last instant of
    the local day. *)
Lemma today_dayStart (now : Z) :
  100 <= getFullYear (LocalTZA c) now ->
  todayStart c now = dayStart (LocalTZA c) (Day (LocalTime (LocalTZA c) now)) /\
  todayEnd c now = dayEnd (LocalTZA c) (Day (LocalTime (LocalTZA c) now)).
Proof.
  intros Hyear. unfold todayStart, todayEnd.
  rewrite !newDate_eq by lia. rewrite now_Day. split; reflexivity.
Qed.

Lemma Qceiling_unique (x : Q) (K : Z) :
  (inject_Z (K - 1) < x)%Q -> (x <= inject_Z K)%Q -> Qceiling x = K.
Proof.
  intros H1 H2.
  pose proof (Qle_ceiling x) as C1. pose proof (Qceiling_lt x) as C2.
  assert (A : (inject_Z (K - 1) < inject_Z (Qceiling x))%Q)
    by (eapply Qlt_le_trans; eassumption).
  assert (B : (inject_Z (Qceiling x - 1) < inject_Z K)%Q)
    by (eapply Qlt_le_trans; eassumption).
  rewrite <- Zlt_Qlt in A, B. lia.
Qed.

(** The ceiling of a quotient of integers does not depend on the
    rounding of the quotient, as long as the dividend is not larger
    than 2^46 and the divisor is a number of days. *)
Lemma ceiling_of_rounded (n d : Z) (x : Q) :
  Z.abs n <= 2 ^ 46 -> 1 <= d <= 31 ->
  roundedFrom (inject_Z n / inject_Z d) x ->
  Qceiling x = Qceiling (inject_Z n / inject_Z d).
Proof.
  intros Hn Hd [Hx Hint].
  destruct d as [|p|p]; try lia.
  set (d := Z.pos p) in *.
  set (q := (inject_Z n / inject_Z d)%Q) in *.
  assert (Hq : (q == n # Z.to_pos d)%Q).
  { subst q d. cbn [Z.to_pos]. symmetry. apply Qmake_Qdiv. }
  destruct (Z.eq_dec (n mod d) 0) as [E|E].
  - assert (Hk : (q == inject_Z (n / d))%Q).
    { rewrite Hq. unfold Qeq, inject_Z. cbn. fold d. nia. }
    apply Qceiling_comp. apply (Hint (n / d)); [|exact Hk].
    change (2 ^ 53) with 9007199254740992. change (2 ^ 46) with 70368744177664 in Hn.
    nia.
  - assert (Hk : (q == inject_Z (n / d) + (n mod d # Z.to_pos d))%Q).
    { rewrite Hq. unfold Qeq, Qplus, inject_Z. cbn. fold d. nia. }
    assert (Hf1 : (1 # 31 <= n mod d # Z.to_pos d)%Q).
    { unfold Qle. cbn. fold d. nia. }
    assert (Hf2 : (n mod d # Z.to_pos d <= 30 # 31)%Q).
    { unfold Qle. cbn. fold d. nia. }
    assert (Ha : (Qabs q <= 70368744177664)%Q).
    { rewrite Hq. unfold Qabs, Qle, inject_Z. subst d.
      cbn [Qnum Qden Z.to_pos].
      change (2 ^ 46) with 70368744177664 in Hn.
      clear - Hn Hd.
      apply Z.le_trans with (70368744177664 * 1); [lia|].
      apply Z.mul_le_mono_nonneg_l; lia. }
    apply Qabs_Qle_condition in Hx.
    change (2 ^ 53)%positive with 9007199254740992%positive in Hx.
    pose proof (Qabs_nonneg q) as Hnn.
    set (A := Qabs q) in *. set (f := (n mod d # Z.to_pos d)%Q) in *.
    set (k := inject_Z (n / d)) in *.
    assert (Hc : Qceiling q = n / d + 1).
    { apply Qceiling_unique.
      - replace (n / d + 1 - 1) with (n / d) by lia. fold k. lra.
      - rewrite inject_Z_plus. change (inject_Z 1) with 1%Q. fold k. lra. }
    rewrite Hc. apply Qceiling_unique.
    + replace (n / d + 1 - 1) with (n / d) by lia. fold k. lra.
    + rewrite inject_Z_plus. change (inject_Z 1) with 1%Q. fold k. lra.
Qed.

(** The ceiling of the quotient of an integer of at most 2^46 by a number
    of days is that of the quotient the code computes. *)
Lemma ceiling_of_quotient (n d : Z) :
  Z.abs n <= 2 ^ 46 -> 1 <= d <= 31 ->
  Qceiling (roundTiesToEven (inject_Z n / inject_Z d))
  = Qceiling (inject_Z n / inject_Z d).
Proof.
  intros Hn Hd. apply ceiling_of_rounded; [exact Hn|exact Hd|].
  apply roundTiesToEven_rounded.
  destruct (Z.eq_dec n 0) as [->|N0].
  - right. unfold Qdiv. rewrite Qmult_0_l. reflexivity.
  - left. apply Qle_trans with (1 # 32)%Q.
    + apply Qle_trans with (2 ^ (-5))%Q; [|vm_compute; discriminate].
      apply Qpower_le_compat_l; [lia|discriminate].
    + destruct d as [|p|p]; try lia.
      assert (E : (inject_Z n / inject_Z (Z.pos p) == n # p)%Q)
        by (symmetry; apply Qmake_Qdiv).
      rewrite E. unfold Qabs, Qle. cbn [Qnum Qden]. lia.
Qed.

Lemma daysRemaining_eq (now : Z) :
  100 <= getFullYear (LocalTZA c) now ->
  daysRemaining c now
  = DaysInMonth (getFullYear (LocalTZA c) now) (getMonth (LocalTZA c) now)
    - getDate (LocalTZA c) now + 1
  /\ 1 <= daysRemaining c now.
Proof.
  intros Hyear. unfold daysRemaining. cbv zeta.
  rewrite (endOfMonth_date _ _ Hyear).
  pose proof (now_date_range (LocalTZA c) now). lia.
Qed.

(** C7, as amended.  When [loadGoals] resolves no daily goal but a
    monthly goal [m], it asks the Goal Store to create a daily goal
    whose target is the ceiling of the quotient [target_amount m / d]
    as the code computes it, in floating point, where [d] is the number
    of days left in the month, today included, and not less than 1;
    this is [ceil (target_amount m / d)] whenever the monthly target is
    an integer of at most 2^46.  The window of the goal is today's local
    calendar day, from its first to its last instant, which read
    00:00:00.000 and 23:59:59.999 where the offset of the zone does not
    change at that midnight.  With a monthly target of 100000 on
    2024-06-01 the daily target asked for is 3334. *)
Theorem loadGoals_daily_derivation
  (now : Z) (s : GoalState) (ls : Storage) (u : User) (store : string)
  (m : SalesGoal) :
  isAuthenticated c = true -> user c = Some u ->
  store_id u = Some store -> store <> "" ->
  100 <= getFullYear (LocalTZA c) now ->
  let tz := LocalTZA c in
  let w := fst (run (loadGoals c now) s ls) in
  In (EvDispatch (SET_DAILY_GOAL None)) (log w) ->
  In (EvDispatch (SET_MONTHLY_GOAL (Some m))) (log w) ->
  exists req daysLeft,
    In (EvCreateGoal req) (log w) /\
    req_goal_type req = daily /\
    req_store_id req = store /\
    daysLeft = DaysInMonth (getFullYear tz now) (getMonth tz now)
               - getDate tz now + 1 /\
    req_target_amount req
    = inject_Z (Qceiling (roundTiesToEven
                            (target_amount m / inject_Z (Z.max 1 daysLeft)))) /\
    (forall n : Z,
        (target_amount m == inject_Z n)%Q -> Z.abs n <= 2 ^ 46 ->
        req_target_amount req
        = inject_Z (Qceiling (target_amount m / inject_Z (Z.max 1 daysLeft)))) /\
    (forall t, req_period_start req <= t <= req_period_end req
               <-> onSameDay tz t now) /\
    (offsetAt tz (req_period_start req - 1) = offsetAt tz (req_period_start req) ->
     (getHours tz (req_period_start req), getMinutes tz (req_period_start req),
      getSeconds tz (req_period_start req),
      getMilliseconds tz (req_period_start req)) = (0, 0, 0, 0)) /\
    (offsetAt tz (req_period_end req) = offsetAt tz (req_period_end req + 1) ->
     (getHours tz (req_period_end req), getMinutes tz (req_period_end req),
      getSeconds tz (req_period_end req),
      getMilliseconds tz (req_period_end req)) = (23, 59, 59, 999)) /\
    (getFullYear tz now = 2024 -> getMonth tz now = 5 -> getDate tz now = 1 ->
     (target_amount m == 100000)%Q ->
     req_target_amount req = inject_Z 3334).
Proof.
  intros Ha Hu Hs Hne Hyear tz w. subst w tz.
  destruct (loadGoals_cases now s ls u store Ha Hu Hs Hne)
    as [[Hab ->]|[Hab ->]]; cbn [fst state log]; intros Hd Hm;
    [|apply abortedLog_dispatch in Hd;
      destruct Hd as [Hd|[Hd|Hd]]; discriminate Hd].
  apply loadGoalsLog_dispatch in Hd, Hm.
  destruct Hd as [Hd|[Hd|[Hd|Hd]]]; try discriminate Hd. injection Hd as Hd.
  destruct Hm as [Hm|[Hm|[Hm|Hm]]]; try discriminate Hm. injection Hm as Hm.
  symmetry in Hd, Hm.
  exists (dailyRequest c store now m).
  exists (DaysInMonth (getFullYear (LocalTZA c) now) (getMonth (LocalTZA c) now)
          - getDate (LocalTZA c) now + 1).
  destruct (daysRemaining_eq now Hyear) as [Hrem Hpos].
  assert (Htarget : suggestedDaily c now m
                    = Qceiling (roundTiesToEven
                                  (target_amount m
                                   / inject_Z (Z.max 1 (daysRemaining c now))))).
  { unfold suggestedDaily. rewrite Z.max_r by exact Hpos.
    f_equal. apply roundTiesToEven_comp. rewrite orZero_eq. reflexivity. }
  destruct (dailyRequest_window store now m Hyear) as [Hstart Hend].
  destruct (today_dayStart now Hyear) as [Hs0 He0].
  split; [|split; [|split; [|split; [|split; [|split; [|split; [|split; [|split]]]]]]]].
  - apply loadGoalsLog_createGoal. right.
    unfold derivedDailyRequest. rewrite Hd, Hm. reflexivity.
  - reflexivity.
  - reflexivity.
  - reflexivity.
  - cbn [dailyRequest req_target_amount]. rewrite Htarget, Hrem. reflexivity.
  - intros n Hn Hbound. cbn [dailyRequest req_target_amount].
    rewrite Htarget, Hrem. f_equal.
    pose proof (now_date_range (LocalTZA c) now) as Hdate.
    pose proof (DaysInMonth_pos (getFullYear (LocalTZA c) now)
                  (getMonth (LocalTZA c) now)) as Hlen.
    set (d := Z.max 1 (DaysInMonth (getFullYear (LocalTZA c) now)
                         (getMonth (LocalTZA c) now)
                       - getDate (LocalTZA c) now + 1)) in *.
    assert (Hq : (target_amount m / inject_Z d == inject_Z n / inject_Z d)%Q)
      by (rewrite Hn; reflexivity).
    rewrite (roundTiesToEven_comp _ _ Hq), (Qceiling_comp _ _ Hq).
    apply ceiling_of_quotient; [exact Hbound|subst d; lia].
  - intros t. rewrite Hstart, Hend. apply (today_window_c now Hyear).
  - rewrite Hstart, Hs0. intros Ho.
    unfold getHours, getMinutes, getSeconds, getMilliseconds.
    rewrite (dayStart_clock _ _ Ho). apply clock_of_MakeDate; lia.
  - rewrite Hend, He0. intros Ho.
    unfold getHours, getMinutes, getSeconds, getMilliseconds.
    rewrite (dayEnd_clock _ _ Ho). apply clock_of_MakeDate; lia.
  - intros Hy Hmo Hda Ht. cbn [dailyRequest req_target_amount].
    rewrite Htarget, Hrem, Hy, Hmo, Hda. f_equal.
    rewrite (roundTiesToEven_comp _ (100000 / inject_Z 30)%Q);
      [vm_compute; reflexivity|rewrite Ht; reflexivity].
Qed.

(** ** The achievement evaluator, one invocation *)

Lemma checkGoalAchievements_run (now : Z) (s : GoalState) (ls : Storage)
  (dp mp : GoalProgress) :
  dailyProgress s = Some dp -> monthlyProgress s = Some mp ->
  run (checkGoalAchievements c now s) s ls
  = ({| state := checkState c now s ls dp mp;
        storage := checkStorage c now s ls dp mp;
        log := checkLog c now s ls dp mp |},
     checkOutcome c now s ls dp mp).
Proof.
  intros Hd Hm.
  unfold checkGoalAchievements, checkState, checkStorage, checkLog,
    checkOutcome, monthlyBlock, dailyBlock, blockResult, due, staleDaily.
  rewrite Hd, Hm. step_engine.
  destruct (truthy (ls !! "lastDailyCelebration"));
    destruct (strictEq (ls !! "lastDailyCelebration")
                (toDateString (LocalTZA c) now));
    destruct (is_achieved dp); cbn [andb negb];
    try (destruct (dailyGoal s) as [g|]);
    cbn [blockThrows blockEvents blockStorage blockState negb orb app
         state storage log tagOf markerKey];
    try (destruct (showNotification c daily_goal_achievement));
    cbn [blockThrows blockEvents blockStorage blockState negb orb app
         state storage log tagOf markerKey];
    try reflexivity;
    destruct (strictEq (ls !! "lastMonthlyCelebration") (thisMonthKey c now));
    destruct (is_achieved mp); cbn [andb negb];
    try (destruct (monthlyGoal s) as [g'|]);
    cbn [blockThrows blockEvents blockStorage blockState negb orb app
         state storage log tagOf markerKey];
    try (destruct (showNotification c monthly_goal_achievement));
    cbn [blockThrows blockEvents blockStorage blockState negb orb app
         state storage log tagOf markerKey];
    reflexivity.
Qed.

Lemma checkLog_count (track : GoalType) (now : Z) (s : GoalState) (ls : Storage)
  (dp mp : GoalProgress) (f : GoalType -> Event -> bool) :
  f = isNotify \/ f = isCelebration \/ f = isMarkerWrite ->
  length (filter (f track) (checkLog c now s ls dp mp))
  = if celebrated (blockOf c track now s ls dp mp) then 1%nat else 0%nat.
Proof.
  intros Hf. unfold checkLog, blockOf.
  rewrite !filter_app, !length_app.
  destruct (staleDaily c now ls);
    destruct (dailyBlock c now s ls dp) as [| |gd ad];
    destruct (monthlyBlock c now s ls dp mp) as [| |gm am];
    destruct track; destruct Hf as [->|[->| ->]]; reflexivity.
Qed.

(** What one invocation does for a track: when the block of the track
    celebrates, the invocation invokes the Notifier for the track, sets
    [lastCelebration] for it and writes its marker, once each, and the
    marker is the period key; otherwise it does none of these and leaves
    the marker as it was. *)
Lemma check_call (track : GoalType) (now : Z) (s : GoalState) (ls : Storage)
  (dp mp : GoalProgress) :
  dailyProgress s = Some dp -> monthlyProgress s = Some mp ->
  let w := fst (run (checkGoalAchievements c now s) s ls) in
  let n := if celebrated (blockOf c track now s ls dp mp) then 1%nat else 0%nat in
  countIn (isNotify track) w = n /\
  countIn (isCelebration track) w = n /\
  countIn (isMarkerWrite track) w = n /\
  storage w !! markerKey track
  = if celebrated (blockOf c track now s ls dp mp)
    then Some (Raw (periodKey c track now))
    else ls !! markerKey track.
Proof.
  intros Hd Hm w n. subst w n.
  rewrite (checkGoalAchievements_run now s ls dp mp Hd Hm).
  unfold countIn. cbn [fst log storage].
  rewrite !checkLog_count by auto.
  split; [reflexivity|]. split; [reflexivity|]. split; [reflexivity|].
  unfold checkStorage, blockOf, periodKey.
  destruct (dailyBlock c now s ls dp) as [| |gd ad];
    destruct (monthlyBlock c now s ls dp mp) as [| |gm am];
    destruct track; cbn [blockStorage celebrated markerKey];
    rewrite ?lookup_insert_eq; try reflexivity;
    rewrite lookup_insert_ne by discriminate;
    rewrite ?lookup_insert_eq; reflexivity.
Qed.

(** The block of a track celebrates only when the marker is not the
    period key, and it does celebrate then if the achievement is there
    and nothing stops the invocation before the block. *)
Lemma celebrated_not_marked (track : GoalType) (now : Z) (s : GoalState)
  (ls : Storage) (dp mp : GoalProgress) :
  celebrated (blockOf c track now s ls dp mp) = true ->
  strictEq (ls !! markerKey track) (periodKey c track now) = false.
Proof.
  unfold blockOf, monthlyBlock, dailyBlock, blockResult, due, periodKey.
  destruct track; cbn [markerKey].
  - destruct (strictEq (ls !! "lastDailyCelebration")
                (toDateString (LocalTZA c) now)); [|reflexivity].
    rewrite andb_false_r. discriminate.
  - destruct (strictEq (ls !! "lastMonthlyCelebration") (thisMonthKey c now));
      [|reflexivity].
    rewrite andb_false_r.
    match goal with |- context [if ?b then _ else _] => destruct b end;
      discriminate.
Qed.

Lemma celebrated_when_ready (track : GoalType) (now : Z) (s : GoalState)
  (ls : Storage) (dp mp : GoalProgress) :
  dailyProgress s = Some dp -> monthlyProgress s = Some mp ->
  strictEq (ls !! markerKey track) (periodKey c track now) = false ->
  achievedIn track {| inv_collaborators := c; inv_now := now; inv_state := s |} ->
  unhindered track {| inv_collaborators := c; inv_now := now; inv_state := s |} ->
  celebrated (blockOf c track now s ls dp mp) = true.
Proof.
  intros Hd Hm Hk Ha Hu.
  unfold blockOf, monthlyBlock, dailyBlock, blockResult, due, periodKey in *.
  destruct track; cbn [markerKey achievedIn unhindered inv_state
                       inv_collaborators] in *.
  - destruct Ha as (dp' & Hd' & Hach & Hg). rewrite Hd in Hd'.
    injection Hd' as <-. rewrite Hach, Hk.
    destruct (dailyGoal s); [reflexivity|congruence].
  - destruct Ha as (mp' & Hm' & Hach & Hg). rewrite Hm in Hm'.
    injection Hm' as <-. rewrite Hach, Hk.
    assert (Hno : blockThrows
                    (if is_achieved dp
                        && negb (strictEq (ls !! "lastDailyCelebration")
                                   (toDateString (LocalTZA c) now))
                     then match dailyGoal s with
                          | Some g => Celebrated g (showNotification c (tagOf daily))
                          | None => Failed
                          end
                     else Skipped) = false).
    { destruct Hu as [(dp' & Hd' & Hn)|[Hg' Hacc]].
      - rewrite Hd in Hd'. injection Hd' as <-. rewrite Hn. reflexivity.
      - destruct (is_achieved dp && _); [|reflexivity].
        destruct (dailyGoal s); [|congruence].
        cbn. rewrite Hacc. reflexivity. }
    rewrite Hno. cbn.
    destruct (monthlyGoal s); [reflexivity|congruence].
Qed.

End EngineFacts.

(** * Sequences of invocations of the evaluator *)

Lemma check_call_guard (c : Collaborators) (now : Z) (s : GoalState) (ls : Storage) :
  dailyProgress s = None \/ monthlyProgress s = None ->
  run (checkGoalAchievements c now s) s ls
  = ({| state := s; storage := ls; log := [] |}, Returned tt).
Proof.
  intros H. unfold checkGoalAchievements, run.
  destruct (dailyProgress s); [|reflexivity].
  destruct (monthlyProgress s); [|reflexivity].
  destruct H as [H|H]; discriminate H.
Qed.

Lemma strictEq_key (key : string) : strictEq (Some (Raw key)) key = true.
Proof. cbn. apply String.eqb_refl. Qed.

(** Instants of the same period have the same period key. *)
Lemma samePeriod_key (track : GoalType) (c c0 : Collaborators) (t t0 : Z) :
  LocalTZA c = LocalTZA c0 -> samePeriod track (LocalTZA c0) t t0 ->
  periodKey c track t = periodKey c0 track t0.
Proof.
  intros Htz H. destruct track; cbn [samePeriod periodKey] in *.
  - unfold toDateString. rewrite Htz. apply DateString_Day. exact H.
  - unfold thisMonthKey. rewrite Htz. destruct H as [-> ->]. reflexivity.
Qed.

(** Run without interruption, the segments are the function. *)
Lemma uninterrupted_eq (c : Collaborators) (now : Z) (s : GoalState) (w : World) :
  uninterrupted {| inv_collaborators := c; inv_now := now; inv_state := s |} w
  = checkGoalAchievements c now s w.
Proof.
  unfold uninterrupted, checkStart, checkGoalAchievements, finish, resume,
    monthlyPart, answered, callNotifier.
  cbn [inv_collaborators inv_now inv_state].
  destruct (dailyProgress s) as [dp|]; [|reflexivity].
  destruct (monthlyProgress s) as [mp|]; [|reflexivity].
  step_engine.
  destruct (truthy (storage w !! "lastDailyCelebration"));
    destruct (strictEq (storage w !! "lastDailyCelebration")
                (toDateString (LocalTZA c) now));
    destruct (is_achieved dp); cbn [andb negb];
    try (destruct (dailyGoal s) as [g|]); cbn;
    try (destruct (showNotification c daily_goal_achievement)); cbn;
    try reflexivity;
    destruct (strictEq (storage w !! "lastMonthlyCelebration") (thisMonthKey c now));
    destruct (is_achieved mp); cbn [andb negb];
    try (destruct (monthlyGoal s) as [g'|]); cbn;
    try (destruct (showNotification c monthly_goal_achievement)); cbn;
    reflexivity.
Qed.

Lemma count_app f l1 l2 : count f (l1 ++ l2) = (count f l1 + count f l2)%nat.
Proof. unfold count. rewrite filter_app, length_app. reflexivity. Qed.

(** The monthly block celebrates the month, once, exactly when the
    monthly Progress is achieved and the marker it was given is not the
    key of the month; it never suspends on the daily notification. *)
Lemma monthlyPart_effect (track : GoalType) (i : Invocation) (mp : GoalProgress)
  (lm : option StoredValue) (w : World) :
  let key := periodKey (inv_collaborators i) track (inv_now i) in
  let r := monthlyPart i mp lm w in
  exists l n,
    log (fst r) = log w ++ l /\ trackEvents track l n /\ noClear l /\
    (forall i' mp' lm', snd r <> Returned (Some (AwaitsDaily i' mp' lm'))) /\
    ((n = 1%nat /\ track = monthly /\ strictEq lm key = false /\
      storage (fst r) !! markerKey track = Some (Raw key)) \/
     (n = 0%nat /\ storage (fst r) !! markerKey track = storage w !! markerKey track /\
      (track = monthly -> strictEq lm key = false ->
       is_achieved mp = true -> monthlyGoal (inv_state i) <> None -> False))).
Proof.
  destruct i as [c now s]. cbv zeta. unfold monthlyPart, callNotifier.
  cbn [inv_collaborators inv_now inv_state].
  destruct (is_achieved mp) eqn:Ea;
    destruct (strictEq lm (thisMonthKey c now)) eqn:Ek; cbn [andb negb];
    try destruct (monthlyGoal s) as [g|] eqn:Eg; step_engine.
  all: try (exists [], 0%nat; rewrite app_nil_r;
            split; [reflexivity|]; split; [repeat split|]; split; [intros []|];
            split; [discriminate|]; right; split; [reflexivity|];
            split; [reflexivity|]; destruct track; cbn [periodKey];
            intros; congruence).
  exists [EvSetItem "lastMonthlyCelebration" (Raw (thisMonthKey c now));
          EvDispatch (SET_LAST_CELEBRATION (Some (celebrationOf monthly g mp now)));
          EvNotify monthly_goal_achievement],
         (match track with monthly => 1%nat | daily => 0%nat end).
  split; [rewrite <- !app_assoc; reflexivity|].
  split; [destruct track; repeat split|].
  split; [intros [H|[H|[H|[]]]]; discriminate H|].
  split; [discriminate|].
  destruct track; cbn [periodKey markerKey].
  - right. split; [reflexivity|]. split; [|discriminate].
    apply lookup_insert_ne. discriminate.
  - left. split; [reflexivity|]. split; [reflexivity|]. split; [exact Ek|].
    apply lookup_insert_eq.
Qed.

Lemma trackEvents_app track l1 l2 n1 n2 :
  trackEvents track l1 n1 -> trackEvents track l2 n2 ->
  trackEvents track (l1 ++ l2) (n1 + n2).
Proof.
  intros (A1 & A2 & A3) (B1 & B2 & B3). unfold trackEvents.
  rewrite !count_app, A1, A2, A3, B1, B2, B3. repeat split.
Qed.

Lemma noClear_app l1 l2 : noClear l1 -> noClear l2 -> noClear (l1 ++ l2).
Proof. unfold noClear. rewrite in_app_iff. tauto. Qed.

(** The first segment of an invocation. *)
Lemma checkStart_effect (track : GoalType) (i : Invocation) (w : World) :
  let key := periodKey (inv_collaborators i) track (inv_now i) in
  let r := checkStart i w in
  exists l n,
    log (fst r) = log w ++ l /\ trackEvents track l n /\
    (storage w !! markerKey track = Some (Raw key) -> track = daily -> noClear l) /\
    (forall i' mp lm,
        snd r = Returned (Some (AwaitsDaily i' mp lm)) ->
        i' = i /\ lm = storage w !! "lastMonthlyCelebration" /\
        storage (fst r) !! "lastMonthlyCelebration" = lm /\
        (track = monthly -> n = 0%nat)) /\
    ((n = 1%nat /\ strictEq (storage w !! markerKey track) key = false /\
      storage (fst r) !! markerKey track = Some (Raw key)) \/
     (n = 0%nat /\ storage (fst r) !! markerKey track = storage w !! markerKey track)) /\
    (strictEq (storage w !! markerKey track) key = false -> readyFor track i ->
     n = 1%nat \/ exists p, snd r = Returned (Some p) /\ readyPending track p).
Proof.
  destruct i as [c now s]. cbv zeta. unfold checkStart, callNotifier.
  cbn [inv_collaborators inv_now inv_state].
  destruct (dailyProgress s) as [dp|] eqn:Hdp;
    [destruct (monthlyProgress s) as [mp|] eqn:Hmp|].
  2,3: exists [], 0%nat; cbn; rewrite app_nil_r;
       (split; [reflexivity|]); (split; [repeat split|]);
       (split; [intros _ _ []|]); (split; [discriminate|]);
       (split; [right; split; reflexivity|]);
       intros _ ((dp' & mp' & H1 & H2) & _); cbn in *; congruence.
  step_engine.
  set (ld := storage w !! "lastDailyCelebration").
  set (lm := storage w !! "lastMonthlyCelebration").
  set (today := toDateString (LocalTZA c) now).
  set (clear := if truthy ld && negb (strictEq ld today)
                then [EvDispatch CLEAR_LAST_CELEBRATION] else []).
  assert (Hclear : strictEq ld today = true -> clear = []).
  { intros E. subst clear. rewrite E, andb_false_r. reflexivity. }
  assert (Hcount : forall f, f = isNotify \/ f = isCelebration \/ f = isMarkerWrite ->
             count (f track) ([EvGetItem "lastDailyCelebration";
                               EvGetItem "lastMonthlyCelebration"] ++ clear) = 0%nat).
  { intros f Hf. subst clear.
    destruct (truthy ld && negb (strictEq ld today));
      destruct Hf as [->|[->| ->]]; destruct track; reflexivity. }
  destruct (is_achieved dp && negb (strictEq ld today)) eqn:Edue.
  - (* the daily block is entered *)
    apply andb_true_iff in Edue. destruct Edue as [Ea Ek].
    apply negb_true_iff in Ek.
    destruct (dailyGoal s) as [g|] eqn:Eg.
    + exists (([EvGetItem "lastDailyCelebration";
                EvGetItem "lastMonthlyCelebration"] ++ clear)
              ++ [EvSetItem "lastDailyCelebration" (Raw today);
                  EvDispatch (SET_LAST_CELEBRATION
                                (Some (celebrationOf daily g dp now)));
                  EvNotify daily_goal_achievement]),
             (match track with daily => 1%nat | monthly => 0%nat end).
      split.
      { subst clear. destruct (truthy ld && negb (strictEq ld today));
          cbn; rewrite <- ?app_assoc; reflexivity. }
      split.
      { replace (match track with daily => 1%nat | monthly => 0%nat end)
          with (0 + match track with daily => 1 | monthly => 0 end)%nat
          by reflexivity.
        apply trackEvents_app.
        - repeat split; apply Hcount; auto.
        - destruct track; repeat split. }
      split.
      { intros Hm ->. cbn [markerKey periodKey] in Hm. fold ld in Hm.
        rewrite Hm in Ek. fold today in Ek. rewrite strictEq_key in Ek.
        discriminate Ek. }
      split.
      { subst clear. destruct (truthy ld && negb (strictEq ld today)); cbn;
          intros i' mp' lm' [= <- <- <-];
          (split; [reflexivity|]); (split; [reflexivity|]);
          (split; [apply lookup_insert_ne; discriminate|]);
          intros ->; reflexivity. }
      split.
      { destruct track; cbn [markerKey periodKey].
        - left. split; [reflexivity|]. split; [exact Ek|].
          subst clear. destruct (truthy ld && negb (strictEq ld today)); cbn;
            apply lookup_insert_eq.
        - right. split; [reflexivity|].
          subst clear. destruct (truthy ld && negb (strictEq ld today)); cbn;
            apply lookup_insert_ne; discriminate. }
      { intros Hk (Hp & Hach & Hun). destruct track; [left; reflexivity|].
        right. eexists. split.
        - subst clear. destruct (truthy ld && negb (strictEq ld today)); cbn;
            reflexivity.
        - split; [reflexivity|]. do 3 eexists. split; [reflexivity|].
          cbn [achievedIn unhindered inv_state inv_collaborators] in *.
          destruct Hach as (mp' & Hmp' & Hachm & Hgm).
          rewrite Hmp in Hmp'. injection Hmp' as <-.
          split; [exact Hachm|]. split; [exact Hgm|].
          destruct Hun as [(dp' & Hdp' & Hn)|[_ Hacc]]; [|exact Hacc].
          rewrite Hdp in Hdp'. injection Hdp' as <-. congruence. }
    + (* the goal is null: the invocation throws *)
      exists ([EvGetItem "lastDailyCelebration";
               EvGetItem "lastMonthlyCelebration"] ++ clear), 0%nat.
      split.
      { subst clear. destruct (truthy ld && negb (strictEq ld today));
          cbn; rewrite <- ?app_assoc; reflexivity. }
      split; [repeat split; apply Hcount; auto|].
      split.
      { intros Hm ->. cbn [markerKey periodKey] in Hm. fold ld in Hm.
        rewrite Hm in Ek. fold today in Ek. rewrite strictEq_key in Ek.
        discriminate Ek. }
      split.
      { subst clear. destruct (truthy ld && negb (strictEq ld today)); cbn;
          discriminate. }
      split.
      { right. split; [reflexivity|].
        subst clear. destruct (truthy ld && negb (strictEq ld today)); reflexivity. }
      { intros Hk (Hp & Hach & Hun). exfalso.
        destruct track; cbn [achievedIn unhindered inv_state inv_collaborators] in *.
        - destruct Hach as (dp' & _ & _ & Hg). congruence.
        - destruct Hun as [(dp' & Hdp' & Hn)|[Hg _]]; [|congruence].
          rewrite Hdp in Hdp'. injection Hdp' as <-. congruence. }
  - (* the daily block is skipped *)
    set (w1 := if truthy ld && negb (strictEq ld today)
               then {| state := goalReducer (state w) CLEAR_LAST_CELEBRATION;
                       storage := storage w;
                       log := ((log w ++ [EvGetItem "lastDailyCelebration"])
                               ++ [EvGetItem "lastMonthlyCelebration"])
                              ++ [EvDispatch CLEAR_LAST_CELEBRATION] |}
               else {| state := state w; storage := storage w;
                       log := (log w ++ [EvGetItem "lastDailyCelebration"])
                              ++ [EvGetItem "lastMonthlyCelebration"] |}).
    assert (Hw1 : storage w1 = storage w /\
                  log w1 = log w ++ ([EvGetItem "lastDailyCelebration";
                                      EvGetItem "lastMonthlyCelebration"] ++ clear)).
    { subst w1 clear. destruct (truthy ld && negb (strictEq ld today)); cbn;
        rewrite <- ?app_assoc; split; reflexivity. }
    destruct Hw1 as [Hs1 Hl1].
    pose proof (monthlyPart_effect track
                  {| inv_collaborators := c; inv_now := now; inv_state := s |}
                  mp lm w1) as M.
    cbv zeta in M. cbn [inv_collaborators inv_now inv_state] in M.
    destruct M as (l & n & Hl & Hev & Hnc & Hnd & Hcase).
    assert (Hr : (if truthy ld && negb (strictEq ld today) as b
                  return (World * Outcome (option Suspended))
                  then monthlyPart {| inv_collaborators := c; inv_now := now;
                                      inv_state := s |} mp lm
                         {| state := goalReducer (state w) CLEAR_LAST_CELEBRATION;
                            storage := storage w;
                            log := ((log w ++ [EvGetItem "lastDailyCelebration"])
                                    ++ [EvGetItem "lastMonthlyCelebration"])
                                   ++ [EvDispatch CLEAR_LAST_CELEBRATION] |}
                  else monthlyPart {| inv_collaborators := c; inv_now := now;
                                      inv_state := s |} mp lm
                         {| state := state w; storage := storage w;
                            log := (log w ++ [EvGetItem "lastDailyCelebration"])
                                   ++ [EvGetItem "lastMonthlyCelebration"] |})
                 = monthlyPart {| inv_collaborators := c; inv_now := now;
                                  inv_state := s |} mp lm w1).
    { subst w1. destruct (truthy ld && negb (strictEq ld today)); reflexivity. }
    match goal with
    | |- context [fst ?r] =>
        replace r with (monthlyPart {| inv_collaborators := c; inv_now := now;
                                       inv_state := s |} mp lm w1)
    end.
    2:{ rewrite <- Hr. destruct (truthy ld && negb (strictEq ld today)); reflexivity. }
    exists (([EvGetItem "lastDailyCelebration";
              EvGetItem "lastMonthlyCelebration"] ++ clear) ++ l), n.
    split; [rewrite Hl, Hl1, <- !app_assoc; reflexivity|].
    split.
    { change n with (0 + n)%nat. apply trackEvents_app; [|exact Hev].
      repeat split; apply Hcount; auto. }
    split.
    { intros Hm ->. cbn [markerKey periodKey] in Hm. fold ld in Hm.
      apply noClear_app; [|exact Hnc].
      rewrite Hclear by (rewrite Hm; apply strictEq_key).
      intros [H|[H|[]]]; discriminate H. }
    split.
    { intros i' mp' lm' H. destruct (Hnd _ _ _ H). }
    rewrite Hs1 in Hcase.
    split.
    { destruct Hcase as [(-> & -> & Hk & Hsto)|(-> & Hsto & _)].
      - left. split; [reflexivity|]. split; [exact Hk|exact Hsto].
      - right. split; [reflexivity|exact Hsto]. }
    { intros Hk (Hp & Hach & Hun).
      destruct track; cbn [achievedIn unhindered inv_state inv_collaborators
                           markerKey periodKey] in *.
      - exfalso. destruct Hach as (dp' & Hdp' & Ha & _).
        rewrite Hdp in Hdp'. injection Hdp' as <-.
        rewrite Ha in Edue. fold ld today in Hk. rewrite Hk in Edue.
        discriminate Edue.
      - destruct Hcase as [(-> & _)|(-> & _ & Hno)]; [left; reflexivity|].
        exfalso. destruct Hach as (mp' & Hmp' & Ha & Hg).
        rewrite Hmp in Hmp'. injection Hmp' as <-.
        apply Hno; auto. }
Qed.

Lemma resume_effect (track : GoalType) (p : Suspended) (w : World) :
  let r := resume p w in
  exists l n,
    log (fst r) = log w ++ l /\ trackEvents track l n /\ noClear l /\
    (forall i' mp' lm', snd r <> Returned (Some (AwaitsDaily i' mp' lm'))) /\
    ((n = 1%nat /\ track = monthly /\
      exists i mp lm,
        p = AwaitsDaily i mp lm /\
        strictEq lm (periodKey (inv_collaborators i) monthly (inv_now i)) = false /\
        storage (fst r) !! markerKey track
        = Some (Raw (periodKey (inv_collaborators i) monthly (inv_now i)))) \/
     (n = 0%nat /\ storage (fst r) !! markerKey track = storage w !! markerKey track /\
      (readyPending track p ->
       forall i mp lm, p = AwaitsDaily i mp lm ->
         strictEq lm (periodKey (inv_collaborators i) monthly (inv_now i)) = false ->
         False))).
Proof.
  cbv zeta. destruct p as [i mp lm|i]; unfold resume, answered.
  - destruct (showNotification (inv_collaborators i) daily_goal_achievement) eqn:Eacc.
    + step_engine.
      pose proof (monthlyPart_effect track i mp lm w) as M. cbv zeta in M.
      destruct M as (l & n & Hl & Hev & Hnc & Hnd & Hcase).
      exists l, n. split; [exact Hl|]. split; [exact Hev|]. split; [exact Hnc|].
      split; [exact Hnd|].
      destruct Hcase as [(-> & -> & Hk & Hsto)|(-> & Hsto & Hno)].
      * left. split; [reflexivity|]. split; [reflexivity|].
        exists i, mp, lm. cbn [periodKey] in *. auto.
      * right. split; [reflexivity|]. split; [exact Hsto|].
        intros (-> & i' & mp' & lm' & [= <- <- <-] & Ha & Hg & _) i'' mp'' lm''
               [= <- <- <-] Hk.
        apply Hno; auto.
    + step_engine. exists [], 0%nat. rewrite app_nil_r.
      split; [reflexivity|]. split; [repeat split|]. split; [intros []|].
      split; [discriminate|]. right. split; [reflexivity|]. split; [reflexivity|].
      intros (_ & i' & mp' & lm' & [= <- <- <-] & _ & _ & Hacc). congruence.
  - destruct (showNotification (inv_collaborators i) monthly_goal_achievement);
      step_engine; exists [], 0%nat; rewrite app_nil_r;
      (split; [reflexivity|]); (split; [repeat split|]); (split; [intros []|]);
      (split; [discriminate|]); right; (split; [reflexivity|]);
      (split; [reflexivity|]);
      intros (_ & i' & mp' & lm' & H & _); discriminate H.
Qed.

Lemma nDaily_app l1 l2 : nDaily (l1 ++ l2) = (nDaily l1 + nDaily l2)%nat.
Proof. induction l1 as [|p l1 IH]; cbn; [reflexivity|rewrite IH; lia]. Qed.

Lemma nDaily_existsb l : existsb awaitsDaily l = false <-> nDaily l = 0%nat.
Proof.
  induction l as [|p l IH]; cbn; [tauto|].
  destruct (awaitsDaily p); cbn; [split; [discriminate|lia]|exact IH].
Qed.

Lemma nDaily_In l p : In p l -> awaitsDaily p = true -> (1 <= nDaily l)%nat.
Proof.
  induction l as [|q l IH]; cbn; [intros []|].
  intros [->|H] Hp; [rewrite Hp; lia|]. specialize (IH H Hp). lia.
Qed.

Lemma delete_split (l : list Suspended) (k : nat) (q : Suspended) :
  l !! k = Some q ->
  exists l1 l2, l = l1 ++ q :: l2 /\ delete k l = l1 ++ l2.
Proof.
  intros H. exists (take k l), (drop (S k) l). split.
  - symmetry. apply take_drop_middle. exact H.
  - apply delete_take_drop.
Qed.

Lemma In_settle (r : World * Outcome (option Suspended)) (others : list Suspended)
  (p : Suspended) :
  In p (snd (settle r others))
  <-> In p others \/ snd r = Returned (Some p).
Proof.
  unfold settle. destruct (snd r) as [[q|]|]; cbn [snd].
  - rewrite in_app_iff. cbn. split.
    + intros [H|[->|[]]]; auto.
    + intros [H|[= ->]]; auto.
  - split; [auto|]. intros [H|H]; [exact H|discriminate H].
  - split; [auto|]. intros [H|H]; [exact H|discriminate H].
Qed.

Lemma fst_settle r others : fst (settle r others) = fst r.
Proof. unfold settle. destruct (snd r) as [[q|]|]; reflexivity. Qed.

Lemma nDaily_settle r others :
  (forall i mp lm, snd r <> Returned (Some (AwaitsDaily i mp lm))) ->
  nDaily (snd (settle r others)) = nDaily others.
Proof.
  intros H. unfold settle. destruct (snd r) as [[q|]|]; cbn [snd]; try reflexivity.
  rewrite nDaily_app. cbn. destruct q as [i mp lm|i]; cbn; [|lia].
  destruct (H i mp lm eq_refl).
Qed.

Lemma nDaily_settle_le r others :
  (nDaily (snd (settle r others)) <= nDaily others + 1)%nat.
Proof.
  unfold settle. destruct (snd r) as [[q|]|]; cbn [snd]; try lia.
  rewrite nDaily_app. cbn. destruct (awaitsDaily q); lia.
Qed.

Lemma act_effect (track : GoalType) (key : string) (a : Action)
  (st : World * list Suspended) :
  pendingOk track key st ->
  (forall i, a = Start i ->
     periodKey (inv_collaborators i) track (inv_now i) = key /\
     (track = monthly -> existsb awaitsDaily (snd st) = false)) ->
  let st1 := act a st in
  pendingOk track key st1 /\
  exists l n,
    log (fst st1) = log (fst st) ++ l /\ trackEvents track l n /\
    (storage (fst st) !! markerKey track = Some (Raw key) -> track = daily ->
     noClear l) /\
    ((n = 1%nat /\ strictEq (storage (fst st) !! markerKey track) key = false /\
      storage (fst st1) !! markerKey track = Some (Raw key)) \/
     (n = 0%nat /\
      storage (fst st1) !! markerKey track = storage (fst st) !! markerKey track)) /\
    (strictEq (storage (fst st) !! markerKey track) key = false -> n = 0%nat ->
     (forall i, a = Start i -> readyFor track i ->
        exists p, In p (snd st1) /\ readyPending track p) /\
     (forall p, In p (snd st) -> readyPending track p -> In p (snd st1))).
Proof.
  destruct st as [w pending]. intros Hok Ha. cbv zeta.
  destruct a as [i|k]; cbn [act fst snd].
  - destruct (Ha i eq_refl) as [Hkey Hser].
    pose proof (checkStart_effect track i w) as E. cbv zeta in E.
    rewrite Hkey in E.
    destruct E as (l & n & Hl & Hev & Hnc & Hd & Hcase & Hready).
    split.
    + intros Ht. specialize (Hser Ht). apply nDaily_existsb in Hser.
      split.
      * pose proof (nDaily_settle_le (checkStart i w) pending). cbn [snd] in *. lia.
      * intros i' mp lm Hin. apply In_settle in Hin.
        destruct Hin as [Hin|Hin].
        -- pose proof (nDaily_In _ _ Hin eq_refl). cbn [snd] in *. lia.
        -- destruct (Hd _ _ _ Hin) as (-> & -> & Hsto & _).
           rewrite fst_settle. subst track. cbn [periodKey] in Hkey.
           split; [exact Hkey|]. symmetry. exact Hsto.
    + exists l, n. rewrite fst_settle.
      split; [exact Hl|]. split; [exact Hev|]. split; [exact Hnc|].
      split; [exact Hcase|].
      intros Hk Hn. split.
      * intros i' [= <-] Hr. destruct (Hready Hk Hr) as [H|(p & Hp & Hrp)];
          [congruence|].
        exists p. split; [|exact Hrp]. apply In_settle. right. exact Hp.
      * intros p Hin _. apply In_settle. left. exact Hin.
  - destruct (pending !! k) as [q|] eqn:Eq.
    2:{ split; [exact Hok|]. exists [], 0%nat. rewrite app_nil_r.
        split; [reflexivity|]. split; [repeat split|]. split; [intros _ _ []|].
        split; [right; split; reflexivity|].
        intros _ _. split; [discriminate|]. intros p Hin _. exact Hin. }
    destruct (delete_split _ _ _ Eq) as (l1 & l2 & Hsplit & Hdel).
    rewrite Hdel.
    pose proof (resume_effect track q w) as E. cbv zeta in E.
    destruct E as (l & n & Hl & Hev & Hnc & Hnd & Hcase).
    assert (Hq : In q pending).
    { rewrite Hsplit. apply in_elt. }
    assert (Hsub : forall p, In p (l1 ++ l2) -> In p pending).
    { intros p. rewrite Hsplit, !in_app_iff. cbn. tauto. }
    assert (HnD : nDaily pending
                  = (nDaily (l1 ++ l2) + if awaitsDaily q then 1 else 0)%nat).
    { rewrite Hsplit, !nDaily_app. cbn. lia. }
    assert (Hcase' :
              (n = 1%nat /\
               strictEq (storage w !! markerKey track) key = false /\
               storage (fst (resume q w)) !! markerKey track = Some (Raw key) /\
               track = monthly /\ awaitsDaily q = true) \/
              (n = 0%nat /\
               storage (fst (resume q w)) !! markerKey track
               = storage w !! markerKey track)).
    { destruct Hcase as [(-> & -> & i & mp & lm & -> & Hk & Hsto)|(-> & Hsto & _)].
      - left. destruct (Hok eq_refl) as [_ Hp]. cbn [fst snd] in Hp.
        destruct (Hp i mp lm Hq) as [Hkey ->]. rewrite Hkey in *.
        cbn [markerKey] in *. auto.
      - right. auto. }
    split.
    + intros Ht. destruct (Hok Ht) as [Hn Hp]. cbn [fst snd] in Hn, Hp.
      split.
      * rewrite nDaily_settle by exact Hnd. lia.
      * intros i mp lm Hin. apply In_settle in Hin.
        destruct Hin as [Hin|Hin]; [|destruct (Hnd _ _ _ Hin)].
        rewrite fst_settle.
        destruct (Hp i mp lm (Hsub _ Hin)) as [Hkey ->].
        split; [exact Hkey|].
        destruct Hcase' as [(_ & _ & _ & _ & Hqd)|(_ & Hsto)].
        -- pose proof (nDaily_In _ _ Hin eq_refl). rewrite Hqd in HnD. lia.
        -- subst track. cbn [markerKey] in Hsto. symmetry. exact Hsto.
    + exists l, n. rewrite fst_settle.
      split; [exact Hl|]. split; [exact Hev|]. split; [intros _ _; exact Hnc|].
      split.
      { destruct Hcase' as [(-> & Hk & Hsto & _)|(-> & Hsto)]; [left|right]; auto. }
      intros Hk Hn. split; [discriminate|].
      intros p Hin Hrp. apply In_settle. left.
      rewrite Hsplit, in_app_iff in Hin. cbn [In] in Hin.
      rewrite in_app_iff.
      destruct Hin as [Hin|[<-|Hin]]; [left; exact Hin| |right; exact Hin].
      exfalso.
      destruct Hcase as [(-> & _)|(_ & _ & Hno)]; [discriminate Hn|].
      destruct Hrp as (Ht & i & mp & lm & -> & Hrest).
      destruct (Hok Ht) as [_ Hp]. cbn [fst snd] in Hp.
      destruct (Hp i mp lm Hq) as [Hkey ->].
      apply (Hno (conj Ht (ex_intro _ i (ex_intro _ mp (ex_intro _ _
                    (conj eq_refl Hrest))))) i mp _ eq_refl).
      rewrite Hkey. subst track. exact Hk.
Qed.

Lemma schedule_cons a acts st : schedule (a :: acts) st = schedule acts (act a st).
Proof. reflexivity. Qed.

Lemma schedule_app acts1 acts2 st :
  schedule (acts1 ++ acts2) st = schedule acts2 (schedule acts1 st).
Proof. unfold schedule. apply fold_left_app. Qed.

Lemma serialized_app acts1 acts2 st :
  serialized (acts1 ++ acts2) st ->
  serialized acts1 st /\ serialized acts2 (schedule acts1 st).
Proof.
  revert st. induction acts1 as [|a acts1 IH]; intros st; cbn [app serialized].
  - intros H. split; [exact I|exact H].
  - intros [H1 H2]. destruct (IH _ H2) as [H3 H4].
    split; [split; assumption|]. rewrite schedule_cons. exact H4.
Qed.

Lemma serialized_app_opt (track : GoalType) acts1 acts2 st :
  (track = monthly -> serialized (acts1 ++ acts2) st) ->
  (track = monthly -> serialized acts1 st) /\
  (track = monthly -> serialized acts2 (schedule acts1 st)).
Proof.
  intros H. split; intros Ht; apply (serialized_app acts1 acts2 st (H Ht)).
Qed.

Lemma schedule_effect (track : GoalType) (key : string) (acts : list Action) :
  forall st,
  pendingOk track key st ->
  (track = monthly -> serialized acts st) ->
  (forall i, In (Start i) acts ->
     periodKey (inv_collaborators i) track (inv_now i) = key) ->
  let st' := schedule acts st in
  pendingOk track key st' /\
  exists l n,
    log (fst st') = log (fst st) ++ l /\ trackEvents track l n /\
    (storage (fst st) !! markerKey track = Some (Raw key) ->
     n = 0%nat /\ (track = daily -> noClear l)) /\
    ((n = 1%nat /\ strictEq (storage (fst st) !! markerKey track) key = false /\
      storage (fst st') !! markerKey track = Some (Raw key)) \/
     (n = 0%nat /\
      storage (fst st') !! markerKey track = storage (fst st) !! markerKey track)) /\
    (strictEq (storage (fst st) !! markerKey track) key = false ->
     (exists i, In (Start i) acts /\ readyFor track i) \/
     (exists p, In p (snd st) /\ readyPending track p) ->
     n = 1%nat \/ exists p, In p (snd st') /\ readyPending track p).
Proof.
  induction acts as [|a acts IH]; intros st Hok Hser Hkeys; cbv zeta.
  - cbn [schedule fold_left]. split; [exact Hok|].
    exists [], 0%nat. rewrite app_nil_r.
    split; [reflexivity|]. split; [repeat split|].
    split; [intros _; split; [reflexivity|intros _ []]|].
    split; [right; split; reflexivity|].
    intros _ [(i & [] & _)|H]. right. exact H.
  - rewrite schedule_cons.
    destruct (act_effect track key a st Hok) as (Hok1 & l1 & n1 & Hl1 & Hev1 & Hnc1
                                                 & Hcase1 & Hready1).
    { intros i ->. split; [apply Hkeys; left; reflexivity|].
      intros Ht. destruct (Hser Ht) as [H _]. exact H. }
    destruct (IH (act a st) Hok1) as (Hok' & l2 & n2 & Hl2 & Hev2 & Hm2 & Hcase2
                                      & Hready2).
    { intros Ht. destruct (Hser Ht) as [_ H]. exact H. }
    { intros i Hi. apply Hkeys. right. exact Hi. }
    split; [exact Hok'|].
    exists (l1 ++ l2), (n1 + n2)%nat.
    split; [rewrite Hl2, Hl1, app_assoc; reflexivity|].
    split; [apply trackEvents_app; assumption|].
    split.
    { intros Hm.
      destruct Hcase1 as [(_ & Hk & _)|(-> & Hsto)].
      - rewrite Hm, strictEq_key in Hk. discriminate Hk.
      - rewrite Hsto in Hm2. destruct (Hm2 Hm) as [-> Hnc2].
        split; [reflexivity|]. intros Ht. apply noClear_app; auto. }
    split.
    { destruct Hcase1 as [(-> & Hk & Hsto)|(-> & Hsto)].
      - destruct (Hm2 Hsto) as [-> _]. left.
        split; [reflexivity|]. split; [exact Hk|].
        destruct Hcase2 as [(H & _)|(_ & H)]; [discriminate H|].
        rewrite H. exact Hsto.
      - rewrite Hsto in Hcase2. exact Hcase2. }
    intros Hk Hr.
    destruct Hcase1 as [(-> & _ & Hsto)|(-> & Hsto)].
    + destruct (Hm2 Hsto) as [-> _]. left. reflexivity.
    + destruct (Hready1 Hk eq_refl) as [R1 R2].
      rewrite Hsto in Hready2. cbn [Nat.add].
      apply (Hready2 Hk).
      destruct Hr as [(i & [->|Hi] & Hri)|(p & Hp & Hrp)].
      * right. apply (R1 i eq_refl Hri).
      * left. exists i. auto.
      * right. exists p. auto.
Qed.

(** C2, as amended.  Take invocations of [checkGoalAchievements] within
    the same calendar day (for the daily track) or the same month (for
    the monthly track), started and resumed in any order on the same
    cache; for the monthly track, no invocation starts while another
    awaits the answer to its daily notification.  Whatever the states
    and whatever the Notifier answers, the Notifier is invoked for the
    track at most once, [lastCelebration] is set for it at most once and
    its marker is written at most once.  They happen exactly once, and
    the marker ends equal to the key of the period, when the marker was
    not that key at first and some invocation finds both Progress
    records, the Progress of the track achieved and its goal set, and is
    not stopped before the block of the track (nothing stops the daily
    block; the monthly block is not reached when the daily notification
    is rejected), provided, for the monthly track, that no invocation is
    left awaiting its daily notification.  From the moment the marker is
    the key of the period, nothing more is done for the track and the
    marker stays; on the daily track [lastCelebration] is not cleared
    either. *)
Theorem checkGoalAchievements_once_per_period
  (track : GoalType) (c0 : Collaborators) (t0 : Z)
  (acts : list Action) (s0 : GoalState) (ls : Storage) :
  (forall i, In (Start i) acts ->
     LocalTZA (inv_collaborators i) = LocalTZA c0 /\
     samePeriod track (LocalTZA c0) (inv_now i) t0) ->
  (track = monthly -> serialized acts (fresh s0 ls)) ->
  let st := schedule acts (fresh s0 ls) in
  let key := periodKey c0 track t0 in
  ((countIn (isNotify track) (fst st) <= 1)%nat /\
   (countIn (isCelebration track) (fst st) <= 1)%nat /\
   (countIn (isMarkerWrite track) (fst st) <= 1)%nat) /\
  (strictEq (ls !! markerKey track) key = false ->
   (exists i, In (Start i) acts /\ hasProgress i /\ achievedIn track i /\
              unhindered track i) ->
   (track = monthly -> existsb awaitsDaily (snd st) = false) ->
   countIn (isNotify track) (fst st) = 1%nat /\
   countIn (isCelebration track) (fst st) = 1%nat /\
   countIn (isMarkerWrite track) (fst st) = 1%nat /\
   storage (fst st) !! markerKey track = Some (Raw key)) /\
  (forall before after,
      acts = before ++ after ->
      storage (fst (schedule before (fresh s0 ls))) !! markerKey track
      = Some (Raw key) ->
      exists l,
        log (fst st) = log (fst (schedule before (fresh s0 ls))) ++ l /\
        count (isNotify track) l = 0%nat /\
        count (isCelebration track) l = 0%nat /\
        count (isMarkerWrite track) l = 0%nat /\
        (track = daily -> ~ In (EvDispatch CLEAR_LAST_CELEBRATION) l) /\
        storage (fst st) !! markerKey track = Some (Raw key)).
Proof.
  intros Hacts Hser st key. subst st key.
  set (key := periodKey c0 track t0).
  assert (Hk : forall i, In (Start i) acts ->
             periodKey (inv_collaborators i) track (inv_now i) = key).
  { intros i Hi. destruct (Hacts i Hi) as [Htz Hp].
    apply samePeriod_key; assumption. }
  assert (Hok : pendingOk track key (fresh s0 ls)).
  { intros _. cbn. split; [lia|]. intros i mp lm []. }
  destruct (schedule_effect track key acts (fresh s0 ls) Hok Hser Hk)
    as (_ & l & n & Hl & (E1 & E2 & E3) & _ & Hcase & Hready).
  cbn [fresh fst snd log storage app] in Hl, Hcase, Hready.
  assert (Hn : countIn (isNotify track) (fst (schedule acts (fresh s0 ls))) = n /\
               countIn (isCelebration track) (fst (schedule acts (fresh s0 ls))) = n /\
               countIn (isMarkerWrite track) (fst (schedule acts (fresh s0 ls))) = n).
  { unfold countIn. rewrite Hl. repeat split; assumption. }
  destruct Hn as (N1 & N2 & N3).
  split; [|split].
  - rewrite N1, N2, N3.
    destruct Hcase as [(-> & _)|(-> & _)]; repeat split; lia.
  - intros Hm Hex Hdone. rewrite N1, N2, N3.
    destruct (Hready Hm) as [->|(p & Hp & Ht & i & mp & lm & -> & _)].
    + left. destruct Hex as (i & Hi & Hr). exists i. split; [exact Hi|exact Hr].
    + destruct Hcase as [(_ & _ & Hsto)|(H & _)]; [|discriminate H].
      repeat split; try reflexivity. exact Hsto.
    + specialize (Hdone Ht). apply nDaily_existsb in Hdone.
      pose proof (nDaily_In _ _ Hp eq_refl). lia.
  - intros before after -> Hm.
    rewrite schedule_app.
    destruct (serialized_app_opt track before after (fresh s0 ls) Hser) as [S1 S2].
    destruct (schedule_effect track key before (fresh s0 ls) Hok S1)
      as (Hok1 & _).
    { intros i Hi. apply Hk. apply in_app_iff. left. exact Hi. }
    destruct (schedule_effect track key after _ Hok1 S2)
      as (_ & l2 & n2 & Hl2 & (F1 & F2 & F3) & Hm2 & Hcase2 & _).
    { intros i Hi. apply Hk. apply in_app_iff. right. exact Hi. }
    destruct (Hm2 Hm) as [-> Hnc].
    exists l2. split; [exact Hl2|]. split; [exact F1|]. split; [exact F2|].
    split; [exact F3|]. split; [exact Hnc|].
    destruct Hcase2 as [(H & _)|(_ & H)]; [discriminate H|].
    rewrite H. exact Hm.
Qed.

(** * The markers and the Notifier *)

Lemma periodKey_samePeriod (track : GoalType) (c : Collaborators) (t t0 : Z) :
  periodKey c track t = periodKey c track t0
  <-> samePeriod track (LocalTZA c) t t0.
Proof.
  split; [|apply samePeriod_key; reflexivity].
  destruct track; cbn [periodKey samePeriod].
  - unfold toDateString, onSameDay. apply DateString_inj.
  - unfold thisMonthKey, inSameMonth. intros H.
    apply monthKey_inj in H; try apply MonthFromTime_range. exact H.
Qed.

Lemma In_blockEvents_setItem (c : Collaborators) (track : GoalType) (k : string)
  (p : GoalProgress) (now : Z) (r : BlockResult) (key : string) (v : StoredValue) :
  In (EvSetItem key v) (blockEvents track k p now r) ->
  key = markerKey track /\ v = Raw k.
Proof.
  destruct r as [| |g a]; cbn [blockEvents In]; [intros []|intros []|].
  intros [E|[E|[E|[]]]]; try discriminate E.
  injection E as <- <-. split; reflexivity.
Qed.

(** C4, as amended.  The marker that the evaluator stores for a track is
    a period-identity string: for the daily track the text of
    [toDateString], weekday, month name, two-digit day and year ("Sat Jun
    01 2024" on 1 June 2024); for the monthly track the year, a dash and
    the month counted from 0, not padded ("2024-5" in June 2024).  Two
    instants have the same daily marker exactly when they are on the same
    local calendar day, and the same monthly marker exactly when they are
    in the same local calendar month. *)
Theorem checkGoalAchievements_markers
  (c : Collaborators) (now : Z) (s : GoalState) (ls : Storage) :
  let tz := LocalTZA c in
  let w := fst (run (checkGoalAchievements c now s) s ls) in
  (forall key v,
      In (EvSetItem key v) (log w) ->
      (key = "lastDailyCelebration" /\ v = Raw (toDateString tz now)) \/
      (key = "lastMonthlyCelebration" /\ v = Raw (thisMonthKey c now))) /\
  (forall t, toDateString tz t = toDateString tz now <-> onSameDay tz t now) /\
  (forall t, thisMonthKey c t = thisMonthKey c now <-> inSameMonth tz t now) /\
  (getFullYear tz now = 2024 -> getMonth tz now = 5 -> getDate tz now = 1 ->
   toDateString tz now = "Sat Jun 01 2024" /\ thisMonthKey c now = "2024-5").
Proof.
  intros tz w. subst tz w. split; [|split; [|split]].
  - intros key v.
    destruct (dailyProgress s) as [dp|] eqn:Hd;
      [destruct (monthlyProgress s) as [mp|] eqn:Hm|].
    + rewrite (checkGoalAchievements_run c now s ls dp mp Hd Hm).
      cbn [fst log]. unfold checkLog. rewrite !in_app_iff.
      intros [H|[H|[H|H]]].
      * cbn in H. repeat (destruct H as [H|H]; [discriminate H|]). destruct H.
      * destruct (staleDaily c now ls); cbn in H;
          repeat (destruct H as [H|H]; [discriminate H|]); destruct H.
      * left. apply (In_blockEvents_setItem c) in H. exact H.
      * right. apply (In_blockEvents_setItem c) in H. exact H.
    + rewrite check_call_guard by (right; exact Hm). intros [].
    + rewrite check_call_guard by (left; exact Hd). intros [].
  - intros t. apply (periodKey_samePeriod daily c t now).
  - intros t. apply (periodKey_samePeriod monthly c t now).
  - intros Hy Hm Hd. split.
    + unfold toDateString, DateString. cbv zeta.
      change (YearFromTime (LocalTime (LocalTZA c) now))
        with (getFullYear (LocalTZA c) now).
      change (MonthFromTime (LocalTime (LocalTZA c) now))
        with (getMonth (LocalTZA c) now).
      change (DateFromTime (LocalTime (LocalTZA c) now))
        with (getDate (LocalTZA c) now).
      unfold WeekDay. rewrite <- (now_Day (LocalTZA c) now), Hy, Hm, Hd.
      vm_compute. reflexivity.
    + unfold thisMonthKey. rewrite Hy, Hm. vm_compute. reflexivity.
Qed.

(** C5, as amended.  In the reconciler a failure of one track never
    aborts the other: whatever [createGoal] answers, [loadGoals] returns
    normally, and it sets both tracks unless it reports a failure, which
    it does exactly when a backup it has read from the cache is [null],
    and so whatever [createGoal] would answer.  In the evaluator, when
    the Notifier
    rejects the daily notification, the daily marker and
    [lastCelebration] stay as written, nothing is rolled back, but the
    invocation ends there: the monthly block is not executed, so the
    monthly marker is left as it was and the Notifier is not invoked for
    the monthly track.  When the Notifier accepts, the monthly block is
    executed in the same invocation. *)
Theorem failure_of_one_track
  (c : Collaborators) (now : Z) (s : GoalState) (ls : Storage) :
  (forall u store,
      isAuthenticated c = true -> user c = Some u ->
      store_id u = Some store -> store <> "" ->
      snd (run (loadGoals c now) s ls) = Returned tt /\
      (failed (fst (run (loadGoals c now) s ls))
       <-> aborts c store ls = true) /\
      (~ failed (fst (run (loadGoals c now) s ls)) ->
       In (EvDispatch (SET_DAILY_GOAL
                         (resolvedDaily c now (candidates c store ls))))
          (log (fst (run (loadGoals c now) s ls))) /\
       In (EvDispatch (SET_MONTHLY_GOAL
                         (resolvedMonthly c store now (candidates c store ls))))
          (log (fst (run (loadGoals c now) s ls))))) /\
  (forall dp mp g,
      dailyProgress s = Some dp -> monthlyProgress s = Some mp ->
      dailyGoal s = Some g -> is_achieved dp = true ->
      strictEq (ls !! "lastDailyCelebration") (toDateString (LocalTZA c) now)
      = false ->
      let w := fst (run (checkGoalAchievements c now s) s ls) in
      (showNotification c daily_goal_achievement = false ->
       snd (run (checkGoalAchievements c now s) s ls) = Threw /\
       storage w !! "lastDailyCelebration"
       = Some (Raw (toDateString (LocalTZA c) now)) /\
       lastCelebration (state w) = Some (celebrationOf daily g dp now) /\
       quietFor monthly w /\
       storage w !! "lastMonthlyCelebration" = ls !! "lastMonthlyCelebration") /\
      (showNotification c daily_goal_achievement = true ->
       achievedIn monthly
         {| inv_collaborators := c; inv_now := now; inv_state := s |} ->
       strictEq (ls !! "lastMonthlyCelebration") (thisMonthKey c now) = false ->
       countIn (isNotify monthly) w = 1%nat /\
       storage w !! "lastMonthlyCelebration" = Some (Raw (thisMonthKey c now)))).
Proof.
  split.
  - intros u store Ha Hu Hs Hne.
    split; [|split].
    + destruct (loadGoals_cases c now s ls u store Ha Hu Hs Hne)
        as [[_ ->]|[_ ->]]; reflexivity.
    + apply (loadGoals_failed_iff c now s ls u store Ha Hu Hs Hne).
    + intros Hok.
      rewrite (loadGoals_not_failed c now s ls u store Ha Hu Hs Hne Hok).
      cbn [fst log].
      split; apply loadGoalsLog_dispatch; auto.
  - intros dp mp g Hd Hm Hg Hach Hk w. subst w.
    pose proof (check_call c monthly now s ls dp mp Hd Hm) as M. cbv zeta in M.
    rewrite (checkGoalAchievements_run c now s ls dp mp Hd Hm) in *.
    cbn [fst snd state storage] in *.
    assert (Hb : dailyBlock c now s ls dp
                 = Celebrated g (showNotification c daily_goal_achievement)).
    { unfold dailyBlock, blockResult, due. rewrite Hach, Hk, Hg. reflexivity. }
    split.
    + intros Hrej. rewrite Hrej in Hb.
      assert (Hmb : monthlyBlock c now s ls dp mp = Skipped).
      { unfold monthlyBlock. rewrite Hb. reflexivity. }
      cbn [blockOf markerKey] in M. rewrite Hmb in M. cbn [celebrated] in M.
      unfold checkOutcome, checkStorage, checkState. rewrite Hb, Hmb.
      cbn [blockThrows negb orb blockStorage blockState markerKey].
      split; [reflexivity|].
      split; [apply lookup_insert_eq|].
      split; [destruct (staleDaily c now ls); destruct s; reflexivity|].
      split; [split; [|split]; apply M|].
      apply lookup_insert_ne. discriminate.
    + intros Hacc Ha Hkm.
      assert (Hcel : celebrated (blockOf c monthly now s ls dp mp) = true).
      { apply celebrated_when_ready; [exact Hd|exact Hm|exact Hkm|exact Ha|].
        right. cbn. split; [congruence|exact Hacc]. }
      rewrite Hcel in M. cbn [periodKey markerKey] in M.
      split; apply M.
Qed.

(** * Examples *)

Ltac find_in_log :=
  repeat match goal with
         | |- _ \/ _ => first [left; reflexivity | right]
         end.

Lemma failed_iff (w : World) :
  failed w <-> existsb isSetError (log w) = true.
Proof.
  unfold failed. rewrite existsb_exists. split.
  - intros [msg H]. eexists. split; [exact H|reflexivity].
  - intros (e & H & He). destruct e as [| | | | | | |a]; try discriminate He.
    destruct a; try discriminate He. eexists. exact H.
Qed.


(** C1 as stated fails: the Goal Store answers with an empty list, and
    the reconciler reads the backup and resolves the monthly track to the
    goal found there. *)
Lemma loadGoals_reads_cache_after_empty_list :
  let c := session owner (Some []) creates noTotals accepts in
  let ls : Storage := <["goal_monthly_S1" := Json juneGoal]> ∅ in
  let w := fst (run (loadGoals c june1_morning) initialState ls) in
  getGoals c "S1" = Some [] /\
  In (EvGetItem "goal_monthly_S1") (log w) /\
  monthlyGoal (state w) = Some juneGoal.
Proof.
  cbv zeta. split; [reflexivity|]. split.
  - vm_compute. right. right. right. left. reflexivity.
  - vm_compute. reflexivity.
Qed.

Lemma loadGoals_cache_fallback_witness :
  let c := session owner (Some [juneGoal]) creates noTotals accepts in
  let w := fst (run (loadGoals c june1_morning) initialState ∅) in
  ~ (exists key, In (EvGetItem key) (log w)) /\
  monthlyGoal (state w) = Some juneGoal.
Proof.
  cbv zeta.
  pose proof (loadGoals_cache_fallback
                (session owner (Some [juneGoal]) creates noTotals accepts)
                june1_morning initialState ∅ owner "S1"
                eq_refl eq_refl eq_refl ltac:(discriminate)) as H.
  cbv zeta in H. destruct H as (H1 & H2 & _). split.
  - intros E. apply H1 in E. destruct E as [E|E]; discriminate E.
  - apply (H2 juneGoal [] eq_refl). vm_compute. reflexivity.
Defined.



(** C9 as stated fails.  On the morning of 1 June the marker is
    yesterday's and the daily Progress holds the 500 of 31 May, but the
    daily goal is null: the guard clears the celebration and removes the
    marker, and leaves the 500. *)
Lemma resetDailyGoalsForNewDay_keeps_progress_without_goal :
  let s := fst morningOfJune1 in
  let ls := snd morningOfJune1 in
  let w := fst (run (resetDailyGoalsForNewDay juneShop june1_morning s) s ls) in
  ls !! "lastDailyCelebration" = Some (Raw "Fri May 31 2024") /\
  toDateString istanbul june1_morning = "Sat Jun 01 2024" /\
  dailyGoal s = None /\
  lastCelebration (state w) = None /\
  storage w !! "lastDailyCelebration" = None /\
  dailyProgress (state w) = dailyProgress s /\
  exists p, dailyProgress (state w) = Some p /\
            current_amount p = 500%Q /\ is_achieved p = true.
Proof.
  cbv zeta. repeat split; try (vm_compute; reflexivity).
  eexists. split; [vm_compute; reflexivity|]. split; reflexivity.
Qed.

Lemma resetDailyGoalsForNewDay_effect_witness :
  let c := session owner None creates noTotals accepts in
  let ls : Storage := <["lastDailyCelebration" := Raw "Fri May 31 2024"]> ∅ in
  let w := fst (run (resetDailyGoalsForNewDay c june1_morning juneState)
                  juneState ls) in
  lastCelebration (state w) = None /\
  storage w = delete "lastDailyCelebration" ls /\
  exists p, dailyProgress (state w) = Some p /\ current_amount p = 0%Q.
Proof.
  cbv zeta.
  destruct (resetDailyGoalsForNewDay_effect
              (session owner None creates noTotals accepts)
              june1_morning juneState
              (<["lastDailyCelebration" := Raw "Fri May 31 2024"]> ∅))
    as [H _].
  specialize (H "Fri May 31 2024" ltac:(vm_compute; reflexivity)
                ltac:(discriminate) ltac:(vm_compute; discriminate)).
  destruct H as (H1 & H2 & H3 & _).
  split; [exact H1|]. split; [exact H2|].
  destruct (H3 june1Goal eq_refl) as (p & Hp & _ & Hc & _).
  exists p. split; assumption.
Defined.

(** C10 as stated fails: a signed-in user without a store scope does not
    stop [updateGoalProgress]; with both goals set it queries the Sales
    Metrics Source and stores the Progress. *)
Lemma updateGoalProgress_runs_without_store_scope :
  let c := session ownerWithoutStore None creates goodTotals accepts in
  let w := fst (run (updateGoalProgress c june1_morning juneState) juneState ∅) in
  user c = Some ownerWithoutStore /\
  store_id ownerWithoutStore = None /\
  In (EvGetDashboardAnalytics None today) (log w) /\
  dailyProgress (state w) <> dailyProgress juneState.
Proof.
  cbv zeta. split; [reflexivity|]. split; [reflexivity|]. split.
  - vm_compute. right. left. reflexivity.
  - vm_compute. discriminate.
Qed.

Lemma updateGoalProgress_guard_witness :
  dailyGoal (fst morningOfJune1) = None /\
  run (updateGoalProgress juneShop june1_morning (fst morningOfJune1))
    (fst morningOfJune1) (snd morningOfJune1)
  = ({| state := fst morningOfJune1; storage := snd morningOfJune1; log := [] |},
     Returned tt).
Proof.
  assert (H : dailyGoal (fst morningOfJune1) = None) by (vm_compute; reflexivity).
  split; [exact H|].
  apply (updateGoalProgress_guard juneShop june1_morning
           (fst morningOfJune1) (snd morningOfJune1)).
  right. right. left. exact H.
Defined.

(** C4 as stated fails: on 1 June 2024 the markers stored are
    "Sat Jun 01 2024" and "2024-5", not "2024-06-01" and "2024-06". *)
Lemma checkGoalAchievements_marker_format :
  let c := session owner None creates noTotals accepts in
  let w := fst (run (checkGoalAchievements c june1_morning achievedState)
                  achievedState ∅) in
  (getFullYear istanbul june1_morning, getMonth istanbul june1_morning,
   getDate istanbul june1_morning) = (2024, 5, 1) /\
  storage w !! "lastDailyCelebration" = Some (Raw "Sat Jun 01 2024") /\
  storage w !! "lastDailyCelebration" <> Some (Raw "2024-06-01") /\
  storage w !! "lastMonthlyCelebration" = Some (Raw "2024-5") /\
  storage w !! "lastMonthlyCelebration" <> Some (Raw "2024-06").
Proof.
  cbv zeta. repeat split; try (vm_compute; reflexivity);
    vm_compute; discriminate.
Qed.

Lemma checkGoalAchievements_markers_witness :
  toDateString istanbul june1_morning = "Sat Jun 01 2024" /\
  thisMonthKey (session owner None creates noTotals accepts) june1_morning
  = "2024-5" /\
  (toDateString istanbul june1 = toDateString istanbul june1_morning
   <-> onSameDay istanbul june1 june1_morning).
Proof.
  pose proof (checkGoalAchievements_markers
                (session owner None creates noTotals accepts)
                june1_morning achievedState ∅) as H.
  cbv zeta in H. destruct H as (_ & Hd & _ & Hf).
  destruct Hf as [H1 H2]; try (vm_compute; reflexivity).
  split; [exact H1|]. split; [exact H2|]. apply (Hd june1).
Defined.

(** C5 as stated fails: both tracks are achieved and not yet celebrated;
    the Notifier rejects the daily notification, and the monthly check of
    that invocation is not executed: the monthly marker is not written and
    the Notifier is not invoked for the monthly track. *)
Lemma checkGoalAchievements_notifier_failure_skips_monthly :
  let c := session owner None creates noTotals rejectsDaily in
  let r := run (checkGoalAchievements c june1_morning achievedState)
             achievedState ∅ in
  achievedIn monthly (invocation rejectsDaily june1_morning achievedState) /\
  snd r = Threw /\
  storage (fst r) !! "lastDailyCelebration" = Some (Raw "Sat Jun 01 2024") /\
  storage (fst r) !! "lastMonthlyCelebration" = None /\
  countIn (isNotify monthly) (fst r) = 0%nat /\
  countIn (isCelebration monthly) (fst r) = 0%nat.
Proof.
  cbv zeta. split.
  - eexists. split; [reflexivity|]. split; [reflexivity|discriminate].
  - repeat split; vm_compute; reflexivity.
Qed.

Lemma failure_of_one_track_witness :
  let c := session owner None creates noTotals rejectsDaily in
  let r := run (checkGoalAchievements c june1_morning achievedState)
             achievedState ∅ in
  snd r = Threw /\
  storage (fst r) !! "lastDailyCelebration"
  = Some (Raw (toDateString istanbul june1_morning)) /\
  quietFor monthly (fst r).
Proof.
  cbv zeta.
  destruct (failure_of_one_track
              (session owner None creates noTotals rejectsDaily)
              june1_morning achievedState ∅) as [_ H].
  specialize (H (achievedProgress june1Goal 3334) (achievedProgress juneGoal 100000)
                june1Goal eq_refl eq_refl eq_refl eq_refl
                ltac:(vm_compute; reflexivity)).
  cbv zeta in H. destruct H as [H _].
  destruct (H eq_refl) as (H1 & H2 & _ & H4 & _).
  split; [exact H1|]. split; [exact H2|exact H4].
Defined.

(** C2 as stated fails.  One invocation on 1 June in which both tracks
    are achieved and both goals are set, on a cache without markers; the
    Notifier rejects the daily notification.  The invocation runs to its
    end, which is what [checkGoalAchievements] does when nothing comes
    in between: the Notifier is invoked for the daily track, and neither
    is the Notifier invoked for the monthly track nor [lastCelebration]
    set for it, although the monthly Progress is achieved. *)
Lemma checkGoalAchievements_not_always_once :
  let i := invocation rejectsDaily june1_morning achievedState in
  let st := schedule [Start i; Resume 0] (fresh achievedState ∅) in
  achievedIn daily i /\ achievedIn monthly i /\
  snd st = [] /\
  fst st = fst (run (checkGoalAchievements (inv_collaborators i) (inv_now i)
                       achievedState) achievedState ∅) /\
  countIn (isNotify daily) (fst st) = 1%nat /\
  countIn (isNotify monthly) (fst st) = 0%nat /\
  countIn (isCelebration monthly) (fst st) = 0%nat.
Proof.
  cbv zeta. split; [|split].
  - eexists. split; [reflexivity|]. split; [reflexivity|discriminate].
  - eexists. split; [reflexivity|]. split; [reflexivity|discriminate].
  - repeat split; vm_compute; reflexivity.
Qed.

(** Two invocations on 1 June, both tracks achieved: the first is
    resumed after its daily notification and celebrates the month; the
    second starts while the first awaits the answer to its monthly
    notification, and finds both markers set. *)
Lemma checkGoalAchievements_once_per_period_witness :
  let first := invocation accepts june1 achievedState in
  let second := invocation accepts june1_morning achievedState in
  let acts := [Start first; Resume 0; Start second; Resume 0] in
  let st := schedule acts (fresh achievedState ∅) in
  serialized acts (fresh achievedState ∅) /\
  countIn (isNotify monthly) (fst st) = 1%nat /\
  countIn (isCelebration monthly) (fst st) = 1%nat /\
  countIn (isMarkerWrite monthly) (fst st) = 1%nat /\
  storage (fst st) !! "lastMonthlyCelebration" = Some (Raw "2024-5").
Proof.
  cbv zeta.
  assert (S : serialized [Start (invocation accepts june1 achievedState);
                          Resume 0;
                          Start (invocation accepts june1_morning achievedState);
                          Resume 0] (fresh achievedState ∅))
    by (vm_compute; repeat split).
  split; [exact S|].
  pose proof (checkGoalAchievements_once_per_period monthly
                (session owner None creates noTotals accepts) june1
                [Start (invocation accepts june1 achievedState);
                 Resume 0;
                 Start (invocation accepts june1_morning achievedState);
                 Resume 0] achievedState ∅) as H.
  cbv zeta in H.
  destruct H as (_ & H & _).
  - intros i Hi. cbn [In] in Hi.
    destruct Hi as [Hi|[Hi|[Hi|[Hi|[]]]]]; try discriminate Hi;
      injection Hi as <-; (split; [reflexivity|]);
      split; vm_compute; reflexivity.
  - intros _. exact S.
  - destruct H as (H1 & H2 & H3 & H4).
    + vm_compute. reflexivity.
    + exists (invocation accepts june1 achievedState).
      split; [left; reflexivity|]. split; [|split].
      * eexists. eexists. split; reflexivity.
      * eexists. split; [reflexivity|]. split; [reflexivity|discriminate].
      * right. split; [discriminate|reflexivity].
    + intros _. vm_compute. reflexivity.
    + split; [exact H1|]. split; [exact H2|]. split; [exact H3|].
      refine (eq_trans H4 _). vm_compute. reflexivity.
Defined.


(** New York in 2024.  On 15 March at noon (four hours behind UTC) the
    goal of February, which ends on 2024-03-01T04:59:59.999Z, is not
    valid and the goal of March is selected.  On 1 March the goal of
    February is carried over, for a window that ends on
    2024-04-01T03:59:59.999Z, an hour less than 31 days after its start.
    On 1 December (five hours behind UTC) the goal of November, which
    starts on 2024-11-01T04:00:00Z, is a goal of the previous month and
    is carried over. *)
Lemma loadGoals_in_new_york :
  let february := newYorkGoal "February" 1 29 in
  let march := newYorkGoal "March" 2 31 in
  let november := newYorkGoal "November" 10 30 in
  let log_of listed now :=
    log (fst (run (loadGoals (newYorkShop listed) now) initialState ∅)) in
  (period_end february = Some 1709269199999 /\
   In (EvDispatch (SET_MONTHLY_GOAL (Some march)))
      (log_of [february; march] (newDate newYork2024 2024 2 15 12 0 0 0))) /\
  (exists req,
      In (EvCreateGoal req)
         (log_of [february] (newDate newYork2024 2024 2 1 9 0 0 0)) /\
      req_goal_type req = monthly /\
      req_period_start req = 1709269200000 /\
      req_period_end req = 1711943999999) /\
  (period_start november = Some 1730433600000 /\
   exists req,
      In (EvCreateGoal req)
         (log_of [november] (newDate newYork2024 2024 11 1 9 0 0 0)) /\
      req_goal_type req = monthly /\
      req_period_start req = 1733029200000 /\
      req_period_end req = 1735707599999).
Proof.
  cbv zeta. split; [|split].
  - split; [vm_compute; reflexivity|vm_compute; find_in_log].
  - eexists. split; [vm_compute; find_in_log|].
    repeat split; reflexivity.
  - split; [vm_compute; reflexivity|].
    eexists. split; [vm_compute; find_in_log|].
    repeat split; reflexivity.
Qed.

(** C7 as stated fails.  On 1 July 2024 the Goal Store lists a monthly
    goal for July of 17451448556060704 and no daily goal; 31 days are
    left.  The quotient is 562949953421313.03..., the double nearest to
    it is 562949953421313, and this is the daily target the reconciler
    asks for: the ceiling of the quotient is 562949953421314. *)
Lemma loadGoals_daily_target_rounded :
  let c := session owner (Some [julyGoal]) creates noTotals accepts in
  let w := fst (run (loadGoals c july1_morning) initialState ∅) in
  In (EvDispatch (SET_DAILY_GOAL None)) (log w) /\
  In (EvDispatch (SET_MONTHLY_GOAL (Some julyGoal))) (log w) /\
  DaysInMonth 2024 6 - getDate istanbul july1_morning + 1 = 31 /\
  Qceiling (target_amount julyGoal / inject_Z 31) = 562949953421314 /\
  (exists req, In (EvCreateGoal req) (log w) /\ req_goal_type req = daily) /\
  (forall req, In (EvCreateGoal req) (log w) -> req_goal_type req = daily ->
     req_target_amount req = inject_Z 562949953421313).
Proof.
  cbv zeta.
  split; [vm_compute; find_in_log|].
  split; [vm_compute; find_in_log|].
  split; [vm_compute; reflexivity|].
  split; [vm_compute; reflexivity|].
  split.
  - eexists. split; [vm_compute; find_in_log|reflexivity].
  - intros req Hin Hty. vm_compute in Hin.
    repeat (destruct Hin as [Hin|Hin];
            [try discriminate Hin; injection Hin as <-; reflexivity|]).
    destruct Hin.
Qed.

(** The second half of that scenario: the monthly goal carried over for
    June gives a daily goal of ceil (100000 / 30) = 3334 for 1 June. *)
Lemma loadGoals_daily_derivation_witness :
  let c := session owner (Some [mayGoal]) creates noTotals accepts in
  let w := fst (run (loadGoals c june1) initialState ∅) in
  In (EvDispatch (SET_DAILY_GOAL None)) (log w) /\
  (exists m, In (EvDispatch (SET_MONTHLY_GOAL (Some m))) (log w) /\
             target_amount m = 100000%Q) /\
  exists req,
    In (EvCreateGoal req) (log w) /\ req_goal_type req = daily /\
    req_target_amount req = inject_Z 3334 /\
    (forall t, req_period_start req <= t <= req_period_end req
               <-> onSameDay istanbul t june1) /\
    (getHours istanbul (req_period_start req),
     getMinutes istanbul (req_period_start req),
     getSeconds istanbul (req_period_start req),
     getMilliseconds istanbul (req_period_start req)) = (0, 0, 0, 0).
Proof.
  cbv zeta.
  set (w := fst (run (loadGoals
                        (session owner (Some [mayGoal]) creates noTotals accepts)
                        june1) initialState ∅)).
  assert (Hd : In (EvDispatch (SET_DAILY_GOAL None)) (log w)).
  { vm_compute. do 4 right. left. reflexivity. }
  destruct (monthlyGoal (state w)) as [m|] eqn:Hm;
    [|vm_compute in Hm; discriminate Hm].
  assert (Ht : target_amount m = 100000%Q).
  { vm_compute in Hm. injection Hm as <-. reflexivity. }
  assert (Hdm : In (EvDispatch (SET_MONTHLY_GOAL (Some m))) (log w)).
  { vm_compute in Hm. injection Hm as <-.
    vm_compute. do 5 right. left. reflexivity. }
  split; [exact Hd|]. split; [exists m; split; [exact Hdm|exact Ht]|].
  destruct (loadGoals_daily_derivation
              (session owner (Some [mayGoal]) creates noTotals accepts)
              june1 initialState ∅ owner "S1" m
              eq_refl eq_refl eq_refl ltac:(discriminate)
              ltac:(vm_compute; discriminate)
              Hd Hdm)
    as (req & daysLeft & Hin & Hty & _ & _ & _ & _ & Hw & Hc & _ & Hex).
  exists req. split; [exact Hin|]. split; [exact Hty|].
  split; [|split; [exact Hw|apply Hc; reflexivity]].
  apply Hex; try (vm_compute; reflexivity). rewrite Ht. reflexivity.
Defined.


(** * Further properties of the engine *)

(** ** The reconciler *)

Section ReconcilerFacts.
Variable c : Collaborators.

Lemma backup_keys_differ (store : string) :
  "goal_daily_" +:+ store <> "goal_monthly_" +:+ store.
Proof. cbn. discriminate. Qed.

Lemma loadGoalsLog_nonempty (store : string) (now : Z) (ls : Storage) :
  loadGoalsLog c store now ls <> [].
Proof. unfold loadGoalsLog. cbn. discriminate. Qed.

Lemma abortedLog_nonempty (store : string) : abortedLog c store <> [].
Proof. unfold abortedLog. cbn. discriminate. Qed.

(** Without a signed-in user with a store scope, [loadGoals] returns at
    once. *)
Lemma loadGoals_skips (now : Z) (s : GoalState) (ls : Storage) :
  (isAuthenticated c = false \/ user c = None \/
   exists u, user c = Some u /\ (store_id u = None \/ store_id u = Some "")) ->
  run (loadGoals c now) s ls
  = ({| state := s; storage := ls; log := [] |}, Returned tt).
Proof.
  unfold loadGoals, run.
  intros [H|[H|(u & Hu & [H|H])]].
  - rewrite H. reflexivity.
  - rewrite H. destruct (isAuthenticated c); reflexivity.
  - rewrite Hu, H. destruct (isAuthenticated c); reflexivity.
  - rewrite Hu, H. destruct (isAuthenticated c); reflexivity.
Qed.

Lemma loadGoals_guards (now : Z) (s : GoalState) (ls : Storage) :
  (isAuthenticated c = false \/ user c = None \/
   exists u, user c = Some u /\ (store_id u = None \/ store_id u = Some "")) \/
  exists u store,
    isAuthenticated c = true /\ user c = Some u /\
    store_id u = Some store /\ store <> "".
Proof.
  destruct (isAuthenticated c) eqn:Ha; [|auto].
  destruct (user c) as [u|] eqn:Hu; [|auto].
  destruct (store_id u) as [store|] eqn:Hs.
  - destruct (String.eqb store "") eqn:He.
    + apply String.eqb_eq in He. subst. left. right. right. exists u. auto.
    + apply String.eqb_neq in He. right. exists u, store. auto.
  - left. right. right. exists u. auto.
Qed.

(** [loadGoals] does something if and only if a user is signed in and has
    a non-empty store scope: otherwise it returns at once, with no call to
    the Goal Store, no access to the cache and no dispatch. *)
Theorem loadGoals_guard (now : Z) (s : GoalState) (ls : Storage) :
  run (loadGoals c now) s ls
  = ({| state := s; storage := ls; log := [] |}, Returned tt)
  <-> (isAuthenticated c = false \/ user c = None \/
       exists u, user c = Some u /\ (store_id u = None \/ store_id u = Some "")).
Proof.
  split; [|apply loadGoals_skips].
  intros H. destruct (loadGoals_guards now s ls) as [G|(u & store & Ha & Hu & Hs & He)];
    [exact G|].
  destruct (loadGoals_cases c now s ls u store Ha Hu Hs He) as [[_ R]|[_ R]];
    rewrite R in H; apply (f_equal (fun r => log (fst r))) in H;
    cbn [fst log] in H.
  - destruct (loadGoalsLog_nonempty _ _ _ H).
  - destruct (abortedLog_nonempty _ H).
Qed.

Lemma dispatches_app (l1 l2 : list Event) :
  dispatches (l1 ++ l2) = dispatches l1 ++ dispatches l2.
Proof. apply flat_map_app. Qed.

Lemma dispatches_eventsOf {A} (f : A -> Event) (x : option A) :
  (forall a, dispatches [f a] = []) -> dispatches (eventsOf f x) = [].
Proof. intros H. destruct x as [a|]; [apply H|reflexivity]. Qed.

Lemma dispatches_backupReads (store : string) :
  dispatches (backupReads c store) = [].
Proof. unfold backupReads. destruct (readsBackup c store); reflexivity. Qed.

Lemma dispatches_loadGoalsLog (store : string) (now : Z) (ls : Storage) :
  dispatches (loadGoalsLog c store now ls)
  = [SET_LOADING true;
     SET_DAILY_GOAL (resolvedDaily c now (candidates c store ls));
     SET_MONTHLY_GOAL (resolvedMonthly c store now (candidates c store ls));
     SET_LOADING false].
Proof.
  unfold loadGoalsLog. cbv zeta.
  rewrite !dispatches_app, dispatches_backupReads.
  rewrite !dispatches_eventsOf by reflexivity. reflexivity.
Qed.

Lemma dispatches_abortedLog (store : string) :
  dispatches (abortedLog c store)
  = [SET_LOADING true; SET_ERROR (Some "Failed to load goals"); SET_LOADING false].
Proof.
  unfold abortedLog. rewrite !dispatches_app, dispatches_backupReads. reflexivity.
Qed.

(** A run of [loadGoals] that passes the guards returns normally
    whatever the collaborators answer; it sets [loading] first and
    resets it last.  In between it dispatches either the two goals and
    nothing else, and leaves [error] as it was; or, when it reports a
    failure, [SET_ERROR] with the message "Failed to load goals" and
    nothing else, and leaves the two goals and the cache as they
    were. *)
Theorem loadGoals_settles
  (now : Z) (s : GoalState) (ls : Storage) (u : User) (store : string) :
  isAuthenticated c = true -> user c = Some u ->
  store_id u = Some store -> store <> "" ->
  let r := run (loadGoals c now) s ls in
  snd r = Returned tt /\
  loading (state (fst r)) = false /\
  ((~ failed (fst r) /\
    dispatches (log (fst r))
    = [SET_LOADING true;
       SET_DAILY_GOAL (dailyGoal (state (fst r)));
       SET_MONTHLY_GOAL (monthlyGoal (state (fst r)));
       SET_LOADING false] /\
    error (state (fst r)) = error s)
   \/
   (failed (fst r) /\
    dispatches (log (fst r))
    = [SET_LOADING true; SET_ERROR (Some "Failed to load goals");
       SET_LOADING false] /\
    error (state (fst r)) = Some "Failed to load goals" /\
    dailyGoal (state (fst r)) = dailyGoal s /\
    monthlyGoal (state (fst r)) = monthlyGoal s /\
    storage (fst r) = ls)).
Proof.
  intros Ha Hu Hs Hne r. subst r.
  pose proof (loadGoals_failed_iff c now s ls u store Ha Hu Hs Hne) as F.
  destruct (loadGoals_cases c now s ls u store Ha Hu Hs Hne)
    as [[Hab R]|[Hab R]]; rewrite R in *; cbn [fst snd state storage log] in *.
  - split; [reflexivity|]. split; [reflexivity|]. left.
    split; [rewrite F, Hab; discriminate|].
    split; [apply dispatches_loadGoalsLog|reflexivity].
  - split; [reflexivity|]. split; [reflexivity|]. right.
    split; [apply F; exact Hab|].
    split; [apply dispatches_abortedLog|]. repeat split.
Qed.

Lemma saved_lookup_ne (key k : string) (g : option SalesGoal) (ls : Storage) :
  k <> key -> saved key g ls !! k = ls !! k.
Proof.
  intros H. destruct g; cbn; [|reflexivity].
  apply lookup_insert_ne. congruence.
Qed.

Lemma saved_lookup (key : string) (g : option SalesGoal) (ls : Storage) :
  saved key g ls !! key
  = match g with Some g => Some (Json g) | None => ls !! key end.
Proof. destruct g; cbn; [apply lookup_insert_eq|reflexivity]. Qed.

(** What [loadGoals] never touches, whoever is signed in: the two
    Progress records, [lastCelebration] and the two flags stay as they
    were, and so does [error] unless the run reports a failure; no key
    of the cache changes other than the two backups of the store of the
    signed-in user, so the backups of other stores and the markers of
    the celebrations stay; and it neither invokes the Notifier, nor
    queries the Sales Metrics Source, nor removes anything from the
    cache. *)
Theorem loadGoals_frame (now : Z) (s : GoalState) (ls : Storage) :
  let w := fst (run (loadGoals c now) s ls) in
  (dailyProgress (state w) = dailyProgress s /\
   monthlyProgress (state w) = monthlyProgress s /\
   lastCelebration (state w) = lastCelebration s /\
   celebratedToday (state w) = celebratedToday s /\
   celebratedThisMonth (state w) = celebratedThisMonth s) /\
  (~ failed w -> error (state w) = error s) /\
  (failed w -> error (state w) = Some "Failed to load goals") /\
  (forall key,
     (forall u store, user c = Some u -> store_id u = Some store ->
        key <> "goal_daily_" +:+ store /\ key <> "goal_monthly_" +:+ store) ->
     storage w !! key = ls !! key) /\
  (forall track, storage w !! markerKey track = ls !! markerKey track) /\
  (forall e, In e (log w) ->
     match e with
     | EvNotify _ | EvGetDashboardAnalytics _ _ | EvRemoveItem _ => False
     | _ => True
     end).
Proof.
  intros w. subst w.
  destruct (loadGoals_guards now s ls) as [G|(u & store & Ha & Hu & Hs & He)].
  - rewrite (loadGoals_skips now s ls G). cbn.
    split; [repeat split|]. split; [reflexivity|].
    split; [intros [msg []]|]. split; [reflexivity|]. split; [reflexivity|].
    intros e [].
  - pose proof (loadGoals_failed_iff c now s ls u store Ha Hu Hs He) as F.
    destruct (loadGoals_cases c now s ls u store Ha Hu Hs He)
      as [[Hab R]|[Hab R]]; rewrite R in *; cbn [fst state storage log] in *.
    + assert (Hk : forall key,
                 key <> "goal_daily_" +:+ store ->
                 key <> "goal_monthly_" +:+ store ->
                 loadGoalsStorage c store now ls !! key = ls !! key).
      { intros key Hd Hm. unfold loadGoalsStorage. cbv zeta.
        rewrite !saved_lookup_ne by assumption. reflexivity. }
      split; [repeat split|]. split; [reflexivity|].
      split; [intros Hf; apply F in Hf; congruence|]. split; [|split].
      * intros key Hkey. destruct (Hkey u store Hu Hs) as [Hd Hm].
        apply Hk; assumption.
      * intros track. apply Hk; destruct track; cbn; discriminate.
      * intros e. unfold loadGoalsLog. cbv zeta. cbn [app In].
        repeat progress (rewrite ?in_app_iff, ?in_eventsOf; cbn [In]).
        unfold backupReads. destruct (readsBackup c store); cbn [In];
        intros H;
        repeat match goal with
               | H : _ \/ _ |- _ => destruct H as [H|H]
               | H : exists _, _ /\ _ |- _ => destruct H as (? & _ & H)
               | H : False |- _ => destruct H
               end; subst e; exact I.
    + split; [repeat split|].
      split; [intros Hf; exfalso; apply Hf; apply F; exact Hab|].
      split; [reflexivity|]. split; [reflexivity|]. split; [reflexivity|].
      intros e. unfold abortedLog. cbn [app In]. rewrite in_app_iff. cbn [In].
      unfold backupReads. destruct (readsBackup c store); cbn [In];
      intros H;
      repeat match goal with
             | H : _ \/ _ |- _ => destruct H as [H|H]
             | H : False |- _ => destruct H
             end; subst e; exact I.
Qed.

Lemma loadGoalsStorage_lookup (store : string) (now : Z) (ls : Storage) :
  let cands := candidates c store ls in
  loadGoalsStorage c store now ls !! ("goal_daily_" +:+ store)
  = match resolvedDaily c now cands with
    | Some d => Some (Json d)
    | None => ls !! ("goal_daily_" +:+ store)
    end /\
  loadGoalsStorage c store now ls !! ("goal_monthly_" +:+ store)
  = match resolvedMonthly c store now cands with
    | Some m => Some (Json m)
    | None => ls !! ("goal_monthly_" +:+ store)
    end.
Proof.
  unfold loadGoalsStorage. cbv zeta. split.
  - rewrite saved_lookup_ne by (cbn; discriminate). apply saved_lookup.
  - rewrite saved_lookup.
    destruct (resolvedMonthly c store now (candidates c store ls)); [reflexivity|].
    apply saved_lookup_ne. cbn; discriminate.
Qed.

(** The backup of [loadGoals]: after a run, the cache holds under the
    backup key of each track the goal that the run resolved for it, that
    is, the goal it dispatched; for a track it resolved to no goal the
    backup is left as it was (an old backup is never removed).  A run
    that reports a failure resolves nothing and leaves the cache as it
    was. *)
Theorem loadGoals_backup
  (now : Z) (s : GoalState) (ls : Storage) (u : User) (store : string) :
  isAuthenticated c = true -> user c = Some u ->
  store_id u = Some store -> store <> "" ->
  let w := fst (run (loadGoals c now) s ls) in
  (forall d, In (EvDispatch (SET_DAILY_GOAL d)) (log w) ->
     storage w !! ("goal_daily_" +:+ store)
     = match d with
       | Some d => Some (Json d)
       | None => ls !! ("goal_daily_" +:+ store)
       end) /\
  (forall m, In (EvDispatch (SET_MONTHLY_GOAL m)) (log w) ->
     storage w !! ("goal_monthly_" +:+ store)
     = match m with
       | Some m => Some (Json m)
       | None => ls !! ("goal_monthly_" +:+ store)
       end) /\
  (failed w ->
   storage w = ls /\
   forall a, In (EvDispatch a) (log w) ->
     match a with
     | SET_DAILY_GOAL _ | SET_MONTHLY_GOAL _ => False
     | _ => True
     end).
Proof.
  intros Ha Hu Hs Hne w. subst w.
  pose proof (loadGoals_failed_iff c now s ls u store Ha Hu Hs Hne) as F.
  destruct (loadGoals_cases c now s ls u store Ha Hu Hs Hne)
    as [[Hab R]|[Hab R]]; rewrite R in *; cbn [fst state storage log] in *.
  - destruct (loadGoalsStorage_lookup store now ls) as [Ld Lm]. cbv zeta in Ld, Lm.
    split; [|split].
    + intros d H. apply loadGoalsLog_dispatch in H.
      destruct H as [H|[H|[H|H]]]; try discriminate H. injection H as ->.
      exact Ld.
    + intros m H. apply loadGoalsLog_dispatch in H.
      destruct H as [H|[H|[H|H]]]; try discriminate H. injection H as ->.
      exact Lm.
    + intros Hf. apply F in Hf. congruence.
  - split; [|split].
    + intros d H. apply abortedLog_dispatch in H.
      destruct H as [H|[H|H]]; discriminate H.
    + intros m H. apply abortedLog_dispatch in H.
      destruct H as [H|[H|H]]; discriminate H.
    + intros _. split; [reflexivity|]. intros a H.
      apply abortedLog_dispatch in H. destruct H as [->|[->| ->]]; exact I.
Qed.

Lemma count_cons (f : Event -> bool) (e : Event) (l : list Event) :
  length (filter f (e :: l))
  = ((if f e then 1 else 0) + length (filter f l))%nat.
Proof. rewrite filter_cons. destruct (f e); reflexivity. Qed.

Lemma count_nil (f : Event -> bool) : length (filter f (@nil Event)) = 0%nat.
Proof. reflexivity. Qed.

Lemma count_eventsOf {A} (f : Event -> bool) (g : A -> Event) (x : option A) :
  length (filter f (eventsOf g x))
  = match x with Some a => if f (g a) then 1%nat else 0%nat | None => 0%nat end.
Proof.
  destruct x as [a|]; cbn [eventsOf]; [|reflexivity].
  rewrite count_cons, count_nil. destruct (f (g a)); reflexivity.
Qed.

Lemma count_backupReads (f : Event -> bool) (store : string) :
  (forall key, f (EvGetItem key) = false) ->
  length (filter f (backupReads c store)) = 0%nat.
Proof.
  intros H. unfold backupReads. destruct (readsBackup c store); [|reflexivity].
  rewrite !count_cons, count_nil, !H. reflexivity.
Qed.

(** One run of [loadGoals] asks the Goal Store for the list of goals at
    most once, and once when it passes the guards; it asks for at most
    one creation on each track.  The daily goal it asks for in its last
    step is not kept: whatever the store answers, the run leaves
    [dailyGoal] null and the backup of the daily goal as it was. *)
Theorem loadGoals_requests (now : Z) (s : GoalState) (ls : Storage) :
  let w := fst (run (loadGoals c now) s ls) in
  (length (filter isGetGoals (log w)) <= 1)%nat /\
  (forall track, (length (filter (isCreateGoal track) (log w)) <= 1)%nat) /\
  (forall req, In (EvCreateGoal req) (log w) -> req_goal_type req = daily ->
     dailyGoal (state w) = None /\
     forall store, storage w !! ("goal_daily_" +:+ store)
                   = ls !! ("goal_daily_" +:+ store)).
Proof.
  intros w. subst w.
  destruct (loadGoals_guards now s ls) as [G|(u & store & Ha & Hu & Hs & He)].
  - rewrite (loadGoals_skips now s ls G). cbn.
    split; [lia|]. split; [intros _; lia|]. intros req [].
  - destruct (loadGoals_cases c now s ls u store Ha Hu Hs He)
      as [[Hab R]|[Hab R]]; rewrite R; cbn [fst state storage log].
    2:{ unfold abortedLog. split; [|split].
        - rewrite !filter_app, !length_app, !count_cons, !count_nil.
          rewrite count_backupReads by reflexivity. cbn. lia.
        - intros track.
          rewrite !filter_app, !length_app, !count_cons, !count_nil.
          rewrite count_backupReads by reflexivity. cbn. lia.
        - intros req. cbn [app In]. rewrite in_app_iff. cbn [In].
          unfold backupReads. destruct (readsBackup c store); cbn [In];
          intros H;
          repeat match goal with
                 | H : _ \/ _ |- _ => destruct H as [H|H]
                 | H : False |- _ => destruct H
                 end; discriminate H. }
    unfold loadGoalsLog, loadGoalsState, loadGoalsStorage. cbv zeta.
    cbn [dailyGoal]. set (cands := candidates c store ls).
    split; [|split].
    + rewrite !filter_app, !length_app, !count_eventsOf, !count_cons, !count_nil.
      rewrite count_backupReads by reflexivity. cbn [isGetGoals].
      repeat match goal with
             | |- context [match ?x with Some _ => _ | None => _ end] => destruct x
             end; cbn; lia.
    + intros track.
      rewrite !filter_app, !length_app, !count_eventsOf, !count_cons, !count_nil.
      rewrite count_backupReads by reflexivity. cbn [isCreateGoal].
      unfold derivedDailyRequest, resolvedMonthly, carryOverRequest.
      destruct (resolvedDaily c now cands) as [d|];
        destruct (find (isValidMonthly c now) cands) as [m|];
        destruct (getDate (LocalTZA c) now =? 1);
        destruct (find (isLastMonthly c now) cands) as [l|];
        cbn [option_map monthlyRequest req_goal_type];
        try (destruct (createGoal c _));
        cbn [dailyRequest req_goal_type];
        destruct track; cbn; lia.
    + intros req. cbn [app In].
      repeat progress (rewrite ?in_app_iff, ?in_eventsOf; cbn [In]).
      unfold backupReads. destruct (readsBackup c store); cbn [In];
      intros H Hty;
      repeat match goal with
             | H : _ \/ _ |- _ => destruct H as [H|H]
             | H : exists _, _ /\ _ |- _ => destruct H as (? & ? & H)
             | H : False |- _ => destruct H
             end; try discriminate H; injection H as ->.
      all: try (unfold carryOverRequest in *;
                destruct (find (isValidMonthly c now) cands); [discriminate|];
                destruct (getDate (LocalTZA c) now =? 1); [|discriminate];
                destruct (find (isLastMonthly c now) cands); [|discriminate];
                match goal with H : option_map _ _ = Some _ |- _ =>
                  injection H as <- end; discriminate Hty).
      all: unfold derivedDailyRequest in *;
           destruct (resolvedDaily c now cands) as [d|] eqn:Ed; [discriminate|];
           split; [reflexivity|]; intros st;
           destruct (String.eqb st store) eqn:Est.
      all: try (apply String.eqb_eq in Est; subst st;
                rewrite saved_lookup_ne by (cbn; discriminate);
                rewrite saved_lookup; reflexivity).
      all: apply String.eqb_neq in Est;
           rewrite !saved_lookup_ne; [reflexivity| |cbn; discriminate].
      all: intros E; apply Est; apply append_inj_l in E; [apply E|reflexivity].
Qed.

End ReconcilerFacts.

(** ** The backup read back *)

Lemma same_day_fields (tz : Zone) (t1 t2 : Z) :
  onSameDay tz t1 t2 ->
  getFullYear tz t1 = getFullYear tz t2 /\
  getMonth tz t1 = getMonth tz t2 /\
  getDate tz t1 = getDate tz t2.
Proof.
  unfold onSameDay, getFullYear, getMonth, getDate, DateFromTime, MonthFromTime,
    InLeapYear, DayWithinYear, YearFromTime.
  intros ->. repeat split.
Qed.

Lemma same_day_valid (c c' : Collaborators) (now now' : Z) (g : SalesGoal) :
  LocalTZA c' = LocalTZA c -> onSameDay (LocalTZA c) now' now ->
  isValidDaily c' now' g = isValidDaily c now g /\
  isValidMonthly c' now' g = isValidMonthly c now g.
Proof.
  intros Htz Hday. destruct (same_day_fields _ _ _ Hday) as (Hy & Hm & Hd).
  unfold isValidDaily, isValidMonthly, todayStart, todayEnd, monthStart, monthEnd.
  rewrite Htz, Hy, Hm, Hd. split; reflexivity.
Qed.

Section RoundTrip.
Variables c c' : Collaborators.

(** The backup read back.  A run of [loadGoals] that resolves both goals
    leaves them in the cache; a later run on the same local day that
    finds the Goal Store unreachable, or its list empty, reports no
    failure, resolves the same two goals from the backup, asks the
    store to create nothing and leaves the cache as it is.  (The monthly
    goal is taken valid for the month, as any goal the first run found
    among its candidates is.) *)
Theorem loadGoals_backup_round_trip
  (now now' : Z) (s s' : GoalState) (ls : Storage) (u u' : User)
  (store : string) (d m : SalesGoal) :
  isAuthenticated c = true -> user c = Some u ->
  isAuthenticated c' = true -> user c' = Some u' ->
  store_id u = Some store -> store_id u' = Some store -> store <> "" ->
  LocalTZA c' = LocalTZA c -> onSameDay (LocalTZA c) now' now ->
  getGoals c' store = None \/ getGoals c' store = Some [] ->
  let w := fst (run (loadGoals c now) s ls) in
  In (EvDispatch (SET_DAILY_GOAL (Some d))) (log w) ->
  In (EvDispatch (SET_MONTHLY_GOAL (Some m))) (log w) ->
  isValidMonthly c now m = true ->
  let w' := fst (run (loadGoals c' now') s' (storage w)) in
  ~ failed w' /\
  dispatches (log w')
  = [SET_LOADING true; SET_DAILY_GOAL (Some d); SET_MONTHLY_GOAL (Some m);
     SET_LOADING false] /\
  dailyGoal (state w') = Some d /\
  monthlyGoal (state w') = Some m /\
  (forall req, ~ In (EvCreateGoal req) (log w')) /\
  storage w' = storage w.
Proof.
  intros Ha Hu Ha' Hu' Hs Hs' Hne Htz Hday Hget w. subst w.
  destruct (loadGoals_cases c now s ls u store Ha Hu Hs Hne)
    as [[Hab ->]|[Hab ->]]; cbn [fst state storage log]; intros Hd Hm Hvalid;
    [|apply abortedLog_dispatch in Hd;
      destruct Hd as [Hd|[Hd|Hd]]; discriminate Hd].
  apply loadGoalsLog_dispatch in Hd, Hm.
  destruct Hd as [Hd|[Hd|[Hd|Hd]]]; try discriminate Hd. injection Hd as Hd.
  destruct Hm as [Hm|[Hm|[Hm|Hm]]]; try discriminate Hm. injection Hm as Hm.
  symmetry in Hd, Hm.
  destruct (loadGoalsStorage_lookup c store now ls) as [Ld Lm]. cbv zeta in Ld, Lm.
  rewrite Hd in Ld. rewrite Hm in Lm.
  assert (He : existing c' store (loadGoalsStorage c store now ls)
               = [IsGoal d; IsGoal m]).
  { unfold existing. rewrite Ld, Lm.
    destruct Hget as [-> | ->]; reflexivity. }
  assert (Hc : candidates c' store (loadGoalsStorage c store now ls) = [d; m]).
  { unfold candidates. rewrite He. reflexivity. }
  assert (Hab' : aborts c' store (loadGoalsStorage c store now ls) = false).
  { unfold aborts. rewrite He. reflexivity. }
  pose proof (loadGoals_failed_iff c' now' s' (loadGoalsStorage c store now ls)
                u' store Ha' Hu' Hs' Hne) as F.
  rewrite (loadGoals_run c' now' s' _ u' store Ha' Hu' Hs' Hne Hab') in *.
  cbn [fst state storage log] in *.
  pose proof Hd as Hfind. unfold resolvedDaily in Hfind.
  apply find_some in Hfind. destruct Hfind as [_ Hdv].
  assert (Hdt : goal_type d = daily).
  { unfold isValidDaily in Hdv. destruct (goal_type d); [reflexivity|discriminate]. }
  assert (Hmt : goal_type m = monthly).
  { unfold isValidMonthly in Hvalid. destruct (goal_type m); [discriminate|reflexivity]. }
  assert (Rd : resolvedDaily c' now' [d; m] = Some d).
  { unfold resolvedDaily. cbn [find].
    rewrite (proj1 (same_day_valid c c' now now' d Htz Hday)), Hdv. reflexivity. }
  assert (Fm : find (isValidMonthly c' now') [d; m] = Some m).
  { cbn [find].
    rewrite (proj2 (same_day_valid c c' now now' d Htz Hday)).
    rewrite (proj2 (same_day_valid c c' now now' m Htz Hday)), Hvalid.
    unfold isValidMonthly at 1. rewrite Hdt. reflexivity. }
  assert (Rm : resolvedMonthly c' store now' [d; m] = Some m).
  { unfold resolvedMonthly. rewrite Fm. reflexivity. }
  split; [rewrite F, Hab'; discriminate|].
  split; [rewrite dispatches_loadGoalsLog, Hc, Rd, Rm; reflexivity|].
  unfold loadGoalsState at 1 2. cbn [dailyGoal monthlyGoal]. rewrite Hc, Rd, Rm.
  split; [reflexivity|]. split; [reflexivity|]. split.
  - intros req. unfold loadGoalsLog. cbv zeta. rewrite Hc.
    unfold derivedDailyRequest, carryOverRequest. rewrite Rd, Rm, Fm.
    cbn [app In eventsOf].
    repeat progress (rewrite ?in_app_iff; cbn [In]).
    unfold backupReads. destruct (readsBackup c' store); cbn [In];
    intros H;
    repeat match goal with
           | H : _ \/ _ |- _ => destruct H as [H|H]
           | H : False |- _ => destruct H
           end; discriminate H.
  - unfold loadGoalsStorage at 1. cbv zeta. rewrite Hc, Rd, Rm. cbn [saved].
    rewrite (insert_id _ _ _ Ld). apply insert_id. exact Lm.
Qed.

End RoundTrip.

(** ** The progress calculator *)

Section Calculator.
Variable c : Collaborators.

(** The state [updateGoalProgress] leaves when both queries answer. *)
Lemma updateGoalProgress_result
  (now : Z) (s : GoalState) (ls : Storage)
  (u : User) (dg mg : SalesGoal) (dailyMetrics monthlyMetrics : DashboardMetrics) :
  isAuthenticated c = true -> user c = Some u ->
  dailyGoal s = Some dg -> monthlyGoal s = Some mg ->
  getDashboardAnalytics c (store_id u) today = Some dailyMetrics ->
  getDashboardAnalytics c (store_id u) this_month = Some monthlyMetrics ->
  let r := run (updateGoalProgress c now s) s ls in
  snd r = Returned tt /\
  state (fst r)
  = {| dailyGoal := Some dg;
       monthlyGoal := Some mg;
       dailyProgress := Some (computeDailyProgress c now dg (salesOf dailyMetrics));
       monthlyProgress := Some (computeMonthlyProgress c now mg (salesOf monthlyMetrics));
       loading := loading s;
       error := error s;
       lastCelebration :=
         if staleDaily c now ls then None else lastCelebration s;
       celebratedToday := celebratedToday s;
       celebratedThisMonth := celebratedThisMonth s |} /\
  storage (fst r)
  = (if staleDaily c now ls then delete "lastDailyCelebration" ls else ls).
Proof.
  intros Ha Hu Hd Hm Hdm Hmm.
  unfold updateGoalProgress, resetDailyGoalsForNewDay, staleDaily.
  rewrite Ha, Hu, Hd, Hm. step_engine. rewrite Hdm, Hmm.
  destruct (truthy (ls !! "lastDailyCelebration")
            && negb (strictEq (ls !! "lastDailyCelebration")
                       (toDateString (LocalTZA c) now)));
    cbn; destruct s; cbn in *; subst; repeat split.
Qed.

(** [updateGoalProgress] never throws, and updates the two Progress
    records together or not at all: when one of its two queries to the
    Sales Metrics Source is rejected, no Progress is computed (the only
    Progress it may have stored is the zero-state of the rollover
    guard), the monthly Progress is as before, and, unless the rollover
    guard fired, the state and the cache are unchanged.  The monthly
    total is not asked for when the daily query is rejected. *)
Theorem updateGoalProgress_query_failure
  (now : Z) (s : GoalState) (ls : Storage) (u : User) (dg mg : SalesGoal) :
  isAuthenticated c = true -> user c = Some u ->
  dailyGoal s = Some dg -> monthlyGoal s = Some mg ->
  let r := run (updateGoalProgress c now s) s ls in
  snd r = Returned tt /\
  (getDashboardAnalytics c (store_id u) today = None \/
   getDashboardAnalytics c (store_id u) this_month = None ->
   (forall p, In (EvDispatch (SET_DAILY_PROGRESS p)) (log (fst r)) ->
              p = Some (resetDailyProgress dg)) /\
   (forall p, ~ In (EvDispatch (SET_MONTHLY_PROGRESS p)) (log (fst r))) /\
   monthlyProgress (state (fst r)) = monthlyProgress s /\
   (staleDaily c now ls = false -> state (fst r) = s /\ storage (fst r) = ls)) /\
  (getDashboardAnalytics c (store_id u) today = None ->
   forall store, ~ In (EvGetDashboardAnalytics store this_month) (log (fst r))).
Proof.
  intros Ha Hu Hd Hm.
  unfold updateGoalProgress, resetDailyGoalsForNewDay, staleDaily.
  rewrite Ha, Hu, Hd, Hm. step_engine.
  destruct (truthy (ls !! "lastDailyCelebration")
            && negb (strictEq (ls !! "lastDailyCelebration")
                       (toDateString (LocalTZA c) now)));
    destruct (getDashboardAnalytics c (store_id u) today) as [dm|];
    try destruct (getDashboardAnalytics c (store_id u) this_month) as [mm|];
    cbn; destruct s; cbn in *; subst.
  all: split; [reflexivity|]; split.
  all: try (intros [H|H]; discriminate H).
  all: try (intros H; discriminate H).
  all: try (intros _ store H;
            repeat match goal with
                   | H : _ \/ _ |- _ => destruct H as [H|H]
                   | H : False |- _ => destruct H
                   end; discriminate H).
  all: intros _; split; [|split; [|split]]; try reflexivity;
       try (intros _; split; reflexivity); try discriminate.
  all: intros p H;
       repeat match goal with
              | H : _ \/ _ |- _ => destruct H as [H|H]
              | H : False |- _ => destruct H
              end; try discriminate H; try (injection H as <-; reflexivity).
Qed.

(** The calls of [updateGoalProgress] once it passes its guard: it asks
    the Sales Metrics Source for today's total and then, if that
    answers, for the month's total, each once, in this order and for the
    store scope of the user; it never calls the Goal Store or the
    Notifier and writes nothing to the cache: the cache changes only by
    the removal of a stale daily marker. *)
Theorem updateGoalProgress_queries
  (now : Z) (s : GoalState) (ls : Storage) (u : User) (dg mg : SalesGoal) :
  isAuthenticated c = true -> user c = Some u ->
  dailyGoal s = Some dg -> monthlyGoal s = Some mg ->
  let w := fst (run (updateGoalProgress c now s) s ls) in
  analyticsQueries (log w)
  = (store_id u, today)
    :: match getDashboardAnalytics c (store_id u) today with
       | Some _ => [(store_id u, this_month)]
       | None => []
       end /\
  (forall e, In e (log w) ->
     match e with
     | EvGetGoals _ | EvCreateGoal _ | EvNotify _ | EvSetItem _ _ => False
     | _ => True
     end) /\
  storage w
  = (if staleDaily c now ls then delete "lastDailyCelebration" ls else ls).
Proof.
  intros Ha Hu Hd Hm.
  unfold updateGoalProgress, resetDailyGoalsForNewDay, staleDaily.
  rewrite Ha, Hu, Hd, Hm. step_engine.
  destruct (truthy (ls !! "lastDailyCelebration")
            && negb (strictEq (ls !! "lastDailyCelebration")
                       (toDateString (LocalTZA c) now)));
    destruct (getDashboardAnalytics c (store_id u) today) as [dm|];
    try destruct (getDashboardAnalytics c (store_id u) this_month) as [mm|];
    cbn; (split; [reflexivity|]; split; [|reflexivity]);
    intros e H;
    repeat match goal with
           | H : _ \/ _ |- _ => destruct H as [H|H]
           | H : False |- _ => destruct H
           end; subst e; exact I.
Qed.

End Calculator.

Lemma getHours_range (tz : Zone) (t : Z) : 0 <= getHours tz t <= 23.
Proof. unfold getHours, HourFromTime. lia. Qed.

Section Calculator2.
Variable c : Collaborators.

(** The Progress records [updateGoalProgress] stores are consistent: on
    each track [is_achieved] holds exactly when [progress_percentage] is
    at least 100, so a goal with a zero or negative target is never
    achieved. *)
Theorem updateGoalProgress_achieved_iff_full
  (now : Z) (s : GoalState) (ls : Storage)
  (u : User) (dg mg : SalesGoal) (dailyMetrics monthlyMetrics : DashboardMetrics) :
  isAuthenticated c = true -> user c = Some u ->
  dailyGoal s = Some dg -> monthlyGoal s = Some mg ->
  getDashboardAnalytics c (store_id u) today = Some dailyMetrics ->
  getDashboardAnalytics c (store_id u) this_month = Some monthlyMetrics ->
  let s' := state (fst (run (updateGoalProgress c now s) s ls)) in
  exists dp mp,
    dailyProgress s' = Some dp /\ monthlyProgress s' = Some mp /\
    (is_achieved dp = true
     <-> exists q, progress_percentage dp = Some q /\ (100 <= q)%Q) /\
    (is_achieved mp = true
     <-> exists q, progress_percentage mp = Some q /\ (100 <= q)%Q) /\
    ((target_amount dg <= 0)%Q -> is_achieved dp = false) /\
    ((target_amount mg <= 0)%Q -> is_achieved mp = false).
Proof.
  intros Ha Hu Hd Hm Hdm Hmm s'. subst s'.
  destruct (updateGoalProgress_result c now s ls u dg mg _ _ Ha Hu Hd Hm Hdm Hmm)
    as (_ & -> & _).
  cbn [dailyProgress monthlyProgress].
  do 2 eexists. split; [reflexivity|]. split; [reflexivity|].
  unfold computeDailyProgress, computeMonthlyProgress.
  cbn [is_achieved progress_percentage].
  split; [apply achieved_iff_percentage|].
  split; [apply achieved_iff_percentage|].
  assert (Hneg : forall a t, (t <= 0)%Q -> isAchieved a (orZero t) = false).
  { intros a t Ht. unfold isAchieved.
    destruct (Qgtb (orZero t) 0) eqn:E; [|reflexivity].
    apply Qgtb_true in E. rewrite orZero_eq in E.
    exfalso. exact (Qlt_not_le _ _ E Ht). }
  split; apply Hneg.
Qed.

(** The time left that [updateGoalProgress] stores: the daily Progress
    has [24 - h] hours remaining at hour [h] of the local day, a number
    from 1 to 24, and the monthly Progress has as many days remaining as
    the month has days after today, a number from 0 to 30 that is 0 on
    the last day of the month. *)
Theorem updateGoalProgress_time_left
  (now : Z) (s : GoalState) (ls : Storage)
  (u : User) (dg mg : SalesGoal) (dailyMetrics monthlyMetrics : DashboardMetrics) :
  isAuthenticated c = true -> user c = Some u ->
  dailyGoal s = Some dg -> monthlyGoal s = Some mg ->
  getDashboardAnalytics c (store_id u) today = Some dailyMetrics ->
  getDashboardAnalytics c (store_id u) this_month = Some monthlyMetrics ->
  100 <= getFullYear (LocalTZA c) now ->
  let tz := LocalTZA c in
  let s' := state (fst (run (updateGoalProgress c now s) s ls)) in
  exists dp mp h d,
    dailyProgress s' = Some dp /\ monthlyProgress s' = Some mp /\
    hours_remaining dp = Some h /\ h = 24 - getHours tz now /\ 1 <= h <= 24 /\
    days_remaining mp = Some d /\
    d = DaysInMonth (getFullYear tz now) (getMonth tz now) - getDate tz now /\
    0 <= d <= 30.
Proof.
  intros Ha Hu Hd Hm Hdm Hmm Hyear tz s'. subst s' tz.
  destruct (updateGoalProgress_result c now s ls u dg mg _ _ Ha Hu Hd Hm Hdm Hmm)
    as (_ & -> & _).
  cbn [dailyProgress monthlyProgress].
  pose proof (getHours_range (LocalTZA c) now) as Hh.
  pose proof (now_date_range (LocalTZA c) now) as Hdate.
  pose proof (DaysInMonth_pos (getFullYear (LocalTZA c) now)
                (getMonth (LocalTZA c) now)) as Hp.
  do 4 eexists. split; [reflexivity|]. split; [reflexivity|].
  unfold computeDailyProgress, computeMonthlyProgress.
  cbn [hours_remaining days_remaining].
  rewrite (endOfMonth_date _ _ Hyear).
  split; [reflexivity|]. split; [lia|]. split; [lia|].
  split; [reflexivity|]. split; lia.
Qed.

End Calculator2.

(** ** The achievement evaluator and the rollover guard *)

Section Evaluator.
Variable c : Collaborators.

(** [checkGoalAchievements] does something if and only if both Progress
    records are there: otherwise it returns at once without reading the
    cache. *)
Theorem checkGoalAchievements_guard (now : Z) (s : GoalState) (ls : Storage) :
  run (checkGoalAchievements c now s) s ls
  = ({| state := s; storage := ls; log := [] |}, Returned tt)
  <-> (dailyProgress s = None \/ monthlyProgress s = None).
Proof.
  split; [|apply check_call_guard].
  destruct (dailyProgress s) as [dp|] eqn:Hd; [|auto].
  destruct (monthlyProgress s) as [mp|] eqn:Hm; [|auto].
  rewrite (checkGoalAchievements_run c now s ls dp mp Hd Hm).
  intros H. injection H as _ _ H _. discriminate H.
Qed.

(** When both tracks are achieved and neither has been celebrated in
    its period, one invocation celebrates both, the daily track first:
    it writes both markers, asks for the daily and then the monthly
    notification, and dispatches the two celebrations one after the
    other, so that [lastCelebration] ends as the monthly celebration and
    the daily one is overwritten.  Each celebration carries the target
    and the name of the goal in the state and the amount of the
    Progress. *)
Theorem checkGoalAchievements_both_tracks
  (now : Z) (s : GoalState) (ls : Storage)
  (dp mp : GoalProgress) (dg mg : SalesGoal) :
  dailyProgress s = Some dp -> monthlyProgress s = Some mp ->
  dailyGoal s = Some dg -> monthlyGoal s = Some mg ->
  is_achieved dp = true -> is_achieved mp = true ->
  strictEq (ls !! "lastDailyCelebration") (toDateString (LocalTZA c) now) = false ->
  strictEq (ls !! "lastMonthlyCelebration") (thisMonthKey c now) = false ->
  showNotification c daily_goal_achievement = true ->
  let r := run (checkGoalAchievements c now s) s ls in
  let cd := {| goalType := daily; goalAmount := target_amount dg;
               actualAmount := current_amount dp; goalName := goal_name dg;
               achieved_at := now |} in
  let cm := {| goalType := monthly; goalAmount := target_amount mg;
               actualAmount := current_amount mp; goalName := goal_name mg;
               achieved_at := now |} in
  notifications (log (fst r)) = [daily_goal_achievement; monthly_goal_achievement] /\
  celebrations (log (fst r)) = [cd; cm] /\
  lastCelebration (state (fst r)) = Some cm /\
  storage (fst r) !! "lastDailyCelebration"
  = Some (Raw (toDateString (LocalTZA c) now)) /\
  storage (fst r) !! "lastMonthlyCelebration" = Some (Raw (thisMonthKey c now)) /\
  (snd r = Returned tt <-> showNotification c monthly_goal_achievement = true).
Proof.
  intros Hd Hm Hdg Hmg Had Ham Hkd Hkm Hacc.
  rewrite (checkGoalAchievements_run c now s ls dp mp Hd Hm). cbn [fst snd state storage log].
  unfold checkLog, checkState, checkStorage, checkOutcome, monthlyBlock, dailyBlock,
    blockResult, due, staleDaily.
  rewrite Hdg, Hmg, Had, Ham, Hkd, Hkm. cbn [negb andb tagOf]. rewrite Hacc.
  cbn [blockThrows negb blockEvents blockState blockStorage markerKey tagOf orb].
  destruct (truthy (ls !! "lastDailyCelebration")); cbn [andb app];
    (split; [reflexivity|]; split; [reflexivity|]; split; [destruct s; reflexivity|];
     split; [rewrite lookup_insert_ne by discriminate; apply lookup_insert_eq|];
     split; [apply lookup_insert_eq|]);
    destruct (showNotification c monthly_goal_achievement); cbn;
    split; congruence.
Qed.

(** A daily marker of another day makes every invocation clear
    [lastCelebration], whatever celebration it holds; the evaluator
    itself never removes that marker.  So when no track is due (the
    daily Progress is not achieved, and the monthly one is not achieved
    or already celebrated this month), the invocation leaves
    [lastCelebration] null, changes nothing else in the state, and
    leaves the cache as it was, stale marker included. *)
Theorem checkGoalAchievements_stale_marker
  (now : Z) (s : GoalState) (ls : Storage) (dp mp : GoalProgress) (m : string) :
  dailyProgress s = Some dp -> monthlyProgress s = Some mp ->
  ls !! "lastDailyCelebration" = Some (Raw m) ->
  m <> "" -> m <> toDateString (LocalTZA c) now ->
  is_achieved dp = false ->
  is_achieved mp = false \/
  ls !! "lastMonthlyCelebration" = Some (Raw (thisMonthKey c now)) ->
  run (checkGoalAchievements c now s) s ls
  = ({| state := goalReducer s CLEAR_LAST_CELEBRATION;
        storage := ls;
        log := [EvGetItem "lastDailyCelebration";
                EvGetItem "lastMonthlyCelebration";
                EvDispatch CLEAR_LAST_CELEBRATION] |}, Returned tt).
Proof.
  intros Hd Hm Hls Hne Hday Had Hmon.
  rewrite (checkGoalAchievements_run c now s ls dp mp Hd Hm).
  unfold checkLog, checkState, checkStorage, checkOutcome, monthlyBlock, dailyBlock,
    blockResult, due, staleDaily.
  rewrite Hls, Had. cbn [truthy strictEq andb].
  apply String.eqb_neq in Hne, Hday. rewrite Hne, Hday. cbn [negb andb blockThrows].
  assert (Hskip : is_achieved mp
                  && negb (strictEq (ls !! "lastMonthlyCelebration")
                             (thisMonthKey c now)) = false).
  { destruct Hmon as [-> | ->]; [reflexivity|].
    rewrite strictEq_key. apply andb_false_r. }
  rewrite Hskip. reflexivity.
Qed.

(** The rollover guard fires once for a stale marker: having removed
    it, it does nothing when invoked again, at any time and from any
    render, until the evaluator writes a new marker. *)
Theorem resetDailyGoalsForNewDay_once
  (now now' : Z) (s s' : GoalState) (ls : Storage) :
  let w := fst (run (resetDailyGoalsForNewDay c now s) s ls) in
  staleDaily c now ls = true ->
  storage w = delete "lastDailyCelebration" ls /\
  forall st,
    run (resetDailyGoalsForNewDay c now' s') st (storage w)
    = ({| state := st; storage := storage w;
          log := [EvGetItem "lastDailyCelebration"] |}, Returned tt).
Proof.
  unfold resetDailyGoalsForNewDay, staleDaily. step_engine.
  intros H. rewrite H.
  destruct (dailyGoal s); cbn; (split; [reflexivity|]);
    intros st; rewrite lookup_delete_eq; reflexivity.
Qed.

End Evaluator.

(** ** Invocations of the evaluator that overlap *)

Lemma tally_app l1 l2 a1 b1 c1 d1 a2 b2 c2 d2 :
  tally l1 = (a1, (b1, c1, d1)) -> tally l2 = (a2, (b2, c2, d2)) ->
  tally (l1 ++ l2) = ((a1 + a2)%nat, ((b1 + b2)%nat, (c1 + c2)%nat, (d1 + d2)%nat)).
Proof.
  unfold tally. rewrite !count_app. intros [= -> -> -> ->] [= -> -> -> ->].
  reflexivity.
Qed.

(** The first segment of an invocation that celebrates the day. *)
Lemma checkStart_daily (i : Invocation) (dp mp : GoalProgress) (gd : SalesGoal)
  (w : World) :
  dailyProgress (inv_state i) = Some dp -> monthlyProgress (inv_state i) = Some mp ->
  dailyGoal (inv_state i) = Some gd -> is_achieved dp = true ->
  strictEq (storage w !! "lastDailyCelebration")
    (periodKey (inv_collaborators i) daily (inv_now i)) = false ->
  exists w1 l,
    checkStart i w
    = (w1, Returned (Some (AwaitsDaily i mp (storage w !! "lastMonthlyCelebration")))) /\
    storage w1
    = <["lastDailyCelebration" := Raw (periodKey (inv_collaborators i) daily (inv_now i))]>
        (storage w) /\
    log w1 = log w ++ l /\ tally l = (1%nat, (0%nat, 0%nat, 0%nat)).
Proof.
  destruct i as [c now s]. cbn [inv_collaborators inv_now inv_state periodKey].
  intros Hdp Hmp Egd Ad Kd. unfold checkStart, callNotifier.
  cbn [inv_collaborators inv_now inv_state].
  rewrite Hdp, Hmp, Egd. step_engine.
  rewrite Kd, Ad. cbn [andb negb].
  destruct (truthy (storage w !! "lastDailyCelebration")); cbn [andb];
    step_engine; eexists; eexists; (split; [reflexivity|]);
    (split; [reflexivity|]); rewrite <- !app_assoc;
    (split; [reflexivity|]); reflexivity.
Qed.

(** The monthly block, given a marker that is not the key of the month. *)
Lemma monthlyPart_celebrates (i : Invocation) (mp : GoalProgress) (gm : SalesGoal)
  (lm : option StoredValue) (w : World) :
  monthlyGoal (inv_state i) = Some gm -> is_achieved mp = true ->
  strictEq lm (periodKey (inv_collaborators i) monthly (inv_now i)) = false ->
  exists w1 l,
    monthlyPart i mp lm w = (w1, Returned (Some (AwaitsMonthly i))) /\
    log w1 = log w ++ l /\ tally l = (0%nat, (1%nat, 1%nat, 1%nat)).
Proof.
  destruct i as [c now s]. cbn [inv_collaborators inv_now inv_state periodKey].
  intros Egm Am Km. unfold monthlyPart, callNotifier.
  cbn [inv_collaborators inv_now inv_state].
  rewrite Am, Km, Egm. cbn [andb negb]. step_engine.
  eexists; eexists; (split; [reflexivity|]).
  rewrite <- !app_assoc. split; reflexivity.
Qed.

(** The first segment of an invocation that finds the day celebrated and
    the month not. *)
Lemma checkStart_monthly (i : Invocation) (dp mp : GoalProgress) (gm : SalesGoal)
  (w : World) :
  dailyProgress (inv_state i) = Some dp -> monthlyProgress (inv_state i) = Some mp ->
  monthlyGoal (inv_state i) = Some gm -> is_achieved mp = true ->
  storage w !! "lastDailyCelebration"
  = Some (Raw (periodKey (inv_collaborators i) daily (inv_now i))) ->
  strictEq (storage w !! "lastMonthlyCelebration")
    (periodKey (inv_collaborators i) monthly (inv_now i)) = false ->
  exists w1 l,
    checkStart i w = (w1, Returned (Some (AwaitsMonthly i))) /\
    log w1 = log w ++ l /\ tally l = (0%nat, (1%nat, 1%nat, 1%nat)).
Proof.
  intros Hdp Hmp Egm Am Hd Km.
  destruct (monthlyPart_celebrates i mp gm (storage w !! "lastMonthlyCelebration")
              (record (EvGetItem "lastMonthlyCelebration")
                 (record (EvGetItem "lastDailyCelebration") w)) Egm Am Km)
    as (w1 & l & E & Hl & Ht).
  exists w1, ([EvGetItem "lastDailyCelebration"; EvGetItem "lastMonthlyCelebration"] ++ l).
  split; [|split].
  - unfold checkStart. destruct i as [c now s].
    cbn [inv_collaborators inv_now inv_state periodKey] in *.
    rewrite Hdp, Hmp. step_engine.
    rewrite Hd, strictEq_key, !andb_false_r. cbn [negb].
    step_engine. exact E.
  - rewrite Hl. unfold record. cbn [log]. rewrite <- !app_assoc. reflexivity.
  - apply (tally_app [_; _] l 0 0 0 0 0 1 1 1); [reflexivity|exact Ht].
Qed.

(** [checkGoalAchievements] is not safe against overlap.  An invocation
    finds both tracks achieved, both goals set and neither marker of the
    period in the cache, and awaits the answer to its daily
    notification.  A second invocation, of the same day and month, with
    the month achieved in its state, starts before the answer comes, as
    nothing prevents; then the first is resumed, the Notifier having
    accepted.  The second invocation finds the day celebrated and
    celebrates the month, and so does the first, on the monthly marker
    it has read before it was suspended: the Notifier is invoked once
    for the day and twice for the month, [lastCelebration] is set twice
    for the month and the monthly marker is written twice. *)
Theorem checkGoalAchievements_overlap
  (i1 i2 : Invocation) (s0 : GoalState) (ls : Storage) :
  achievedIn daily i1 -> achievedIn monthly i1 ->
  hasProgress i2 -> achievedIn monthly i2 ->
  showNotification (inv_collaborators i1) daily_goal_achievement = true ->
  periodKey (inv_collaborators i2) daily (inv_now i2)
  = periodKey (inv_collaborators i1) daily (inv_now i1) ->
  periodKey (inv_collaborators i2) monthly (inv_now i2)
  = periodKey (inv_collaborators i1) monthly (inv_now i1) ->
  strictEq (ls !! "lastDailyCelebration")
    (periodKey (inv_collaborators i1) daily (inv_now i1)) = false ->
  strictEq (ls !! "lastMonthlyCelebration")
    (periodKey (inv_collaborators i1) monthly (inv_now i1)) = false ->
  let acts := [Start i1; Start i2; Resume 0] in
  let st := schedule acts (fresh s0 ls) in
  ~ serialized acts (fresh s0 ls) /\
  snd st = [AwaitsMonthly i2; AwaitsMonthly i1] /\
  countIn (isNotify daily) (fst st) = 1%nat /\
  countIn (isNotify monthly) (fst st) = 2%nat /\
  countIn (isCelebration monthly) (fst st) = 2%nat /\
  countIn (isMarkerWrite monthly) (fst st) = 2%nat.
Proof.
  intros (dp & Hdp & Ad & Gd) (mp & Hmp & Am & Gm)
    (dp2 & mp2' & Hdp2 & Hmp2') (mp2 & Hmp2 & Am2 & Gm2) Hn Ed Em Kd Km.
  destruct (dailyGoal (inv_state i1)) as [gd|] eqn:Egd; [|congruence].
  destruct (monthlyGoal (inv_state i1)) as [gm|] eqn:Egm; [|congruence].
  destruct (monthlyGoal (inv_state i2)) as [gm2|] eqn:Egm2; [|congruence].
  clear mp2' Hmp2'.
  cbv zeta.
  destruct (checkStart_daily i1 dp mp gd (fst (fresh s0 ls)) Hdp Hmp Egd Ad Kd)
    as (w1 & l1 & E1 & S1 & L1 & T1).
  cbn [fresh fst storage log app] in E1, S1, L1.
  assert (Km1 : strictEq (storage w1 !! "lastMonthlyCelebration")
                  (periodKey (inv_collaborators i2) monthly (inv_now i2)) = false).
  { rewrite S1, lookup_insert_ne by discriminate. rewrite Em. exact Km. }
  assert (Hd1 : storage w1 !! "lastDailyCelebration"
                = Some (Raw (periodKey (inv_collaborators i2) daily (inv_now i2)))).
  { rewrite S1, Ed. apply lookup_insert_eq. }
  destruct (checkStart_monthly i2 dp2 mp2 gm2 w1 Hdp2 Hmp2 Egm2 Am2 Hd1 Km1)
    as (w2 & l2 & E2 & L2 & T2).
  destruct (monthlyPart_celebrates i1 mp gm (ls !! "lastMonthlyCelebration") w2
              Egm Am Km) as (w3 & l3 & E3 & L3 & T3).
  assert (A1 : act (Start i1) (fresh s0 ls)
               = (w1, [AwaitsDaily i1 mp (ls !! "lastMonthlyCelebration")])).
  { unfold act, fresh. cbn [fst snd]. rewrite E1. reflexivity. }
  assert (A2 : act (Start i2) (w1, [AwaitsDaily i1 mp (ls !! "lastMonthlyCelebration")])
               = (w2, [AwaitsDaily i1 mp (ls !! "lastMonthlyCelebration");
                       AwaitsMonthly i2])).
  { unfold act. cbn [fst snd]. rewrite E2. reflexivity. }
  assert (A3 : act (Resume 0) (w2, [AwaitsDaily i1 mp (ls !! "lastMonthlyCelebration");
                                   AwaitsMonthly i2])
               = (w3, [AwaitsMonthly i2; AwaitsMonthly i1])).
  { unfold act, resume, answered. cbn [fst snd lookup list_lookup delete].
    rewrite Hn. step_engine. rewrite E3. reflexivity. }
  split.
  - cbn [serialized]. rewrite A1. cbn [snd existsb awaitsDaily orb].
    intros (_ & H & _). discriminate H.
  - unfold schedule. cbn [fold_left]. rewrite A1, A2, A3. cbn [fst snd].
    split; [reflexivity|].
    assert (T : tally (log w3) = (1%nat, (2%nat, 2%nat, 2%nat))).
    { rewrite L3, L2, L1.
      apply (tally_app (l1 ++ l2) l3 1 1 1 1 0 1 1 1); [|exact T3].
      apply (tally_app l1 l2 1 0 0 0 0 1 1 1); assumption. }
    unfold tally in T. injection T as T1' T2' T3' T4'.
    repeat split; assumption.
Qed.

(** ** The calculator followed by the evaluator *)

Lemma strictEq_false (v : option StoredValue) (key : string) :
  strictEq v key = false <-> v <> Some (Raw key).
Proof.
  destruct v as [[r|g]|]; cbn; try (split; [discriminate|reflexivity]).
  rewrite String.eqb_neq. split; congruence.
Qed.

Lemma isAchieved_iff (amount target : Q) :
  isAchieved amount (orZero target) = true
  <-> (0 < target)%Q /\ (target <= amount)%Q.
Proof.
  unfold isAchieved. pose proof (orZero_eq target) as Ho.
  destruct (Qgtb (orZero target) 0) eqn:E.
  - apply Qgtb_true in E. rewrite Qgeb_true. rewrite Ho in *. tauto.
  - split; [discriminate|]. intros [H _]. rewrite <- Ho in H.
    apply Qgtb_true in H. congruence.
Qed.

Section Pipeline.
Variable c : Collaborators.

(** The calculator followed by the evaluator.  Once [updateGoalProgress]
    has stored the Progress of the fetched totals, an invocation of
    [checkGoalAchievements] on the same local day, from the render that
    sees this Progress, asks for the daily notification if and only if
    the daily target is positive, today's total has reached it and the
    daily marker in the cache was not today's; likewise for the monthly
    track (the Notifier accepting the daily notification).  The
    celebration of the daily track then carries the daily target and
    today's total. *)
Theorem updateGoalProgress_then_checkGoalAchievements
  (now now' : Z) (s : GoalState) (ls : Storage)
  (u : User) (dg mg : SalesGoal) (dailyMetrics monthlyMetrics : DashboardMetrics) :
  isAuthenticated c = true -> user c = Some u ->
  dailyGoal s = Some dg -> monthlyGoal s = Some mg ->
  getDashboardAnalytics c (store_id u) today = Some dailyMetrics ->
  getDashboardAnalytics c (store_id u) this_month = Some monthlyMetrics ->
  onSameDay (LocalTZA c) now' now ->
  showNotification c daily_goal_achievement = true ->
  let w1 := fst (run (updateGoalProgress c now s) s ls) in
  let w2 := fst (run (checkGoalAchievements c now' (state w1))
                   (state w1) (storage w1)) in
  (In daily_goal_achievement (notifications (log w2))
   <-> (0 < target_amount dg)%Q /\
       (target_amount dg <= salesOf dailyMetrics)%Q /\
       ls !! "lastDailyCelebration" <> Some (Raw (toDateString (LocalTZA c) now))) /\
  (In monthly_goal_achievement (notifications (log w2))
   <-> (0 < target_amount mg)%Q /\
       (target_amount mg <= salesOf monthlyMetrics)%Q /\
       ls !! "lastMonthlyCelebration" <> Some (Raw (thisMonthKey c now))) /\
  (forall cel, In cel (celebrations (log w2)) -> goalType cel = daily ->
     goalAmount cel = target_amount dg /\
     actualAmount cel = salesOf dailyMetrics).
Proof.
  intros Ha Hu Hd Hm Hdm Hmm Hday Hacc w1.
  destruct (updateGoalProgress_result c now s ls u dg mg _ _ Ha Hu Hd Hm Hdm Hmm)
    as (_ & Hst & Hsto).
  fold w1 in Hst, Hsto.
  set (dp := computeDailyProgress c now dg (salesOf dailyMetrics)) in *.
  set (mp := computeMonthlyProgress c now mg (salesOf monthlyMetrics)) in *.
  assert (Hdp : dailyProgress (state w1) = Some dp) by (rewrite Hst; reflexivity).
  assert (Hmp : monthlyProgress (state w1) = Some mp) by (rewrite Hst; reflexivity).
  assert (Hdg : dailyGoal (state w1) = Some dg) by (rewrite Hst; reflexivity).
  assert (Hmg : monthlyGoal (state w1) = Some mg) by (rewrite Hst; reflexivity).
  assert (Kd : toDateString (LocalTZA c) now' = toDateString (LocalTZA c) now).
  { apply (samePeriod_key daily c c now' now eq_refl Hday). }
  assert (Km : thisMonthKey c now' = thisMonthKey c now).
  { apply (samePeriod_key monthly c c now' now eq_refl).
    destruct (same_day_fields _ _ _ Hday) as (Hy & Hmo & _). split; assumption. }
  assert (Ld : strictEq (storage w1 !! "lastDailyCelebration")
                 (toDateString (LocalTZA c) now)
               = strictEq (ls !! "lastDailyCelebration")
                   (toDateString (LocalTZA c) now)).
  { rewrite Hsto. unfold staleDaily.
    destruct (truthy (ls !! "lastDailyCelebration")); [|reflexivity].
    destruct (strictEq (ls !! "lastDailyCelebration")
                (toDateString (LocalTZA c) now)) eqn:E; cbn [negb andb];
      [exact E|].
    rewrite lookup_delete_eq. reflexivity. }
  assert (Lm : storage w1 !! "lastMonthlyCelebration"
               = ls !! "lastMonthlyCelebration").
  { rewrite Hsto. destruct (staleDaily c now ls); [|reflexivity].
    apply lookup_delete_ne. discriminate. }
  intros w2. subst w2.
  rewrite (checkGoalAchievements_run c now' (state w1) (storage w1) dp mp Hdp Hmp).
  cbn [fst log].
  unfold checkLog, monthlyBlock, dailyBlock, blockResult, due.
  rewrite Hdg, Hmg, Kd, Km, Ld, Lm. cbn [tagOf]. rewrite Hacc.
  change (is_achieved dp)
    with (isAchieved (salesOf dailyMetrics) (orZero (target_amount dg))).
  change (is_achieved mp)
    with (isAchieved (salesOf monthlyMetrics) (orZero (target_amount mg))).
  pose proof (isAchieved_iff (salesOf dailyMetrics) (target_amount dg)) as Id.
  pose proof (isAchieved_iff (salesOf monthlyMetrics) (target_amount mg)) as Im.
  pose proof (strictEq_false (ls !! "lastDailyCelebration")
                (toDateString (LocalTZA c) now)) as Sd.
  pose proof (strictEq_false (ls !! "lastMonthlyCelebration")
                (thisMonthKey c now)) as Sm.
  revert Id Im Sd Sm.
  destruct (isAchieved (salesOf dailyMetrics) (orZero (target_amount dg)));
    destruct (strictEq (ls !! "lastDailyCelebration")
                (toDateString (LocalTZA c) now));
    destruct (isAchieved (salesOf monthlyMetrics) (orZero (target_amount mg)));
    destruct (strictEq (ls !! "lastMonthlyCelebration") (thisMonthKey c now));
    destruct (staleDaily c now' (storage w1));
    intros Id Im Sd Sm;
    cbn [negb andb blockThrows blockEvents app notifications celebrations
         flat_map In markerKey tagOf];
    (split; [|split]);
    try (intros cel H Hty;
         repeat match goal with
                | H : _ \/ _ |- _ => destruct H as [H|H]
                | H : False |- _ => destruct H
                end; subst cel; try discriminate Hty; split; reflexivity);
    intuition (try discriminate; auto).
Qed.

End Pipeline.

(** ** An invariant of the context *)

Lemma consistent_computed (amount target : Q) (p : GoalProgress) :
  progress_percentage p = progressPercentage amount target ->
  is_achieved p = isAchieved amount target ->
  consistent p.
Proof.
  intros Hp Hi. unfold consistent. rewrite Hp, Hi.
  pose proof (achieved_iff_percentage amount target) as H.
  unfold progressPercentage, percentOf, divide in *.
  destruct (Qgtb target 0) eqn:Egt.
  - assert (Hb : Qeq_bool target 0 = false).
    { destruct (Qeq_bool target 0) eqn:E; [|reflexivity].
      apply Qeq_bool_iff in E. apply Qgtb_true in Egt. rewrite E in Egt.
      destruct (Qlt_irrefl _ Egt). }
    rewrite Hb in *. eexists. split; [reflexivity|]. split; [apply Q.le_min_r|].
    rewrite H. split.
    + intros (q & [= <-] & Hq). exact Hq.
    + intros Hq. eexists. split; [reflexivity|exact Hq].
  - exists 0%Q. split; [reflexivity|]. split; [discriminate|].
    rewrite H. split.
    + intros (q & [= <-] & Hq). exact Hq.
    + intros Hq. eexists. split; [reflexivity|exact Hq].
Qed.

Lemma consistent_reset (g : SalesGoal) : consistent (resetDailyProgress g).
Proof.
  exists 0%Q. cbn. split; [reflexivity|]. split; [discriminate|].
  split; [discriminate|]. intros H. apply Qle_bool_iff in H. discriminate H.
Qed.

Lemma settled_celebration (s : GoalState) (a : GoalAction) :
  match a with
  | SET_LAST_CELEBRATION _ | CLEAR_LAST_CELEBRATION
  | SET_DAILY_GOAL _ | SET_MONTHLY_GOAL _ => True
  | _ => False
  end ->
  settled s -> settled (goalReducer s a).
Proof. destruct s, a; intros []; exact (fun H => H). Qed.

Lemma settled_step (c : Collaborators) (now : Z) (cmd : Command)
  (s : GoalState) (ls : Storage) :
  settled s -> settled (state (fst (run (perform c now cmd s) s ls))).
Proof.
  intros Hs. destruct cmd; cbn [perform].
  - destruct (loadGoals_guards c now s ls) as [G|(u & store & Ha & Hu & Hst & He)].
    + rewrite (loadGoals_skips c now s ls G). exact Hs.
    + destruct Hs as (_ & H2 & H3 & H4 & H5 & H6).
      destruct (loadGoals_cases c now s ls u store Ha Hu Hst He)
        as [[_ ->]|[_ ->]]; cbn [fst state].
      * split; [reflexivity|]. split; [exact H2|]. repeat split; assumption.
      * split; [reflexivity|]. split; [right; reflexivity|].
        repeat split; assumption.
  - unfold updateGoalProgress, resetDailyGoalsForNewDay.
    destruct (isAuthenticated c); [|exact Hs].
    destruct (user c) as [u|]; [|exact Hs].
    destruct (dailyGoal s) as [dg|] eqn:Hd; [|exact Hs].
    destruct (monthlyGoal s) as [mg|] eqn:Hm; [|exact Hs].
    step_engine.
    destruct Hs as (H1 & H2 & H3 & H4 & H5 & H6).
    destruct (truthy (ls !! "lastDailyCelebration")
              && negb (strictEq (ls !! "lastDailyCelebration")
                         (toDateString (LocalTZA c) now)));
      destruct (getDashboardAnalytics c (store_id u) today) as [dm|];
      try destruct (getDashboardAnalytics c (store_id u) this_month) as [mm|];
      cbn; destruct s; cbn in *; subst;
      repeat split; try reflexivity; try assumption;
      intros p [= <-];
      first [apply consistent_reset
            |eapply consistent_computed; reflexivity].
  - destruct (dailyProgress s) as [dp|] eqn:Hd;
      [destruct (monthlyProgress s) as [mp|] eqn:Hm|].
    + rewrite (checkGoalAchievements_run c now s ls dp mp Hd Hm). cbn [fst state].
      unfold checkState, blockState.
      repeat match goal with
             | |- context [match ?b with Skipped => _ | _ => _ end] => destruct b
             | |- context [if ?b then _ else _] => destruct b
             end;
        repeat (apply settled_celebration; [exact I|]); exact Hs.
    + rewrite check_call_guard by (right; exact Hm). exact Hs.
    + rewrite check_call_guard by (left; exact Hd). exact Hs.
  - unfold resetDailyGoalsForNewDay. step_engine.
    destruct (truthy (ls !! "lastDailyCelebration")
              && negb (strictEq (ls !! "lastDailyCelebration")
                         (toDateString (LocalTZA c) now))); [|exact Hs].
    destruct Hs as (H1 & H2 & H3 & H4 & H5 & H6).
    destruct (dailyGoal s) eqn:Hd; cbn; destruct s; cbn in *; subst;
      repeat split; try reflexivity; try assumption.
    intros p [= <-]. apply consistent_reset.
  - cbn. apply settled_celebration; [exact I|exact Hs].
  - cbn. apply settled_celebration; [exact I|exact Hs].
  - cbn. apply settled_celebration; [exact I|exact Hs].
Qed.

(** An invariant of the context.  Whatever operations run, in whatever
    order and whatever the services answer, starting from the initial
    state: between two operations [loading] is false, [error] is null
    or the message "Failed to load goals" (which nothing ever clears),
    the flags [celebratedToday] and [celebratedThisMonth] are still
    false (nothing ever sets them), and every Progress in the state has
    a percentage of at most 999 and is achieved exactly when that
    percentage is at least 100. *)
Theorem context_invariant (steps : list Step) (ls : Storage) :
  settled (fst (performAll steps (initialState, ls))).
Proof.
  assert (H0 : settled initialState).
  { split; [reflexivity|]. split; [left; reflexivity|].
    repeat split; try reflexivity; discriminate. }
  revert H0. generalize initialState as s. revert ls.
  induction steps as [|st rest IH]; intros ls s Hs; cbn [performAll fst snd].
  - exact Hs.
  - unfold after. cbn [fst snd]. apply IH. apply settled_step. exact Hs.
Qed.

(** ** The effects *)

Section Effects.
Variable c : Collaborators.

(** The guards of the effects repeat the guards of the operations: the
    effects that load the goals, recompute the Progress (on a change of
    the goals and on the tick of the interval) and check the achievements
    do exactly what the operation does when called directly, state, cache
    and calls alike; the only difference is that a rejection of
    [checkGoalAchievements] does not reach the effect. *)
Theorem effects_repeat_guards (now : Z) (s : GoalState) (ls : Storage) :
  run (loadEffect c now) s ls = run (loadGoals c now) s ls /\
  run (progressEffect c now s) s ls = run (updateGoalProgress c now s) s ls /\
  run (intervalEffect c now s) s ls = run (updateGoalProgress c now s) s ls /\
  fst (run (achievementEffect c now s) s ls)
  = fst (run (checkGoalAchievements c now s) s ls) /\
  snd (run (achievementEffect c now s) s ls) = Returned tt.
Proof.
  assert (Hup : forall w, snd (updateGoalProgress c now s w) = Returned tt).
  { intros w. unfold updateGoalProgress, resetDailyGoalsForNewDay.
    destruct (isAuthenticated c); [|reflexivity].
    destruct (user c) as [u|]; [|reflexivity].
    destruct (dailyGoal s); [|reflexivity].
    destruct (monthlyGoal s); [|reflexivity].
    step_engine.
    destruct (truthy (storage w !! "lastDailyCelebration")
              && negb (strictEq (storage w !! "lastDailyCelebration")
                         (toDateString (LocalTZA c) now)));
      destruct (getDashboardAnalytics c (store_id u) today);
      try destruct (getDashboardAnalytics c (store_id u) this_month);
      cbn; destruct (dailyGoal s); reflexivity. }
  assert (Hdet : forall w, detached (updateGoalProgress c now s) w
                           = updateGoalProgress c now s w).
  { intros w. unfold detached. specialize (Hup w).
    destruct (updateGoalProgress c now s w) as [w' r]. cbn in *. subst r.
    reflexivity. }
  split; [|split; [|split; [|split]]].
  - destruct (loadGoals_guards c now s ls) as [G|(u & store & Ha & Hu & Hs & He)].
    + rewrite (loadGoals_skips c now s ls G). unfold loadEffect, run.
      destruct G as [G|[G|(u & Hu & [G|G])]].
      * rewrite G. reflexivity.
      * rewrite G. destruct (isAuthenticated c); reflexivity.
      * rewrite Hu, G. destruct (isAuthenticated c); reflexivity.
      * rewrite Hu, G. destruct (isAuthenticated c); reflexivity.
    + assert (R : snd (run (loadGoals c now) s ls) = Returned tt).
      { destruct (loadGoals_cases c now s ls u store Ha Hu Hs He)
          as [[_ ->]|[_ ->]]; reflexivity. }
      unfold loadEffect, run in *. rewrite Ha, Hu, Hs.
      apply String.eqb_neq in He. rewrite He.
      unfold tryCatch.
      destruct (loadGoals c now {| state := s; storage := ls; log := [] |})
        as [w o]. cbn in R. subst o. reflexivity.
  - unfold progressEffect, run.
    destruct (isAuthenticated c) eqn:Ha;
      [destruct (user c) as [u|] eqn:Hu|];
      [destruct (dailyGoal s) as [dg|] eqn:Hd;
       [destruct (monthlyGoal s) as [mg|] eqn:Hm|]| |];
      try apply Hdet;
      unfold updateGoalProgress; rewrite ?Ha, ?Hu, ?Hd, ?Hm; reflexivity.
  - unfold intervalEffect, run.
    destruct (isAuthenticated c) eqn:Ha;
      [destruct (user c) as [u|] eqn:Hu|];
      try apply Hdet;
      unfold updateGoalProgress; rewrite ?Ha, ?Hu; reflexivity.
  - unfold achievementEffect, checkGoalAchievements, run, detached.
    destruct (dailyProgress s); [|reflexivity].
    destruct (monthlyProgress s); reflexivity.
  - unfold achievementEffect, run, detached.
    destruct (dailyProgress s); [|reflexivity].
    destruct (monthlyProgress s); reflexivity.
Qed.

End Effects.

(** ** Examples *)

(** A stale page: the goals of June are in the state, the Goal Store
    cannot be reached and the backup of the daily goal holds the text
    [null].  The run reports a failure and leaves the goals and the
    cache as they were. *)
Lemma loadGoals_settles_witness :
  let ls : Storage := <["goal_daily_S1" := Raw "null"]> ∅ in
  let r := run (loadGoals (offline owner) june1_morning) juneState ls in
  snd r = Returned tt /\ loading (state (fst r)) = false /\
  failed (fst r) /\
  error (state (fst r)) = Some "Failed to load goals" /\
  dailyGoal (state (fst r)) = Some june1Goal /\
  storage (fst r) = ls.
Proof.
  cbv zeta.
  destruct (loadGoals_settles (offline owner) june1_morning juneState
              (<["goal_daily_S1" := Raw "null"]> ∅) owner "S1"
              eq_refl eq_refl eq_refl ltac:(discriminate))
    as (H1 & H2 & [(H3 & _)|(H3 & _ & H4 & H5 & _ & H6)]).
  - exfalso. apply H3. apply failed_iff. vm_compute. reflexivity.
  - split; [exact H1|]. split; [exact H2|]. split; [exact H3|].
    split; [exact H4|]. split; [exact H5|exact H6].
Defined.

Lemma loadGoals_backup_witness :
  let w := fst (run (loadGoals listedShop june1_morning) initialState ∅) in
  storage w !! "goal_daily_S1" = Some (Json june1Goal) /\
  storage w !! "goal_monthly_S1" = Some (Json juneGoal).
Proof.
  cbv zeta.
  destruct (loadGoals_backup listedShop june1_morning initialState ∅ owner "S1"
              eq_refl eq_refl eq_refl ltac:(discriminate)) as (Hd & Hm & _).
  split.
  - apply (Hd (Some june1Goal)). vm_compute. do 4 right. left. reflexivity.
  - apply (Hm (Some juneGoal)). vm_compute. do 5 right. left. reflexivity.
Defined.

Lemma loadGoals_backup_round_trip_witness :
  let w := fst (run (loadGoals listedShop june1) initialState ∅) in
  let w' := fst (run (loadGoals (offline owner) june1_morning) initialState
                   (storage w)) in
  dailyGoal (state w') = Some june1Goal /\
  monthlyGoal (state w') = Some juneGoal /\
  storage w' = storage w.
Proof.
  cbv zeta.
  destruct (loadGoals_backup_round_trip listedShop (offline owner)
              june1 june1_morning initialState initialState ∅ owner owner "S1"
              june1Goal juneGoal
              eq_refl eq_refl eq_refl eq_refl eq_refl eq_refl
              ltac:(discriminate) eq_refl
              ltac:(vm_compute; reflexivity)
              (or_introl eq_refl)
              ltac:(vm_compute; do 4 right; left; reflexivity)
              ltac:(vm_compute; do 5 right; left; reflexivity)
              ltac:(vm_compute; reflexivity))
    as (_ & _ & H1 & H2 & _ & H4).
  split; [exact H1|]. split; [exact H2|exact H4].
Defined.

Lemma updateGoalProgress_query_failure_witness :
  let r := run (updateGoalProgress (offline owner) june1_morning juneState)
             juneState ∅ in
  snd r = Returned tt /\ state (fst r) = juneState /\ storage (fst r) = ∅.
Proof.
  cbv zeta.
  destruct (updateGoalProgress_query_failure (offline owner) june1_morning
              juneState ∅ owner june1Goal juneGoal
              eq_refl eq_refl eq_refl eq_refl) as (H1 & H2 & _).
  split; [exact H1|].
  destruct (H2 (or_introl eq_refl)) as (_ & _ & _ & H).
  apply H. vm_compute. reflexivity.
Defined.

Lemma updateGoalProgress_queries_witness :
  let c := session owner None creates goodTotals accepts in
  let w := fst (run (updateGoalProgress c june1_morning plainState) plainState ∅) in
  analyticsQueries (log w) = [(Some "S1", today); (Some "S1", this_month)] /\
  storage w = ∅.
Proof.
  cbv zeta.
  destruct (updateGoalProgress_queries
              (session owner None creates goodTotals accepts)
              june1_morning plainState ∅ owner plainDaily juneGoal
              eq_refl eq_refl eq_refl eq_refl) as (H1 & _ & H3).
  split; [exact H1|exact H3].
Defined.

Lemma updateGoalProgress_achieved_iff_full_witness :
  let c := session owner None creates goodTotals accepts in
  let s' := state (fst (run (updateGoalProgress c june1_morning plainState)
                          plainState ∅)) in
  exists dp mp,
    dailyProgress s' = Some dp /\ monthlyProgress s' = Some mp /\
    (is_achieved dp = true
     <-> exists q, progress_percentage dp = Some q /\ (100 <= q)%Q) /\
    (is_achieved mp = true
     <-> exists q, progress_percentage mp = Some q /\ (100 <= q)%Q).
Proof.
  cbv zeta.
  destruct (updateGoalProgress_achieved_iff_full
              (session owner None creates goodTotals accepts)
              june1_morning plainState ∅ owner plainDaily juneGoal
              {| totalSales := Some 150%Q |} {| totalSales := Some 20000%Q |}
              eq_refl eq_refl eq_refl eq_refl eq_refl eq_refl)
    as (dp & mp & H1 & H2 & H3 & H4 & _).
  exists dp, mp. repeat split; try assumption; try apply H3; try apply H4.
Defined.

Lemma updateGoalProgress_time_left_witness :
  let c := session owner None creates goodTotals accepts in
  let s' := state (fst (run (updateGoalProgress c june1_morning plainState)
                          plainState ∅)) in
  exists dp mp,
    dailyProgress s' = Some dp /\ monthlyProgress s' = Some mp /\
    hours_remaining dp = Some 15 /\ days_remaining mp = Some 29.
Proof.
  cbv zeta.
  destruct (updateGoalProgress_time_left
              (session owner None creates goodTotals accepts)
              june1_morning plainState ∅ owner plainDaily juneGoal
              {| totalSales := Some 150%Q |} {| totalSales := Some 20000%Q |}
              eq_refl eq_refl eq_refl eq_refl eq_refl eq_refl
              ltac:(vm_compute; discriminate))
    as (dp & mp & h & d & H1 & H2 & H3 & H4 & _ & H6 & H7 & _).
  exists dp, mp. split; [exact H1|]. split; [exact H2|].
  rewrite H3, H6, H4, H7. split; vm_compute; reflexivity.
Defined.

Lemma checkGoalAchievements_both_tracks_witness :
  let c := session owner None creates noTotals accepts in
  let r := run (checkGoalAchievements c june1_morning achievedState)
             achievedState ∅ in
  notifications (log (fst r)) = [daily_goal_achievement; monthly_goal_achievement] /\
  (exists cel, lastCelebration (state (fst r)) = Some cel /\
               goalType cel = monthly /\ goalName cel = "June") /\
  snd r = Returned tt.
Proof.
  cbv zeta.
  assert (Kd : strictEq ((∅ : Storage) !! "lastDailyCelebration")
                 (toDateString istanbul june1_morning) = false)
    by (vm_compute; reflexivity).
  assert (Km : strictEq ((∅ : Storage) !! "lastMonthlyCelebration")
                 (thisMonthKey (session owner None creates noTotals accepts)
                    june1_morning) = false)
    by (vm_compute; reflexivity).
  destruct (checkGoalAchievements_both_tracks
              (session owner None creates noTotals accepts)
              june1_morning achievedState ∅
              (achievedProgress june1Goal 3334) (achievedProgress juneGoal 100000)
              june1Goal juneGoal
              eq_refl eq_refl eq_refl eq_refl eq_refl eq_refl Kd Km eq_refl)
    as (H1 & _ & H3 & _ & _ & H6).
  split; [exact H1|]. split.
  - eexists. split; [exact H3|]. split; reflexivity.
  - apply H6. reflexivity.
Defined.

Lemma checkGoalAchievements_stale_marker_witness :
  let c := session owner None creates noTotals accepts in
  let s := goalReducer
             (goalReducer (fst eveningOfMay31)
                (SET_DAILY_PROGRESS (Some (resetDailyProgress may31Goal))))
             (SET_LAST_CELEBRATION
                (Some (celebrationOf monthly mayGoal
                         (achievedProgress mayGoal 100000) may31))) in
  let ls : Storage := <["lastDailyCelebration" := Raw "Fri May 31 2024"]> ∅ in
  let w := fst (run (checkGoalAchievements c june1_morning s) s ls) in
  lastCelebration s <> None /\
  lastCelebration (state w) = None /\
  storage w !! "lastDailyCelebration" = Some (Raw "Fri May 31 2024").
Proof.
  cbv zeta.
  set (s := goalReducer
             (goalReducer (fst eveningOfMay31)
                (SET_DAILY_PROGRESS (Some (resetDailyProgress may31Goal))))
             (SET_LAST_CELEBRATION
                (Some (celebrationOf monthly mayGoal
                         (achievedProgress mayGoal 100000) may31)))).
  assert (Hm : exists mp, monthlyProgress s = Some mp /\ is_achieved mp = false).
  { eexists. split; vm_compute; reflexivity. }
  destruct Hm as (mp & Hm & Hach).
  rewrite (checkGoalAchievements_stale_marker
             (session owner None creates noTotals accepts)
             june1_morning s
             (<["lastDailyCelebration" := Raw "Fri May 31 2024"]> ∅)
             (resetDailyProgress may31Goal) mp "Fri May 31 2024"
             ltac:(vm_compute; reflexivity) Hm
             ltac:(vm_compute; reflexivity)
             ltac:(discriminate) ltac:(vm_compute; discriminate)
             eq_refl (or_introl Hach)).
  split; [vm_compute; discriminate|]. split; vm_compute; reflexivity.
Defined.

Lemma resetDailyGoalsForNewDay_once_witness :
  let c := session owner None creates noTotals accepts in
  let ls : Storage := <["lastDailyCelebration" := Raw "Fri May 31 2024"]> ∅ in
  let w := fst (run (resetDailyGoalsForNewDay c june1 juneState) juneState ls) in
  run (resetDailyGoalsForNewDay c june1_morning (state w)) (state w) (storage w)
  = ({| state := state w; storage := storage w;
        log := [EvGetItem "lastDailyCelebration"] |}, Returned tt).
Proof.
  cbv zeta.
  apply (resetDailyGoalsForNewDay_once
           (session owner None creates noTotals accepts) june1 june1_morning
           juneState _
           (<["lastDailyCelebration" := Raw "Fri May 31 2024"]> ∅)).
  vm_compute. reflexivity.
Defined.

Lemma updateGoalProgress_then_checkGoalAchievements_witness :
  let c := session owner None creates goodTotals accepts in
  let w1 := fst (run (updateGoalProgress c june1 plainState) plainState ∅) in
  let w2 := fst (run (checkGoalAchievements c june1_morning (state w1))
                   (state w1) (storage w1)) in
  In daily_goal_achievement (notifications (log w2)) /\
  ~ In monthly_goal_achievement (notifications (log w2)).
Proof.
  cbv zeta.
  destruct (updateGoalProgress_then_checkGoalAchievements
              (session owner None creates goodTotals accepts)
              june1 june1_morning plainState ∅ owner plainDaily juneGoal
              {| totalSales := Some 150%Q |} {| totalSales := Some 20000%Q |}
              eq_refl eq_refl eq_refl eq_refl eq_refl eq_refl
              ltac:(vm_compute; reflexivity) eq_refl)
    as (H1 & H2 & _).
  split.
  - apply H1. split; [reflexivity|]. split; [vm_compute; discriminate|].
    discriminate.
  - intros H. apply H2 in H. destruct H as (_ & H & _).
    vm_compute in H. apply H. reflexivity.
Defined.

(** The morning of 1 June, both tracks achieved, no marker in the cache,
    and two invocations, a minute apart, that overlap. *)
Lemma checkGoalAchievements_overlap_witness :
  let i1 := invocation accepts june1_morning achievedState in
  let i2 := invocation accepts (june1_morning + 60000) achievedState in
  let st := schedule [Start i1; Start i2; Resume 0] (fresh achievedState ∅) in
  countIn (isNotify daily) (fst st) = 1%nat /\
  countIn (isNotify monthly) (fst st) = 2%nat.
Proof.
  cbv zeta.
  destruct (checkGoalAchievements_overlap
              (invocation accepts june1_morning achievedState)
              (invocation accepts (june1_morning + 60000) achievedState)
              achievedState ∅)
    as (_ & _ & H1 & H2 & _).
  - eexists. split; [reflexivity|]. split; [reflexivity|discriminate].
  - eexists. split; [reflexivity|]. split; [reflexivity|discriminate].
  - eexists. eexists. split; reflexivity.
  - eexists. split; [reflexivity|]. split; [reflexivity|discriminate].
  - reflexivity.
  - vm_compute. reflexivity.
  - vm_compute. reflexivity.
  - reflexivity.
  - reflexivity.
  - split; [exact H1|exact H2].
Defined.
